(** * poretools: a shallow embedding of [poretools/Fast5File.py]

    The development follows the Python module: the Python primitives it
    relies on (exceptions, [%] and [str.format] formatting, [int()],
    dictionaries), the HDF5 container as h5py presents it, the file system
    and tar archives, and then the three classes [Fast5File],
    [TarballFileIterator] and [Fast5FileSet], each in a module of its own
    so that methods keep their names.  Methods run in a state monad whose
    state outlives an exception.  Sample inputs and the vocabulary of the
    properties follow, and then the properties themselves, each numbered
    as in the specification's list (C1 to C10). *)

From Stdlib Require Import ZArith QArith String Ascii List Bool Lia.
From Stdlib Require Import DecimalString SpecFloat.
Import ListNotations.

Local Close Scope Q_scope.
Local Open Scope string_scope.
Local Open Scope Z_scope.

Set Implicit Arguments.
Set Warnings "-register-all".

(* ================================================================== *)
(** * Python primitives *)
(* ================================================================== *)

(** The exception classes that occur in the module.  All of them derive
    from [Exception]; [SystemExit] does not and is kept apart (see
    [outcome]). *)
Inductive exn : Type :=
  | KeyError
  | TypeError
  | ValueError
  | AttributeError
  | IndexError
  | ZeroDivisionError
  | OverflowError
  | StopIteration
  | OSError
  | FileNotFoundError.

(** What evaluating a Python expression or statement comes to: a value,
    a raised [Exception], or [sys.exit(msg)], which raises [SystemExit]
    and is not caught by [except Exception]. [Exit None] is [sys.exit()]. *)
Inductive outcome (A : Type) : Type :=
  | Ok (a : A)
  | Raise (e : exn)
  | Exit (msg : option string).

Arguments Ok {A} a.
Arguments Raise {A} e.
Arguments Exit {A} msg.

Definition obind {A B} (m : outcome A) (k : A -> outcome B) : outcome B :=
  match m with
  | Ok a => k a
  | Raise e => Raise e
  | Exit msg => Exit msg
  end.

Definition omap {A B} (f : A -> B) (m : outcome A) : outcome B :=
  obind m (fun a => Ok (f a)).

(** ** Characters and strings *)

Definition is_digit (c : ascii) : bool :=
  let n := nat_of_ascii c in (48 <=? n)%nat && (n <=? 57)%nat.

Definition digit_value (c : ascii) : nat := (nat_of_ascii c - 48)%nat.

(** [str.isspace] on the ASCII range: space, TAB, LF, VT, FF, CR and the
    four separators FS, GS, RS, US. *)
Definition is_space (c : ascii) : bool :=
  let n := nat_of_ascii c in
  (n =? 32)%nat || ((9 <=? n)%nat && (n <=? 13)%nat)
  || ((28 <=? n)%nat && (n <=? 31)%nat).

Fixpoint zeros (n : nat) : string :=
  match n with
  | O => ""
  | S n' => String "0" (zeros n')
  end.

Fixpoint spaces (n : nat) : string :=
  match n with
  | O => ""
  | S n' => String " " (spaces n')
  end.

(** [str(n)] for a non-negative integer. *)
Definition decimal (n : Z) : string :=
  NilZero.string_of_uint (N.to_uint (Z.to_N n)).

(** The conversion [d] with an optional [0] flag and a minimum width, as
    both [%] and [format] perform it: with the flag the zeros go between
    the sign and the digits, without it spaces go in front. *)
Definition pad_int (zero : bool) (width : nat) (n : Z) : string :=
  let sign := if n <? 0 then "-" else "" in
  let digits := decimal (Z.abs n) in
  let fill := (width - (String.length sign + String.length digits))%nat in
  if zero then sign ++ zeros fill ++ digits
  else spaces fill ++ sign ++ digits.

(** [s.startswith(p)] and [s.endswith(p)]. *)
Definition startswith (s p : string) : bool := String.prefix p s.

Definition endswith (s p : string) : bool :=
  let ls := String.length s in
  let lp := String.length p in
  (lp <=? ls)%nat && String.eqb (String.substring (ls - lp) lp s) p.

(** [s.split(sep)] for a one-character separator; [cur] is the piece
    being read. *)
Fixpoint split_on (sep : ascii) (s : string) (cur : string) : list string :=
  match s with
  | "" => [cur]
  | String c rest =>
      if Ascii.eqb c sep then cur :: split_on sep rest ""
      else split_on sep rest (cur ++ String c "")
  end.

Definition split (sep : ascii) (s : string) : list string := split_on sep s "".

(** [os.path.basename] on POSIX: what follows the last slash. *)
Definition basename (p : string) : string := last (split "/" p) "".

(** [os.path.join(a, b)] on POSIX. *)
Definition path_join (a b : string) : string :=
  if startswith b "/" then b
  else if String.eqb a "" || endswith a "/" then a ++ b
  else a ++ "/" ++ b.

(** ** The [%] operator with one integer argument

    The fragment of printf-style formatting the module uses: text,
    [%%], and the conversions [d] and [i] with an optional [0] flag and a
    width.  Any other conversion character is reported as Python reports
    an unsupported one.  As in Python, the argument must be consumed
    exactly once: a template without a conversion raises [TypeError]
    ("not all arguments converted during string formatting"), a second
    conversion raises [TypeError] ("not enough arguments"). *)
Inductive pct_state : Type :=
  | PctText
  | PctStart
  | PctWidth (zero : bool) (width : nat).

Definition prepend (c : ascii) (m : outcome string) : outcome string :=
  omap (String c) m.

Definition pct_convert (zero : bool) (width : nat) (arg : option Z)
    (k : outcome string) : outcome string :=
  match arg with
  | Some n => omap (append (pad_int zero width n)) k
  | None => Raise TypeError
  end.

Fixpoint pct_go (tpl : string) (st : pct_state) (arg : option Z)
    : outcome string :=
  match tpl with
  | "" =>
      match st with
      | PctText =>
          match arg with
          | None => Ok ""
          | Some _ => Raise TypeError
          end
      | _ => Raise ValueError
      end
  | String c rest =>
      match st with
      | PctText =>
          if Ascii.eqb c "%" then pct_go rest PctStart arg
          else prepend c (pct_go rest PctText arg)
      | PctStart =>
          if Ascii.eqb c "%" then prepend "%" (pct_go rest PctText arg)
          else if Ascii.eqb c "0" then pct_go rest (PctWidth true 0) arg
          else if is_digit c then pct_go rest (PctWidth false (digit_value c)) arg
          else if Ascii.eqb c "d" || Ascii.eqb c "i"
          then pct_convert false 0 arg (pct_go rest PctText None)
          else Raise ValueError
      | PctWidth zero w =>
          if is_digit c then pct_go rest (PctWidth zero (10 * w + digit_value c)) arg
          else if Ascii.eqb c "d" || Ascii.eqb c "i"
          then pct_convert zero w arg (pct_go rest PctText None)
          else Raise ValueError
      end
  end.

(** [tpl % n] *)
Definition percent_format (tpl : string) (n : Z) : outcome string :=
  pct_go tpl PctText (Some n).

(** ** [str.format] with one integer argument

    The fragment: text, the escapes [{{] and [}}], and replacement fields
    [{}], [{0}], [{:spec}], [{0:spec}] whose spec is an optional [0], a
    width and an optional [d].  Unlike [%], [format] ignores an argument
    no field refers to. *)
Fixpoint parse_width (s : string) (w : nat) : option (nat * string) :=
  match s with
  | "" => Some (w, "")
  | String c rest =>
      if is_digit c then parse_width rest (10 * w + digit_value c)
      else Some (w, s)
  end.

Definition render_spec (spec : string) (n : Z) : outcome string :=
  let '(zero, body) :=
    match spec with
    | String c rest => if Ascii.eqb c "0" then (true, rest) else (false, spec)
    | "" => (false, spec)
    end in
  match parse_width body 0 with
  | Some (w, tail) =>
      if String.eqb tail "" || String.eqb tail "d"
      then Ok (pad_int zero w n)
      else Raise ValueError
  | None => Raise ValueError
  end.

Fixpoint all_digits (s : string) : bool :=
  match s with
  | "" => true
  | String c rest => is_digit c && all_digits rest
  end.

(** A field [name:spec]; [auto] counts the automatically numbered fields
    seen so far.  Only argument 0 exists. *)
Definition render_field (field : string) (auto : nat) (n : Z) : outcome string :=
  let name :=
    match index 0 ":" field with
    | Some i => substring 0 i field
    | None => field
    end in
  let spec :=
    match index 0 ":" field with
    | Some i => substring (S i) (String.length field - S i) field
    | None => ""
    end in
  if String.eqb name "" then
    match auto with
    | O => render_spec spec n
    | S _ => Raise IndexError
    end
  else if String.eqb name "0" then render_spec spec n
  else if all_digits name then Raise IndexError
  else Raise KeyError.

Inductive fmt_state : Type :=
  | FmtText
  | FmtOpen
  | FmtClose
  | FmtField (acc : string).

(** A field without a name takes the next argument. *)
Definition next_auto (field : string) (auto : nat) : nat :=
  if String.eqb field "" || startswith field ":" then S auto else auto.

Fixpoint format_go (tpl : string) (st : fmt_state) (auto : nat) (n : Z)
    : outcome string :=
  match tpl with
  | "" =>
      match st with
      | FmtText => Ok ""
      | _ => Raise ValueError
      end
  | String c rest =>
      match st with
      | FmtText =>
          if Ascii.eqb c "{" then format_go rest FmtOpen auto n
          else if Ascii.eqb c "}" then format_go rest FmtClose auto n
          else prepend c (format_go rest FmtText auto n)
      | FmtOpen =>
          if Ascii.eqb c "{" then prepend "{" (format_go rest FmtText auto n)
          else if Ascii.eqb c "}" then
            obind (render_field "" auto n) (fun r =>
              omap (append r) (format_go rest FmtText (next_auto "" auto) n))
          else format_go rest (FmtField (String c "")) auto n
      | FmtClose =>
          if Ascii.eqb c "}" then prepend "}" (format_go rest FmtText auto n)
          else Raise ValueError
      | FmtField acc =>
          if Ascii.eqb c "}" then
            obind (render_field acc auto n) (fun r =>
              omap (append r) (format_go rest FmtText (next_auto acc auto) n))
          else format_go rest (FmtField (acc ++ String c "")) auto n
      end
  end.

(** [tpl.format(n)] *)
Definition str_format (tpl : string) (n : Z) : outcome string :=
  format_go tpl FmtText 0 n.

(** ** Dictionaries

    A [dict] keeps insertion order, which [items()] exposes, so it is an
    association list; keys are unique by construction. *)
Definition dict (V : Type) : Type := list (string * V).

Fixpoint dict_get {V} (d : dict V) (k : string) : option V :=
  match d with
  | [] => None
  | (k', v) :: d' => if String.eqb k' k then Some v else dict_get d' k
  end.

(** [d[k]]: a missing key raises [KeyError]. *)
Definition dict_getitem {V} (d : dict V) (k : string) : outcome V :=
  match dict_get d k with
  | Some v => Ok v
  | None => Raise KeyError
  end.

(** [d[k] = v]: an existing key keeps its place. *)
Fixpoint dict_set {V} (d : dict V) (k : string) (v : V) : dict V :=
  match d with
  | [] => [(k, v)]
  | (k', v') :: d' =>
      if String.eqb k' k then (k', v) :: d' else (k', v') :: dict_set d' k v
  end.

Definition items {V} (d : dict V) : list (string * V) := d.

(* ================================================================== *)
(** * The path table *)
(* ================================================================== *)

Definition fastq_paths : dict (dict string) :=
  [ ("closed", []);
    ("r9rnn",
      [ ("template", "/Analyses/Basecall_RNN_1D_{:03d}/BaseCalled_template") ]);
    ("metrichor1.16",
      [ ("template", "/Analyses/Basecall_1D_{:03d}/BaseCalled_template");
        ("complement", "/Analyses/Basecall_1D_{:03d}/BaseCalled_complement");
        ("twodirections", "/Analyses/Basecall_2D_{:03d}/BaseCalled_2D");
        ("pre_basecalled", "/Analyses/EventDetection_000/Reads/") ]);
    ("classic",
      [ ("template", "/Analyses/Basecall_2D_{:03d}/BaseCalled_template");
        ("complement", "/Analyses/Basecall_2D_{:03d}/BaseCalled_complement");
        ("twodirections", "/Analyses/Basecall_2D_{:03d}/BaseCalled_2D");
        ("pre_basecalled", "/Analyses/EventDetection_000/Reads/") ]);
    ("prebasecalled",
      [ ("pre_basecalled", "/Analyses/EventDetection_000/Reads/") ]) ].

Definition FAST5SET_FILELIST : Z := 0.
Definition FAST5SET_DIRECTORY : Z := 1.
Definition FAST5SET_SINGLEFILE : Z := 2.
Definition FAST5SET_TARBALL : Z := 3.
Definition PORETOOLS_TMPDIR : string := ".poretools_tmp".

(** [fastq_paths[version][strand]], the keyed lookup as the module
    writes it. *)
Definition fastq_path (version strand : string) : outcome string :=
  obind (dict_getitem fastq_paths version) (fun d => dict_getitem d strand).

(** ** [int(x)] on a string

    Surrounding whitespace, an optional sign, decimal digits, single
    underscores between digits; anything else is a [ValueError]. *)
Inductive int_state : Type :=
  | IntLead
  | IntSigned (neg : bool)
  | IntDigits (neg : bool) (acc : Z)
  | IntUnder (neg : bool) (acc : Z)
  | IntTrail (v : Z).

Definition signed (neg : bool) (acc : Z) : Z := if neg then - acc else acc.

Fixpoint int_go (s : string) (st : int_state) : outcome Z :=
  match s with
  | "" =>
      match st with
      | IntDigits neg acc => Ok (signed neg acc)
      | IntTrail v => Ok v
      | _ => Raise ValueError
      end
  | String c rest =>
      match st with
      | IntLead =>
          if is_space c then int_go rest IntLead
          else if Ascii.eqb c "+" then int_go rest (IntSigned false)
          else if Ascii.eqb c "-" then int_go rest (IntSigned true)
          else if is_digit c
          then int_go rest (IntDigits false (Z.of_nat (digit_value c)))
          else Raise ValueError
      | IntSigned neg =>
          if is_digit c
          then int_go rest (IntDigits neg (Z.of_nat (digit_value c)))
          else Raise ValueError
      | IntDigits neg acc =>
          if is_digit c
          then int_go rest (IntDigits neg (10 * acc + Z.of_nat (digit_value c)))
          else if Ascii.eqb c "_" then int_go rest (IntUnder neg acc)
          else if is_space c then int_go rest (IntTrail (signed neg acc))
          else Raise ValueError
      | IntUnder neg acc =>
          if is_digit c
          then int_go rest (IntDigits neg (10 * acc + Z.of_nat (digit_value c)))
          else Raise ValueError
      | IntTrail v =>
          if is_space c then int_go rest (IntTrail v) else Raise ValueError
      end
  end.

Definition int_of_string (s : string) : outcome Z := int_go s IntLead.

(** ** Numbers

    A Python float and a numpy [float64] are IEEE 754 binary64 values.
    They are the [spec_float] of the standard library, with its
    operations at precision 53 and exponent bound 1024: every operation
    returns the double nearest to the exact result, ties to even. *)
Definition prec : Z := 53.
Definition emax : Z := 1024.

Definition pyfloat : Type := spec_float.

Inductive pynum : Type :=
  | PInt (z : Z)
  | PFloat (f : pyfloat).

(** Truncation toward zero of a rational. *)
Definition Qtrunc (q : Q) : Z := Z.quot (Qnum q) (Zpos (Qden q)).

(** [int(x)] on a float: truncation toward zero; the mantissa is
    shifted by the exponent. *)
Definition int_of_float (f : pyfloat) : outcome Z :=
  match f with
  | S754_zero _ => Ok 0
  | S754_finite s m e => Ok (cond_Zopp s (Z.shiftl (Zpos m) e))
  | S754_infinity _ => Raise OverflowError
  | S754_nan => Raise ValueError
  end.

(** An integer as an operand that has not been rounded: the mantissa is
    its absolute value, the exponent 0.  A division that takes it rounds
    once, at the end. *)
Definition exact_int (z : Z) : spec_float :=
  match z with
  | Z0 => S754_zero false
  | Zpos p => S754_finite false p 0
  | Zneg p => S754_finite true p 0
  end.

(** The conversion of an integer to a double, as C and numpy do it: the
    nearest double, an infinity when there is none. *)
Definition double_of_Z (z : Z) : pyfloat := binary_normalize prec emax z 0 false.

(** [float(n)] on a Python integer, which is also how [n + x] and
    [x / n] convert [n] when [x] is a float: [OverflowError] when [n] is
    too large for a double. *)
Definition float_of_int (n : Z) : outcome pyfloat :=
  match double_of_Z n with
  | S754_infinity _ => Raise OverflowError
  | x => Ok x
  end.

(** [a / b] on two Python integers: the double nearest to the exact
    quotient, whatever the size of [a] and [b]; [OverflowError] when the
    quotient is too large for a double. *)
Definition int_truediv (a b : Z) : outcome pyfloat :=
  if b =? 0 then Raise ZeroDivisionError
  else
    match SFdiv prec emax (exact_int a) (exact_int b) with
    | S754_infinity _ => Raise OverflowError
    | q => Ok q
    end.

(** [n + x] with [n] a Python integer: added to a float, [n] is
    converted to a double first and the sum is rounded. *)
Definition int_add (n : Z) (x : pynum) : outcome pynum :=
  match x with
  | PInt z => Ok (PInt (n + z))
  | PFloat f => omap (fun a => PFloat (SFadd prec emax a f)) (float_of_int n)
  end.

(* ================================================================== *)
(** * The HDF5 container, as h5py presents it *)
(* ================================================================== *)

(** An attribute value: a numpy integer or float scalar, or a string.
    h5py reads a variable-length string as a [str] and a fixed-length
    one as [numpy.bytes_], which is a [bytes]. *)
Inductive attr_value : Type :=
  | AInt (z : Z)
  | AFloat (q : Q)
  | AStr (s : string)
  | ABytes (s : string).

(** One record of a compound dataset. *)
Definition row : Type := list attr_value.

Inductive h5data : Type :=
  | DStr (s : string)
  | DTable (rows : list row).

(** Groups list their members in the order h5py iterates them. *)
Inductive h5node : Type :=
  | H5Group (attrs : dict attr_value) (members : list (string * h5node))
  | H5Dataset (attrs : dict attr_value) (data : h5data).

Definition h5_attrs (n : h5node) : dict attr_value :=
  match n with
  | H5Group a _ => a
  | H5Dataset a _ => a
  end.

(** A path is cut at slashes; empty pieces and [.] stand for the group
    itself, so a leading or trailing slash changes nothing when the
    lookup starts at the root. *)
Definition h5_segments (path : string) : list string :=
  filter (fun s => negb (String.eqb s "" || String.eqb s ".")) (split "/" path).

Fixpoint h5_resolve (n : h5node) (segs : list string) : option h5node :=
  match segs with
  | [] => Some n
  | s :: rest =>
      match n with
      | H5Group _ members =>
          match dict_get members s with
          | Some c => h5_resolve c rest
          | None => None
          end
      | H5Dataset _ _ => None
      end
  end.

(** [g.get(path)]: [None] when nothing is there. *)
Definition h5_get (g : h5node) (path : string) : option h5node :=
  h5_resolve g (h5_segments path).

(** [g[path]] on a group raises [KeyError] when nothing is there; on a
    dataset a string index names a field of a compound type, which the
    datasets here do not have. *)
Definition h5_getitem (g : h5node) (path : string) : outcome h5node :=
  match g with
  | H5Group _ _ =>
      match h5_get g path with
      | Some n => Ok n
      | None => Raise KeyError
      end
  | H5Dataset _ _ => Raise ValueError
  end.

(** [list(g.keys())] *)
Definition h5_keys (g : h5node) : outcome (list string) :=
  match g with
  | H5Group _ members => Ok (map fst members)
  | H5Dataset _ _ => Raise AttributeError
  end.

(** [n.attrs[name]] *)
Definition attrs_getitem (n : h5node) (name : string) : outcome attr_value :=
  dict_getitem (h5_attrs n) name.

(** [d[()]]: the whole content of a dataset. *)
Definition h5_read (n : h5node) : outcome h5data :=
  match n with
  | H5Dataset _ d => Ok d
  | H5Group _ _ => Raise TypeError
  end.

(** [d.asstr()[()]] *)
Definition h5_asstr (n : h5node) : outcome string :=
  match n with
  | H5Dataset _ (DStr s) => Ok s
  | H5Dataset _ (DTable _) => Raise TypeError
  | H5Group _ _ => Raise AttributeError
  end.

Definition chars (s : string) : list ascii := list_ascii_of_string s.

(** The elements a [for] loop or [list.extend] sees in what a dataset
    read returned: the records of a table, the bytes of a string. *)
Definition data_rows (d : h5data) : list row :=
  match d with
  | DTable rows => rows
  | DStr s => map (fun c => [AInt (Z.of_nat (nat_of_ascii c))]) (chars s)
  end.

(** [len(d)] on what a dataset read returned. *)
Definition data_len (d : h5data) : Z := Z.of_nat (length (data_rows d)).

(** [int(v)] on an attribute value. *)
Definition int_of_attr (v : attr_value) : outcome Z :=
  match v with
  | AInt z => Ok z
  | AFloat q => Ok (Qtrunc q)
  | AStr s => int_of_string s
  | ABytes s => int_of_string s
  end.

(** A numpy [float64] scalar, given by the rational it stands for. *)
Definition double_of_Q (q : Q) : pyfloat :=
  SFdiv prec emax (exact_int (Qnum q)) (exact_int (Zpos (Qden q))).

(** What fits a numpy [int64]. *)
Definition int64_range (n : Z) : bool := (- 2 ^ 63 <=? n) && (n <? 2 ^ 63).

(** [v / n] on an attribute value and a Python integer.  On a numpy
    integer, [n] becomes an [int64] ([OverflowError] when it does not fit,
    as numpy 2 has it) and both operands are converted to doubles and
    divided; on a numpy float, [n] is converted to a double.  The
    division is IEEE's, which yields an infinity or a NaN rather than
    raise when [n] is zero.  A string cannot be divided. *)
Definition attr_truediv (v : attr_value) (n : Z) : outcome pyfloat :=
  match v with
  | AInt z =>
      if int64_range n
      then Ok (SFdiv prec emax (double_of_Z z) (double_of_Z n))
      else Raise OverflowError
  | AFloat q => omap (SFdiv prec emax (double_of_Q q)) (float_of_int n)
  | AStr _ => Raise TypeError
  | ABytes _ => Raise TypeError
  end.

(** [extract_data(s)]: a group is entered through its member [Fastq],
    a dataset is decoded as text. *)
Fixpoint extract_data (s : h5node) : outcome (option string) :=
  match s with
  | H5Group _ members =>
      (fix fastq_member (ms : list (string * h5node)) : outcome (option string) :=
         match ms with
         | [] => Raise KeyError
         | (k, c) :: ms' =>
             if String.eqb k "Fastq" then extract_data c else fastq_member ms'
         end) members
  | H5Dataset _ _ => omap Some (h5_asstr s)
  end.

(* ================================================================== *)
(** * State, exceptions and the logger *)
(* ================================================================== *)

(** A method runs on a state and leaves a state behind, also when it
    raises: what was assigned before the exception stays assigned. *)
Definition M (S A : Type) : Type := S -> outcome A * S.

Definition ret {S A} (a : A) : M S A := fun s => (Ok a, s).

Definition bind {S A B} (m : M S A) (k : A -> M S B) : M S B :=
  fun s =>
    match m s with
    | (Ok a, s') => k a s'
    | (Raise e, s') => (Raise e, s')
    | (Exit msg, s') => (Exit msg, s')
    end.

Definition raise {S A} (e : exn) : M S A := fun s => (Raise e, s).

(** [sys.exit(msg)] *)
Definition sys_exit {S A} (msg : option string) : M S A := fun s => (Exit msg, s).

Definition lift {S A} (o : outcome A) : M S A := fun s => (o, s).

Definition gets {S A} (f : S -> A) : M S A := fun s => (Ok (f s), s).

Definition modify {S} (f : S -> S) : M S unit := fun s => (Ok tt, f s).

(** [try: m  except Exception as e: h e].  [SystemExit] passes. *)
Definition try_except {S A} (m : M S A) (h : exn -> M S A) : M S A :=
  fun s =>
    match m s with
    | (Raise e, s') => h e s'
    | r => r
    end.

(** [try: m  except KeyError: h] *)
Definition try_except_KeyError {S A} (m : M S A) (h : M S A) : M S A :=
  try_except m (fun e => match e with KeyError => h | _ => raise e end).

Declare Scope monad_scope.
Delimit Scope monad_scope with monad.
Notation "x <- m ;; k" := (bind m (fun x => k))
  (at level 61, m at next level, right associativity) : monad_scope.
Notation "m ;;; k" := (bind m (fun _ => k))
  (at level 61, right associativity) : monad_scope.
Local Open Scope monad_scope.

Inductive log_level : Type := WARNING | ERROR.

(** A record handed to the [poretools] logger: the level, the text, and
    the exception whose [str()] the text ends with, if any. *)
Record log_record : Type := LogRecord {
  level : log_level;
  text : string;
  cause : option exn
}.

(* ================================================================== *)
(** * The file system *)
(* ================================================================== *)

(** What a path can name: a readable HDF5 container with the attributes
    and members of its root group, a tar archive with its members in
    archive order, any other regular file, a directory. *)
Inductive fsnode : Type :=
  | FsHdf5 (attrs : dict attr_value) (members : list (string * h5node))
  | FsTar (members : list (string * fsnode))
  | FsOther
  | FsDir (entries : list (string * fsnode)).

(** The entries of the working directory. *)
Definition FileSystem : Type := list (string * fsnode).

Definition path_segments (path : string) : list string :=
  filter (fun s => negb (String.eqb s "" || String.eqb s ".")) (split "/" path).

Fixpoint fs_resolve (n : fsnode) (segs : list string) : option fsnode :=
  match segs with
  | [] => Some n
  | s :: rest =>
      match n with
      | FsDir entries =>
          match dict_get entries s with
          | Some c => fs_resolve c rest
          | None => None
          end
      | _ => None
      end
  end.

Definition fs_lookup (fs : FileSystem) (path : string) : option fsnode :=
  fs_resolve (FsDir fs) (path_segments path).

(** [os.path.isdir] *)
Definition isdir (fs : FileSystem) (path : string) : bool :=
  match fs_lookup fs path with
  | Some (FsDir _) => true
  | _ => false
  end.

(** [tarfile.is_tarfile]: a path that names nothing is an error, not
    [False]. *)
Definition is_tarfile (fs : FileSystem) (path : string) : outcome bool :=
  match fs_lookup fs path with
  | Some (FsTar _) => Ok true
  | Some (FsDir _) => Raise OSError
  | Some _ => Ok false
  | None => Raise FileNotFoundError
  end.

(** [h5py.File(path, 'r')] *)
Definition h5py_File (fs : FileSystem) (path : string) : outcome h5node :=
  match fs_lookup fs path with
  | Some (FsHdf5 attrs members) => Ok (H5Group attrs members)
  | Some _ => Raise OSError
  | None => Raise FileNotFoundError
  end.

Fixpoint dict_remove {V} (d : dict V) (k : string) : dict V :=
  match d with
  | [] => []
  | (k', v) :: d' =>
      if String.eqb k' k then dict_remove d' k else (k', v) :: dict_remove d' k
  end.

(** [shutil.rmtree(name)] for a name in the working directory: what is
    not there cannot be removed. *)
Definition rmtree (fs : FileSystem) (name : string) : outcome FileSystem :=
  match dict_get fs name with
  | Some (FsDir _) => Ok (dict_remove fs name)
  | Some _ => Raise OSError
  | None => Raise FileNotFoundError
  end.

(** [os.mkdir(name)] for a name in the working directory. *)
Definition mkdir (fs : FileSystem) (name : string) : outcome FileSystem :=
  match dict_get fs name with
  | Some _ => Raise OSError
  | None => Ok (fs ++ [(name, FsDir [])])%list
  end.

(** Put [n] at [segs] below a directory, creating the directories on the
    way as [TarFile.extract] does. *)
Fixpoint fs_put (entries : list (string * fsnode)) (segs : list string)
    (n : fsnode) : list (string * fsnode) :=
  match segs with
  | [] => entries
  | [s] => dict_set entries s n
  | s :: rest =>
      let sub :=
        match dict_get entries s with
        | Some (FsDir es) => es
        | _ => []
        end in
      dict_set entries s (FsDir (fs_put sub rest n))
  end.

(** The files directly in a directory, as paths. *)
Fixpoint dir_files (dirpath : string) (entries : list (string * fsnode))
    : list string :=
  match entries with
  | [] => []
  | (k, FsDir _) :: es => dir_files dirpath es
  | (k, _) :: es => (dirpath ++ "/" ++ k) :: dir_files dirpath es
  end.

(** [[dirpath + os.path.sep + f for dirpath, _, files in os.walk(top)
    for f in files]]: the files of a directory, then those of each of its
    sub-directories in turn. *)
Fixpoint walk_files (dirpath : string) (n : fsnode) : list string :=
  match n with
  | FsDir entries =>
      (dir_files dirpath entries ++
      (fix subdirs (es : list (string * fsnode)) : list string :=
         match es with
         | [] => []
         | (k, c) :: es' =>
             match c with
             | FsDir _ => walk_files (path_join dirpath k) c
             | _ => []
             end ++ subdirs es'
         end) entries)%list
  | _ => []
  end.

(* ================================================================== *)
(** * The collaborators outside the module *)
(* ================================================================== *)

(** [formats.Fastq], [formats.Fasta], [Event], [dateutil.parser.parse]
    and [time.mktime] are used through their interface only: a sequence
    record is built from the text read in the container and has a [name]
    that can be read and assigned, an event is built from one record of
    an event table, a date is parsed from a string and converted to
    seconds by [time.mktime(dt.timetuple())].  A call returns or raises an
    [Exception]. *)
Definition raising (A : Type) : Type := (exn + A)%type.

Definition call {A} (r : raising A) : outcome A :=
  match r with
  | inl e => Raise e
  | inr a => Ok a
  end.

Class Externals : Type := {
  Fastq : Type;
  Fastq_new : string -> raising Fastq;
  Fastq_name : Fastq -> string;
  Fastq_set_name : Fastq -> string -> Fastq;
  Fasta : Type;
  Fasta_new : string -> raising Fasta;
  Fasta_name : Fasta -> string;
  Fasta_set_name : Fasta -> string -> Fasta;
  Event : Type;
  Event_new : row -> raising Event;
  datetime : Type;
  dateutil_parse : string -> raising datetime;
  mktime_timetuple : datetime -> raising pyfloat
}.

(** Two further collaborators.  [est_error_rate()] of a sequence record
    returns a number or raises.  [h5py]'s [get(name, getlink=True)] tells
    what kind of link a group has under a name; the container above holds
    what the names resolve to, not the links, so the kind is asked here:
    [None] when the group has no such name, a hard link, which has no
    attribute, or a soft link with its [path]. *)
Inductive h5link : Type :=
  | HardLink
  | SoftLink (path : string).

Class Collaborators `{X : Externals} : Type := {
  est_error_rate : Fastq -> raising Q;
  getlink : h5node -> string -> option h5link
}.

Definition nl : string := String "010" "".

(* ================================================================== *)
(** * class Fast5File *)
(* ================================================================== *)

Module Fast5File.
Section Methods.
Context `{X : Externals}.

(** The attributes of a handle.  [hdf5file] stays unbound ([None]) when
    the container could not be opened, and reading it then raises
    [AttributeError]; [pre_basecalled_events] is unbound until it is
    extracted.  [keyinfo] is bound by [_get_metadata], which every reader
    of it runs first; [None] is then Python's [None]. *)
Record t : Type := mk {
  filename : string;
  group : Z;
  is_open : bool;
  hdf5file : option h5node;
  version : string;
  fastas : dict Fasta;
  fastqs : dict Fastq;
  have_fastqs : bool;
  have_fastas : bool;
  have_templates : bool;
  have_complements : bool;
  have_pre_basecalled : bool;
  have_metadata : bool;
  pre_basecalled_events : option (list Event);
  keyinfo : option h5node
}.

(** A handle and what the module's logger has received. *)
Record state : Type := State {
  self : t;
  log : list log_record
}.

Definition on_self (f : t -> t) : M state unit :=
  modify (fun s => State (f (self s)) (log s)).

Definition set_fastas (v : dict Fasta) (h : t) : t :=
  mk (filename h) (group h) (is_open h) (hdf5file h) (version h) v (fastqs h)
     (have_fastqs h) (have_fastas h) (have_templates h) (have_complements h)
     (have_pre_basecalled h) (have_metadata h) (pre_basecalled_events h) (keyinfo h).

Definition set_fastqs (v : dict Fastq) (h : t) : t :=
  mk (filename h) (group h) (is_open h) (hdf5file h) (version h) (fastas h) v
     (have_fastqs h) (have_fastas h) (have_templates h) (have_complements h)
     (have_pre_basecalled h) (have_metadata h) (pre_basecalled_events h) (keyinfo h).

Definition set_have_pre_basecalled (v : bool) (h : t) : t :=
  mk (filename h) (group h) (is_open h) (hdf5file h) (version h) (fastas h) (fastqs h)
     (have_fastqs h) (have_fastas h) (have_templates h) (have_complements h)
     v (have_metadata h) (pre_basecalled_events h) (keyinfo h).

Definition set_have_metadata (v : bool) (h : t) : t :=
  mk (filename h) (group h) (is_open h) (hdf5file h) (version h) (fastas h) (fastqs h)
     (have_fastqs h) (have_fastas h) (have_templates h) (have_complements h)
     (have_pre_basecalled h) v (pre_basecalled_events h) (keyinfo h).

Definition set_pre_basecalled_events (v : option (list Event)) (h : t) : t :=
  mk (filename h) (group h) (is_open h) (hdf5file h) (version h) (fastas h) (fastqs h)
     (have_fastqs h) (have_fastas h) (have_templates h) (have_complements h)
     (have_pre_basecalled h) (have_metadata h) v (keyinfo h).

Definition set_keyinfo (v : option h5node) (h : t) : t :=
  mk (filename h) (group h) (is_open h) (hdf5file h) (version h) (fastas h) (fastqs h)
     (have_fastqs h) (have_fastas h) (have_templates h) (have_complements h)
     (have_pre_basecalled h) (have_metadata h) (pre_basecalled_events h) v.

Definition logger (lvl : log_level) (txt : string) (e : option exn) : M state unit :=
  modify (fun s => State (self s) (log s ++ [LogRecord lvl txt e])%list).

(** [self.hdf5file] *)
Definition self_hdf5file : M state h5node :=
  fun s =>
    match hdf5file (self s) with
    | Some f => (Ok f, s)
    | None => (Raise AttributeError, s)
    end.

(** [self.hdf5file[tpl % self.group]] *)
Definition probe (tpl : string) : M state h5node :=
  f <- self_hdf5file ;;
  g <- gets (fun s => group (self s)) ;;
  p <- lift (percent_format tpl g) ;;
  lift (h5_getitem f p).

Definition guess_version : M state string :=
  try_except_KeyError
    (probe "/Analyses/Basecall_2D_%03d/BaseCalled_template" ;;; ret "classic")
    (try_except_KeyError
       (probe "/Analyses/Basecall_1D_%03d/BaseCalled_template" ;;; ret "metrichor1.16")
       (try_except_KeyError
          (probe "/Analyses/Basecall_RNN_1D_%03d/BaseCalled_template" ;;; ret "r9rnn")
          (ret "prebasecalled"))).

(** [open]: the container is looked up in the file system [fs]. *)
Definition open (fs : FileSystem) (name : string) (lg : list log_record)
    : option h5node * bool * list log_record :=
  match h5py_File fs name with
  | Ok f => (Some f, true, lg)
  | _ =>
      (None, false,
       (lg ++ [LogRecord WARNING
                ("Cannot open file: " ++ name ++ ". Perhaps it is corrupt? Moving on." ++ nl)
                None])%list)
  end.

(** The constructor.  The attributes it assigns after the version get
    their initial values at once: [guess_version] reads none of them. *)
Definition __init__ (fs : FileSystem) (name : string) (grp : Z)
    (lg : list log_record) : outcome unit * state :=
  let '(f, opened, lg') := open fs name lg in
  let h0 := mk name grp opened f "" [] [] false false false false false false None None in
  let with_version (v : string) (h : t) : t :=
    mk (filename h) (group h) (is_open h) (hdf5file h) v (fastas h) (fastqs h)
       (have_fastqs h) (have_fastas h) (have_templates h) (have_complements h)
       (have_pre_basecalled h) (have_metadata h) (pre_basecalled_events h) (keyinfo h) in
  (if opened
   then v <- guess_version ;; on_self (with_version v)
   else on_self (with_version "closed")) (State h0 lg').

(** ** Metadata *)

Definition _get_metadata : M state unit :=
  try_except
    (f <- self_hdf5file ;;
     k <- lift (h5_getitem f "/UniqueGlobalKey") ;;
     on_self (set_keyinfo (Some k)))
    (fun _ =>
       try_except
         (f <- self_hdf5file ;;
          k <- lift (h5_getitem f "/Key") ;;
          on_self (set_keyinfo (Some k)))
         (fun _ =>
            on_self (set_keyinfo None) ;;;
            logger WARNING ("Cannot find keyinfo. Exiting." ++ nl) None)).

(** [if self.have_metadata is False: self._get_metadata();
    self.have_metadata = True], which opens every metadata accessor. *)
Definition ensure_metadata : M state unit :=
  have <- gets (fun s => have_metadata (self s)) ;;
  if have then ret tt
  else _get_metadata ;;; on_self (set_have_metadata true).

(** [self.keyinfo[sub].attrs[name]]; subscripting [None] is a
    [TypeError]. *)
Definition keyinfo_attr (sub name : string) : M state attr_value :=
  k <- gets (fun s => keyinfo (self s)) ;;
  match k with
  | None => raise TypeError
  | Some g =>
      n <- lift (h5_getitem g sub) ;;
      lift (attrs_getitem n name)
  end.

(** [v.endswith('Z')] with a [str] suffix: a [str] answers, a [bytes]
    wants a [bytes] suffix and raises [TypeError], a number has no such
    method. *)
Definition attr_endswith (v : attr_value) (suffix : string) : outcome bool :=
  match v with
  | AStr s => Ok (endswith s suffix)
  | ABytes _ => Raise TypeError
  | AInt _ => Raise AttributeError
  | AFloat _ => Raise AttributeError
  end.

(** [dateutil.parser.parse(v)]: the parser takes a string, and decodes
    a [bytes]. *)
Definition parse_attr (v : attr_value) : outcome datetime :=
  match v with
  | AStr s => call (dateutil_parse s)
  | ABytes s => call (dateutil_parse s)
  | AInt _ => Raise TypeError
  | AFloat _ => Raise TypeError
  end.

Definition get_exp_start_time : M state (option Z) :=
  ensure_metadata ;;;
  try_except_KeyError
    (v <- keyinfo_attr "tracking_id" "exp_start_time" ;;
     z <- lift (attr_endswith v "Z") ;;
     if z then
       v' <- keyinfo_attr "tracking_id" "exp_start_time" ;;
       dt <- lift (parse_attr v') ;;
       secs <- lift (call (mktime_timetuple dt)) ;;
       timestamp <- lift (int_of_float secs) ;;
       ret (Some timestamp)
     else
       v' <- keyinfo_attr "tracking_id" "exp_start_time" ;;
       timestamp <- lift (int_of_attr v') ;;
       ret (Some timestamp))
    (ret None).

Definition get_sample_frequency : M state (option Z) :=
  ensure_metadata ;;;
  try_except
    (v <- keyinfo_attr "context_tags" "sample_frequency" ;;
     n <- lift (int_of_attr v) ;;
     ret (Some n))
    (fun _ => ret None).

(** ** The read block *)

Definition hdf_internal_error {A} (reason : string) : M state A :=
  name <- gets (fun s => filename (self s)) ;;
  sys_exit
    (Some ("poretools internal error in file '" ++ name ++ "':" ++ nl
           ++ reason ++ nl
           ++ "Please report this error (with the offending file) to:" ++ nl
           ++ "    https://github.com/arq5x/poretools/issues")).

Definition find_read_number_block_fixed_raw : M state (option h5node) :=
  f <- self_hdf5file ;;
  match h5_get f "Raw/Reads" with
  | None => ret None
  | Some raw_reads =>
      reads <- lift (h5_keys raw_reads) ;;
      (if (length reads =? 0)%nat
       then hdf_internal_error "Raw/Reads group does not contain any items"
       else ret tt) ;;;
      (if (1 <? length reads)%nat
       then hdf_internal_error "Raw/Reads group contains more than one item"
       else ret tt) ;;;
      let path := "Raw/Reads/" ++ hd "" reads in
      f' <- self_hdf5file ;;
      match h5_get f' path with
      | None => hdf_internal_error ("Failed to get HDF5 item '" ++ path ++ "'")
      | Some node => ret (Some node)
      end
  end.

(** [fastq_paths[self.version][strand] % self.group] *)
Definition strand_path (strand : string) : M state string :=
  v <- gets (fun s => version (self s)) ;;
  tpl <- lift (fastq_path v strand) ;;
  g <- gets (fun s => group (self s)) ;;
  lift (percent_format tpl g).

(** [node.get('Events')]: a dataset has no [get]. *)
Definition node_get (n : h5node) (name : string) : outcome (option h5node) :=
  match n with
  | H5Group _ _ => Ok (h5_get n name)
  | H5Dataset _ _ => Raise AttributeError
  end.

Definition find_event_timing_block : M state (option h5node) :=
  path <- strand_path "template" ;;
  try_except
    (f <- self_hdf5file ;;
     node <- lift (h5_getitem f path) ;;
     lift (node_get node "Events"))
    (fun _ => ret None).

(** [int(n) / f] where [f] is what [get_sample_frequency] returned. *)
Definition truediv_frequency (n : Z) (f : option Z) : outcome pyfloat :=
  match f with
  | Some z => int_truediv n z
  | None => Raise TypeError
  end.

(** [int(x)] where [x] is an integer or [None]. *)
Definition int_of_optional (x : option Z) : outcome Z :=
  match x with
  | Some z => Ok z
  | None => Raise TypeError
  end.

Definition get_duration : M state (option pynum) :=
  let analyses : M state (option pynum) :=
    node <- find_event_timing_block ;;
    match node with
    | Some n =>
        v <- lift (attrs_getitem n "duration") ;;
        d <- lift (int_of_attr v) ;;
        ret (Some (PInt d))
    | None => ret None
    end in
  node <- find_read_number_block_fixed_raw ;;
  match node with
  | Some n =>
      try_except
        (v <- lift (attrs_getitem n "duration") ;;
         d <- lift (int_of_attr v) ;;
         f <- get_sample_frequency ;;
         q <- lift (truediv_frequency d f) ;;
         ret (Some (PFloat q)))
        (fun e => logger ERROR "" (Some e) ;;; analyses)
  | None => analyses
  end.

Definition get_start_time : M state (option Z) :=
  exp_start_time <- get_exp_start_time ;;
  let analyses : M state (option Z) :=
    node <- find_event_timing_block ;;
    match node with
    | Some n =>
        e <- lift (int_of_optional exp_start_time) ;;
        v <- lift (attrs_getitem n "start_time") ;;
        t <- lift (int_of_attr v) ;;
        ret (Some (e + t))
    | None => ret None
    end in
  node <- find_read_number_block_fixed_raw ;;
  match node with
  | Some n =>
      try_except
        (f <- get_sample_frequency ;;
         frequency <- lift (int_of_optional f) ;;
         e <- lift (int_of_optional exp_start_time) ;;
         v <- lift (attrs_getitem n "start_time") ;;
         q <- lift (attr_truediv v frequency) ;;
         t <- lift (int_of_float q) ;;
         ret (Some (e + t)))
        (fun e => logger ERROR "" (Some e) ;;; analyses)
  | None => analyses
  end.

(** [if x:] on an integer or [None]. *)
Definition truthy (x : option Z) : bool :=
  match x with
  | Some z => negb (z =? 0)
  | None => false
  end.

(** [x is not None] *)
Definition is_not_none {A} (x : option A) : bool :=
  match x with
  | Some _ => true
  | None => false
  end.

(** [start_time + duration]; [None] cannot be added. *)
Definition add_duration (start_time : option Z) (duration : option pynum)
    : outcome pynum :=
  match start_time, duration with
  | Some st, Some d => int_add st d
  | _, _ => Raise TypeError
  end.

Definition get_end_time : M state (option pynum) :=
  exp_start_time <- get_exp_start_time ;;
  start_time <- get_start_time ;;
  duration <- get_duration ;;
  if truthy start_time && is_not_none duration
  then r <- lift (add_duration start_time duration) ;; ret (Some r)
  else ret None.

(** ** Event counts *)

(** [len(self.hdf5file[path]['Events'][()])] for the path of [strand]. *)
Definition events_count (strand : string) : M state Z :=
  f <- self_hdf5file ;;
  path <- strand_path strand ;;
  table <- lift (h5_getitem f path) ;;
  ev <- lift (h5_getitem table "Events") ;;
  d <- lift (h5_read ev) ;;
  ret (data_len d).

Definition get_template_events_count : M state Z :=
  try_except (events_count "template") (fun _ => ret 0).

Definition get_complement_events_count : M state Z :=
  try_except (events_count "complement") (fun _ => ret 0).

Definition is_high_quality : M state bool :=
  c <- get_complement_events_count ;;
  t <- get_template_events_count ;;
  if t <=? c then ret true else ret false.

(** ** Extraction *)

(** [if not table]: [None] and the empty string are false. *)
Definition no_text (table : option string) : bool :=
  match table with
  | None => true
  | Some t => String.eqb t ""
  end.

(** The body of the loop of [_extract_fastqs_from_fast5] for one entry
    of the path table. *)
Definition extract_fastq (id h5path : string) : M state unit :=
  try_except
    (f <- self_hdf5file ;;
     g <- gets (fun s => group (self s)) ;;
     p <- lift (str_format h5path g) ;;
     n <- lift (h5_getitem f p) ;;
     table <- lift (extract_data n) ;;
     if no_text table then ret tt
     else
       fq <- lift (call (Fastq_new (match table with Some t => t | None => "" end))) ;;
       name <- gets (fun s => filename (self s)) ;;
       let fq' := Fastq_set_name fq (Fastq_name fq ++ " " ++ name) in
       on_self (fun h => set_fastqs (dict_set (fastqs h) id fq') h))
    (fun e =>
       name <- gets (fun s => filename (self s)) ;;
       logger WARNING ("Could not extract FASTQ from " ++ name ++ ": ") (Some e)).

Fixpoint for_each {A} (l : list A) (body : A -> M state unit) : M state unit :=
  match l with
  | [] => ret tt
  | a :: l' => body a ;;; for_each l' body
  end.

Definition _extract_fastqs_from_fast5 : M state unit :=
  v <- gets (fun s => version (self s)) ;;
  paths <- lift (dict_getitem fastq_paths v) ;;
  for_each (items paths) (fun '(id, h5path) => extract_fastq id h5path).

(** The body of the loop of [_extract_fastas_from_fast5]: the path is
    formatted with [%] here. *)
Definition extract_fasta (id h5path : string) : M state unit :=
  try_except
    (f <- self_hdf5file ;;
     g <- gets (fun s => group (self s)) ;;
     p <- lift (percent_format h5path g) ;;
     n <- lift (h5_getitem f p) ;;
     table <- lift (extract_data n) ;;
     if no_text table then ret tt
     else
       fa <- lift (call (Fasta_new (match table with Some t => t | None => "" end))) ;;
       name <- gets (fun s => filename (self s)) ;;
       let fa' := Fasta_set_name fa (Fasta_name fa ++ " " ++ name) in
       on_self (fun h => set_fastas (dict_set (fastas h) id fa') h))
    (fun e =>
       name <- gets (fun s => filename (self s)) ;;
       logger WARNING ("Could not extract FASTA from " ++ name ++ ": ") (Some e)).

Definition _extract_fastas_from_fast5 : M state unit :=
  v <- gets (fun s => version (self s)) ;;
  paths <- lift (dict_getitem fastq_paths v) ;;
  for_each (items paths) (fun '(id, h5path) => extract_fasta id h5path).

(** [for read in table]: the member names of a group.  A dataset yields
    its records, none of which can index it in the body of the loop, so
    only an empty table gets through. *)
Definition h5_iter (n : h5node) : outcome (list string) :=
  match n with
  | H5Group _ members => Ok (map fst members)
  | H5Dataset _ (DTable []) => Ok []
  | H5Dataset _ _ => Raise TypeError
  end.

(** [[f(x) for x in l]] *)
Fixpoint map_outcome {A B} (f : A -> outcome B) (l : list A) : outcome (list B) :=
  match l with
  | [] => Ok []
  | a :: l' => obind (f a) (fun b => omap (cons b) (map_outcome f l'))
  end.

(** [events.extend(table[read]["Events"][()])] for each [read]. *)
Fixpoint read_events (table : h5node) (reads : list string) : outcome (list row) :=
  match reads with
  | [] => Ok []
  | read :: reads' =>
      obind (h5_getitem table read) (fun r =>
      obind (h5_getitem r "Events") (fun ev =>
      obind (h5_read ev) (fun d =>
      omap (app (data_rows d)) (read_events table reads'))))
  end.

(** No [try] here: the one in the source is commented out. *)
Definition _extract_pre_basecalled_events : M state unit :=
  f <- self_hdf5file ;;
  v <- gets (fun s => version (self s)) ;;
  path <- lift (fastq_path v "pre_basecalled") ;;
  table <- lift (h5_getitem f path) ;;
  reads <- lift (h5_iter table) ;;
  events <- lift (read_events table reads) ;;
  evs <- lift (map_outcome (fun x => call (Event_new x)) events) ;;
  on_self (set_pre_basecalled_events (Some evs)).

Definition get_pre_basecalled_events : M state (list Event) :=
  have <- gets (fun s => have_pre_basecalled (self s)) ;;
  (if have then ret tt
   else _extract_pre_basecalled_events ;;; on_self (set_have_pre_basecalled true)) ;;;
  evs <- gets (fun s => pre_basecalled_events (self s)) ;;
  match evs with
  | Some l => ret l
  | None => raise AttributeError
  end.

(** ** Sequence records *)

Definition set_have_fastqs (v : bool) (h : t) : t :=
  mk (filename h) (group h) (is_open h) (hdf5file h) (version h) (fastas h) (fastqs h)
     v (have_fastas h) (have_templates h) (have_complements h)
     (have_pre_basecalled h) (have_metadata h) (pre_basecalled_events h) (keyinfo h).

Definition set_have_fastas (v : bool) (h : t) : t :=
  mk (filename h) (group h) (is_open h) (hdf5file h) (version h) (fastas h) (fastqs h)
     (have_fastqs h) v (have_templates h) (have_complements h)
     (have_pre_basecalled h) (have_metadata h) (pre_basecalled_events h) (keyinfo h).

(** [if self.have_fastqs is False: self._extract_fastqs_from_fast5();
    self.have_fastqs = True] *)
Definition ensure_fastqs : M state unit :=
  have <- gets (fun s => have_fastqs (self s)) ;;
  if have then ret tt
  else _extract_fastqs_from_fast5 ;;; on_self (set_have_fastqs true).

(** The same for the FASTA records. *)
Definition ensure_fastas : M state unit :=
  have <- gets (fun s => have_fastas (self s)) ;;
  if have then ret tt
  else _extract_fastas_from_fast5 ;;; on_self (set_have_fastas true).

(** [k in d] *)
Definition contains {V} (d : dict V) (k : string) : bool :=
  is_not_none (dict_get d k).

Definition has_2D : M state bool :=
  ensure_fastas ;;;
  fa <- gets (fun s => fastas (self s)) ;;
  if is_not_none (dict_get fa "twodirections") then ret true else ret false.

Section WithCollaborators.
Context {C : @Collaborators X}.

Definition get_best_type : M state (option string) :=
  try_except
    (fq <- gets (fun s => fastqs (self s)) ;;
     if contains fq "twodirections" then ret (Some "twodirections")
     else
       let fwd := contains fq "template" in
       let rev := contains fq "complement" in
       if fwd && negb rev then ret (Some "template")
       else if rev && negb fwd then ret (Some "complement")
       else
         t <- lift (dict_getitem fq "template") ;;
         fwd_err_rate <- lift (call (est_error_rate t)) ;;
         c <- lift (dict_getitem fq "complement") ;;
         rev_err_rate <- lift (call (est_error_rate c)) ;;
         if Qle_bool fwd_err_rate rev_err_rate then ret (Some "template")
         else ret (Some "complement"))
    (fun _ => ret None).

(** [d.get(k)] where [k] is a string or [None], which is no key. *)
Definition dict_get_optional {V} (d : dict V) (k : option string) : option V :=
  match k with
  | Some k' => dict_get d k'
  | None => None
  end.

Definition get_fastqs (choice : string) : M state (list (option Fastq)) :=
  ensure_fastqs ;;;
  fq <- gets (fun s => fastqs (self s)) ;;
  if String.eqb choice "all" then ret (map (fun kv => Some (snd kv)) (items fq))
  else if String.eqb choice "fwd" then ret [dict_get fq "template"]
  else if String.eqb choice "rev" then ret [dict_get fq "complement"]
  else if String.eqb choice "2D" then ret [dict_get fq "twodirections"]
  else if String.eqb choice "fwd,rev"
  then ret [dict_get fq "template"; dict_get fq "complement"]
  else if String.eqb choice "best" then
    best <- get_best_type ;;
    fq' <- gets (fun s => fastqs (self s)) ;;
    ret [dict_get_optional fq' best]
  else ret [].

Definition get_fastas (choice : string) : M state (list (option Fasta)) :=
  ensure_fastas ;;;
  fa <- gets (fun s => fastas (self s)) ;;
  if String.eqb choice "all" then ret (map (fun kv => Some (snd kv)) (items fa))
  else if String.eqb choice "fwd" then ret [dict_get fa "template"]
  else if String.eqb choice "rev" then ret [dict_get fa "complement"]
  else if String.eqb choice "2D" then ret [dict_get fa "twodirections"]
  else if String.eqb choice "fwd,rev"
  then ret [dict_get fa "template"; dict_get fa "complement"]
  else if String.eqb choice "best" then
    ensure_fastqs ;;;
    best <- get_best_type ;;
    fa' <- gets (fun s => fastas (self s)) ;;
    ret [dict_get_optional fa' best]
  else ret [].

End WithCollaborators.

Definition get_fastas_dict : M state (dict Fasta) :=
  ensure_fastas ;;;
  gets (fun s => fastas (self s)).

(** The first of the given names that [d] has, as the chains of
    [elif d.get(k) is not None: return d.get(k)] select it; [None] when
    [d] is empty or has none of them. *)
Fixpoint first_of {V} (d : dict V) (names : list string) : option V :=
  match names with
  | [] => None
  | k :: names' =>
      match dict_get d k with
      | Some v => Some v
      | None => first_of d names'
      end
  end.

Definition get_fastq : M state (option Fastq) :=
  ensure_fastqs ;;;
  fq <- gets (fun s => fastqs (self s)) ;;
  match fq with
  | [] => ret None
  | _ => ret (first_of fq ["twodirections"; "template"; "complement"])
  end.

(** Unlike [get_fastq], [get_fasta] does not extract. *)
Definition get_fasta : M state (option Fasta) :=
  fa <- gets (fun s => fastas (self s)) ;;
  match fa with
  | [] => ret None
  | _ => ret (first_of fa ["twodirections"; "template"; "complement"])
  end.

(** ** Further metadata *)

(** [try: m  except: h], which catches [SystemExit] as well. *)
Definition try_except_all {S A} (m : M S A) (h : M S A) : M S A :=
  fun s =>
    match m s with
    | (Ok a, s') => (Ok a, s')
    | (_, s') => h s'
    end.

(** The accessors that return an attribute as it is stored:
    [try: return self.keyinfo[sub].attrs[name]  except: return None]. *)
Definition metadata_attribute (sub name : string) : M state (option attr_value) :=
  ensure_metadata ;;;
  try_except_all
    (v <- keyinfo_attr sub name ;; ret (Some v))
    (ret None).

Definition get_version_name := metadata_attribute "context_tags" "version_name".
Definition get_minknow_version := metadata_attribute "context_tags" "verssion".
Definition get_run_id := metadata_attribute "tracking_id" "run_id".
Definition get_heatsink_temp := metadata_attribute "tracking_id" "heatsink_temp".
Definition get_asic_temp := metadata_attribute "tracking_id" "asic_temp".
Definition get_host_name := metadata_attribute "tracking_id" "hostname".
Definition get_run_purpose := metadata_attribute "tracking_id" "exp_script_purpose".
Definition get_asic_id := metadata_attribute "tracking_id" "asic_id".
Definition get_device_id := metadata_attribute "tracking_id" "device_id".

(** [get_sample_name] has [except Exception] where the others have a
    bare [except]. *)
Definition get_sample_name : M state (option attr_value) :=
  ensure_metadata ;;;
  try_except
    (v <- keyinfo_attr "context_tags" "user_filename_input" ;; ret (Some v))
    (fun _ => ret None).

Definition get_flowcell_id : M state (option attr_value) :=
  ensure_metadata ;;;
  try_except_all
    (v <- keyinfo_attr "tracking_id" "flowcell_id" ;; ret (Some v))
    (try_except_all
       (v <- keyinfo_attr "tracking_id" "flow_cell_id" ;; ret (Some v))
       (ret None)).

Definition get_channel_number : M state (option Z) :=
  ensure_metadata ;;;
  try_except_all
    (v <- keyinfo_attr "channel_id" "channel_number" ;;
     n <- lift (int_of_attr v) ;;
     ret (Some n))
    (try_except_all
       (v <- keyinfo_attr "read_id" "channel_number" ;;
        n <- lift (int_of_attr v) ;;
        ret (Some n))
       (ret None)).

(** [get_script_name] assigns [self.have_metdata], an attribute nothing
    reads, so [have_metadata] stays as it was and the metadata root is
    looked up again on the next call. *)
Definition get_script_name : M state (option attr_value) :=
  have <- gets (fun s => have_metadata (self s)) ;;
  (if have then ret tt else _get_metadata) ;;;
  try_except
    (v <- keyinfo_attr "tracking_id" "exp_script_name" ;; ret (Some v))
    (fun _ => ret None).

(** ** The read block, by either way *)

Section WithLinks.
Context {C : @Collaborators X}.

(** [list[:-1]] *)
Definition but_last {A} (l : list A) : list A := removelast l.

(** ["/".join(l)] *)
Fixpoint join_slash (l : list string) : string :=
  match l with
  | [] => ""
  | [x] => x
  | x :: l' => x ++ "/" ++ join_slash l'
  end.

(** [basecall.get('InputEvents', getlink=True)]: a dataset has no
    [get]. *)
Definition get_link (n : h5node) (name : string) : outcome (option h5link) :=
  match n with
  | H5Group _ _ => Ok (getlink n name)
  | H5Dataset _ _ => Raise AttributeError
  end.

Definition find_read_number_block_link : M state (option h5node) :=
  v <- gets (fun s => version (self s)) ;;
  let path :=
    if String.eqb v "classic" then "/Analyses/Basecall_2D_000"
    else "/Analyses/Basecall_1D_000" in
  f <- self_hdf5file ;;
  basecall <- lift (h5_getitem f path) ;;
  link <- lift (get_link basecall "InputEvents") ;;
  match link with
  | None => ret None
  | Some HardLink => raise AttributeError
  | Some (SoftLink target) =>
      let newpath := "/" ++ join_slash (but_last (split "/" target)) in
      f' <- self_hdf5file ;;
      node <- lift (h5_getitem f' newpath) ;;
      ret (Some node)
  end.

Definition find_read_number_block : M state h5node :=
  node <- find_read_number_block_link ;;
  match node with
  | Some n => ret n
  | None =>
      node' <- find_read_number_block_fixed_raw ;;
      match node' with
      | Some n => ret n
      | None =>
          hdf_internal_error "unknown HDF5 structure: can't find read block item"
      end
  end.

(** [get_read_number] and [get_start_mux]: the attribute of the read
    block as an integer, [None] when it cannot be read. *)
Definition read_block_int (name : string) : M state (option Z) :=
  node <- find_read_number_block ;;
  try_except_all
    (v <- lift (attrs_getitem node name) ;;
     n <- lift (int_of_attr v) ;;
     ret (Some n))
    (ret None).

Definition get_read_number : M state (option Z) := read_block_int "read_number".

Definition get_start_mux : M state (option Z) := read_block_int "start_mux".

End WithLinks.

End Methods.
End Fast5File.

(* ================================================================== *)
(** * class TarballFileIterator *)
(* ================================================================== *)

(** A [tarfile.TarFile] opened for reading: the members it has read and
    those it has not, in archive order. *)
Record TarFile : Type := {
  tf_read : list (string * fsnode);
  tf_unread : list (string * fsnode)
}.

Definition tf_members (tf : TarFile) : list (string * fsnode) :=
  (tf_read tf ++ tf_unread tf)%list.

(** [tarfile.open(path)] *)
Definition tarfile_open (fs : FileSystem) (path : string) : outcome TarFile :=
  match fs_lookup fs path with
  | Some (FsTar members) => Ok {| tf_read := []; tf_unread := members |}
  | Some _ => Raise OSError
  | None => Raise FileNotFoundError
  end.

(** The method [TarFile.next()]: the next member, or [None] when there
    is none left. *)
Definition TarFile_next (tf : TarFile) : option (string * fsnode) * TarFile :=
  match tf_unread tf with
  | m :: rest =>
      (Some m, {| tf_read := (tf_read tf ++ [m])%list; tf_unread := rest |})
  | [] => (None, tf)
  end.

(** The builtin [next(tf)] on a [TarFile].  [next] calls the method
    [__next__] of its argument's class; [TarFile] has [__iter__] and the
    method [next] above but no [__next__], so the call raises [TypeError]
    ("'TarFile' object is not an iterator") and reads nothing. *)
Definition builtin_next_TarFile (tf : TarFile)
    : outcome (option (string * fsnode)) * TarFile :=
  (Raise TypeError, tf).

(** [tar.getnames()] *)
Definition getnames (tf : TarFile) : list string := map fst (tf_members tf).

(** [TarFile.extract(tarinfo, path=PORETOOLS_TMPDIR)] *)
Definition tar_extract (fs : FileSystem) (member : string * fsnode) (dir : string)
    : FileSystem :=
  fs_put fs (dir :: path_segments (fst member)) (snd member).

Module TarballFileIterator.

Record t : Type := mk {
  _tarball : string;
  _tarfile : TarFile
}.

Definition _fast5_filename_filter (filename : string) : bool :=
  endswith (basename filename) ".fast5" && negb (startswith (basename filename) ".").

Definition __init__ (fs : FileSystem) (tarball : string) : outcome t :=
  omap (mk tarball) (tarfile_open fs tarball).

(** The [while True] loop of [__next__], for a given way [next] of
    asking the archive for its next member: it ends with the first member
    that passes the filter, with [StopIteration] on [None], or with what
    [next] raises.  [fuel] bounds the number of rounds; every round but
    the last reads a member, so the members left plus one are enough. *)
Fixpoint next_member_with
    (next : TarFile -> outcome (option (string * fsnode)) * TarFile)
    (fuel : nat) (tf : TarFile) : outcome (string * fsnode) * TarFile :=
  match fuel with
  | O => (Raise StopIteration, tf)
  | S fuel' =>
      match next tf with
      | (Ok None, tf') => (Raise StopIteration, tf')
      | (Ok (Some tarinfo), tf') =>
          if _fast5_filename_filter (fst tarinfo) then (Ok tarinfo, tf')
          else next_member_with next fuel' tf'
      | (Raise e, tf') => (Raise e, tf')
      | (Exit msg, tf') => (Exit msg, tf')
      end
  end.

(** The loop as the module has it: [tarinfo = next(self._tarfile)]. *)
Definition next_member : nat -> TarFile -> outcome (string * fsnode) * TarFile :=
  next_member_with builtin_next_TarFile.

Definition __next__ : M (t * FileSystem) string :=
  fun '(it, fs) =>
    let tf := _tarfile it in
    match next_member (S (length (tf_unread tf))) tf with
    | (Ok tarinfo, tf') =>
        (Ok (path_join PORETOOLS_TMPDIR (fst tarinfo)),
         (mk (_tarball it) tf', tar_extract fs tarinfo PORETOOLS_TMPDIR))
    | (Raise e, tf') => (Raise e, (mk (_tarball it) tf', fs))
    | (Exit msg, tf') => (Exit msg, (mk (_tarball it) tf', fs))
    end.

Definition __len__ (fs : FileSystem) (it : t) : outcome Z :=
  omap (fun tar => Z.of_nat (length (getnames tar))) (tarfile_open fs (_tarball it)).

End TarballFileIterator.

(* ================================================================== *)
(** * class Fast5FileSet *)
(* ================================================================== *)

Module Fast5FileSet.
Section Methods.
Context `{X : Externals}.

(** The argument [fileset] of the constructor: a list or a string. *)
Inductive fileset_arg : Type :=
  | OfList (l : list string)
  | OfStr (s : string).

(** What [self.files] can be: the iterator of a list with the elements
    it has not produced yet, or a [TarballFileIterator]. *)
Inductive files_iter : Type :=
  | ListIterator (remaining : list string)
  | Tarball (it : TarballFileIterator.t).

Record t : Type := mk {
  fileset : list string;
  set_type : option Z;
  num_files_in_set : option Z;
  group : Z;
  files : files_iter
}.

(** An enumerator, the file system it works on and what the module's
    logger has received. *)
Record state : Type := State {
  self : t;
  fs : FileSystem;
  log : list log_record
}.

Definition on_self (f : t -> t) : M state unit :=
  modify (fun s => State (f (self s)) (fs s) (log s)).

Definition set_fs (v : FileSystem) : M state unit :=
  modify (fun s => State (self s) v (log s)).

Definition logger (lvl : log_level) (txt : string) (e : option exn) : M state unit :=
  modify (fun s => State (self s) (fs s) (log s ++ [LogRecord lvl txt e])%list).

Definition assign (it : files_iter) (n : option Z) (ty : Z) (h : t) : t :=
  mk (fileset h) (Some ty) n (group h) it.

Definition set_files (it : files_iter) (h : t) : t :=
  mk (fileset h) (set_type h) (num_files_in_set h) (group h) it.

Definition set_num_files_in_set (n : option Z) (h : t) : t :=
  mk (fileset h) (set_type h) n (group h) (files h).

Definition len {A} (l : list A) : Z := Z.of_nat (length l).

Definition _extract_fast5_files : M state unit :=
  l <- gets (fun s => fileset (self s)) ;;
  if 1 <? len l then
    on_self (assign (ListIterator l) (Some (len l)) FAST5SET_FILELIST)
  else if len l =? 1 then
    let f := hd "" l in
    dir <- gets (fun s => isdir (fs s) f) ;;
    if dir then
      found <- gets (fun s =>
        match fs_lookup (fs s) f with
        | Some n => walk_files f n
        | None => []
        end) ;;
      on_self (assign (ListIterator found) (Some (len found)) FAST5SET_DIRECTORY) ;;;
      if len found =? 0 then logger WARNING "Directory is empty!" None else ret tt
    else
      tar <- (fun s => (is_tarfile (fs s) f, s)) ;;
      if tar then
        stale <- gets (fun s => isdir (fs s) PORETOOLS_TMPDIR) ;;
        (if stale
         then fs' <- (fun s => (rmtree (fs s) PORETOOLS_TMPDIR, s)) ;; set_fs fs'
         else ret tt) ;;;
        fs' <- (fun s => (mkdir (fs s) PORETOOLS_TMPDIR, s)) ;;
        set_fs fs' ;;;
        it <- (fun s => (TarballFileIterator.__init__ (fs s) f, s)) ;;
        on_self (assign (Tarball it) None FAST5SET_TARBALL)
      else
        on_self (assign (ListIterator [f]) (Some 1) FAST5SET_SINGLEFILE)
  else
    logger ERROR
      ("Directory <built-in function dir> could not be opened. Exiting." ++ nl) None ;;;
    sys_exit None.

(** The constructor.  [files] is unbound until [_extract_fast5_files]
    assigns it; the empty list iterator stands for that. *)
Definition __init__ (arg : fileset_arg) (grp : Z) (world : FileSystem)
    (lg : list log_record) : outcome unit * state :=
  let l :=
    match arg with
    | OfList l => l
    | OfStr s => [s]
    end in
  _extract_fast5_files (State (mk l None None grp (ListIterator [])) world lg).

(** [len(self.files)]: the iterator of a list has no length. *)
Definition len_files : M state Z :=
  fun s =>
    match files (self s) with
    | Tarball it => (TarballFileIterator.__len__ (fs s) it, s)
    | ListIterator _ => (Raise TypeError, s)
    end.

Definition get_num_files : M state (option Z) :=
  n <- gets (fun s => num_files_in_set (self s)) ;;
  ty <- gets (fun s => set_type (self s)) ;;
  (match n, ty with
   | None, Some k =>
       if k =? FAST5SET_TARBALL
       then c <- len_files ;; on_self (set_num_files_in_set (Some c))
       else ret tt
   | _, _ => ret tt
   end) ;;;
  gets (fun s => num_files_in_set (self s)).

(** [next(self.files)] *)
Definition next_file : M state string :=
  fun s =>
    match files (self s) with
    | ListIterator [] => (Raise StopIteration, s)
    | ListIterator (p :: rest) =>
        (Ok p, State (set_files (ListIterator rest) (self s)) (fs s) (log s))
    | Tarball it =>
        let '(r, (it', fs')) := TarballFileIterator.__next__ (it, fs s) in
        (r, State (set_files (Tarball it') (self s)) fs' (log s))
    end.

(** [Fast5File(path, self.group)] *)
Definition new_Fast5File (path : string) : M state Fast5File.t :=
  fun s =>
    let '(r, hs) := Fast5File.__init__ (fs s) path (group (self s)) (log s) in
    let s' := State (self s) (fs s) (Fast5File.log hs) in
    match r with
    | Ok _ => (Ok (Fast5File.self hs), s')
    | Raise e => (Raise e, s')
    | Exit msg => (Exit msg, s')
    end.

Definition __next__ : M state Fast5File.t :=
  try_except
    (path <- next_file ;; new_Fast5File path)
    (fun _ =>
       ty <- gets (fun s => set_type (self s)) ;;
       (match ty with
        | Some k =>
            if k =? FAST5SET_TARBALL
            then fs' <- (fun s => (rmtree (fs s) PORETOOLS_TMPDIR, s)) ;; set_fs fs'
            else ret tt
        | None => ret tt
        end) ;;;
       raise StopIteration).

End Methods.
End Fast5FileSet.

(* ================================================================== *)
(** * class Fast5DirHandler *)
(* ================================================================== *)

Module Fast5DirHandler.

Record t : Type := mk {
  dir : string;
  files : list string
}.

(** The constructor; [glob_fast5] stands for
    [glob.glob(dir + os.path.sep + '*.fast5')]. *)
Definition __init__ (glob_fast5 : FileSystem -> string -> list string)
    (fs : FileSystem) (d : string) : t :=
  if isdir fs d then mk d (glob_fast5 fs d) else mk d [].

(** [process(event)], with the event's [src_path]. *)
Definition process (src_path : string) : M t unit :=
  modify (fun h => mk (dir h) (files h ++ [src_path])%list).

Definition on_created (src_path : string) : M t unit := process src_path.

Definition clear : M t unit := modify (fun h => mk (dir h) []).

Definition __next__ : M t string :=
  fun h =>
    match files h with
    | p :: rest => (Ok p, mk (dir h) rest)
    | [] => (Raise StopIteration, h)
    end.

End Fast5DirHandler.

(* ================================================================== *)
(** * Sample inputs *)
(* ================================================================== *)

(** Collaborators that keep a sequence record as its name and its text,
    an event as its record, and a date as seconds since the epoch; the
    parser knows one date. *)
Definition sample_collaborators : Externals := {|
  Fastq := string * string;
  Fastq_new := fun t => inr (t, t);
  Fastq_name := fst;
  Fastq_set_name := fun fq n => (n, snd fq);
  Fasta := string * string;
  Fasta_new := fun t => inr (t, t);
  Fasta_name := fst;
  Fasta_set_name := fun fa n => (n, snd fa);
  Event := row;
  Event_new := fun r => inr r;
  datetime := Z;
  dateutil_parse := fun s =>
    if String.eqb s "1970-01-01T00:01:40Z" then inr 100 else inl ValueError;
  mktime_timetuple := fun z => inr (double_of_Z z)
|}.

Definition group_of (members : list (string * h5node)) : h5node :=
  H5Group [] members.

(** A container with a 2-D and a 1-D basecall group, one raw read that
    starts at sample 0 and lasts 8000 samples, and metadata saying that
    the experiment started at second 0 with 4000 samples a second. *)
Definition sample_members : list (string * h5node) :=
  [ ("Analyses",
      group_of
        [ ("Basecall_2D_000",
            group_of
              [ ("BaseCalled_template",
                  group_of [ ("Fastq", H5Dataset [] (DStr "@read")) ]) ]);
          ("Basecall_1D_000",
            group_of [ ("BaseCalled_template", group_of []) ]) ]);
    ("Raw",
      group_of
        [ ("Reads",
            group_of
              [ ("Read_7",
                  H5Group [ ("duration", AInt 8000); ("start_time", AInt 0) ] []) ]) ]);
    ("UniqueGlobalKey",
      group_of
        [ ("tracking_id", H5Group [ ("exp_start_time", AStr "0") ] []);
          ("context_tags", H5Group [ ("sample_frequency", AStr "4000") ] []) ]) ].

(** The same read in an experiment started at second 100, the date in
    ISO form. *)
Definition later_members : list (string * h5node) :=
  [ ("Raw",
      group_of
        [ ("Reads",
            group_of
              [ ("Read_7",
                  H5Group [ ("duration", AInt 8000); ("start_time", AInt 12000) ] []) ]) ]);
    ("UniqueGlobalKey",
      group_of
        [ ("tracking_id",
            H5Group [ ("exp_start_time", AStr "1970-01-01T00:01:40Z") ] []);
          ("context_tags", H5Group [ ("sample_frequency", AInt 4000) ] []) ]) ].

(** The archive of the specification: two matching members, a hidden
    one and a text file. *)
Definition sample_archive : list (string * fsnode) :=
  [ ("a.fast5", FsHdf5 [] sample_members);
    (".hidden.fast5", FsOther);
    ("b.txt", FsOther);
    ("b.fast5", FsHdf5 [] later_members) ].

Definition sample_fs : FileSystem :=
  [ ("a.fast5", FsHdf5 [] sample_members);
    ("later.fast5", FsHdf5 [] later_members);
    ("empty.fast5", FsHdf5 [] []);
    ("reads.tar", FsTar sample_archive);
    ("run",
      FsDir
        [ ("0", FsDir [ ("a.fast5", FsHdf5 [] sample_members) ]);
          ("1", FsDir [ ("b.fast5", FsHdf5 [] later_members); ("notes.txt", FsOther) ]) ]) ].

(** The handle on a file of the sample file system, group index 0, as
    constructed. *)
Definition handle_of (name : string) : Fast5File.state :=
  snd (Fast5File.__init__ (X := sample_collaborators) sample_fs name 0 []).


(** The enumerator of the sample archive, as constructed. *)
Definition archive_set : Fast5FileSet.state :=
  snd (Fast5FileSet.__init__ (Fast5FileSet.OfStr "reads.tar") 0 sample_fs []).

(** A pull on an enumerator, with the sample collaborators. *)
Definition pull : M Fast5FileSet.state Fast5File.t :=
  Fast5FileSet.__next__ (X := sample_collaborators).




(* ================================================================== *)
(** * The vocabulary of the properties *)
(* ================================================================== *)

(** The path [guess_version] probes for a basecall group [tag] at group
    index [g]. *)
Definition probe_path (tag : string) (g : Z) : string :=
  "/Analyses/" ++ tag ++ "_" ++ pad_int true 3 g ++ "/BaseCalled_template".

Definition exposes (root : h5node) (tag : string) (g : Z) : bool :=
  Fast5File.is_not_none (h5_get root (probe_path tag g)).

Definition versions : list string :=
  [ "classic"; "metrichor1.16"; "r9rnn"; "prebasecalled"; "closed" ].

Definition strands : list string :=
  [ "template"; "complement"; "twodirections"; "pre_basecalled" ].

(** The table as the specification documents it: the path for a schema
    version, a strand kind and a group index, under [/Analyses], the index
    zero-padded to three digits; [None] where the table has a dash, and
    for every strand of [closed]. *)
Definition documented_path (version strand : string) (g : Z) : option string :=
  let slot := pad_int true 3 g in
  let basecall (kind : string) (leaf : string) : option string :=
    Some ("/Analyses/" ++ kind ++ "_" ++ slot ++ "/" ++ leaf) in
  let reads : option string := Some "/Analyses/EventDetection_000/Reads/" in
  if String.eqb version "classic" then
    if String.eqb strand "template" then basecall "Basecall_2D" "BaseCalled_template"
    else if String.eqb strand "complement" then basecall "Basecall_2D" "BaseCalled_complement"
    else if String.eqb strand "twodirections" then basecall "Basecall_2D" "BaseCalled_2D"
    else if String.eqb strand "pre_basecalled" then reads
    else None
  else if String.eqb version "metrichor1.16" then
    if String.eqb strand "template" then basecall "Basecall_1D" "BaseCalled_template"
    else if String.eqb strand "complement" then basecall "Basecall_1D" "BaseCalled_complement"
    else if String.eqb strand "twodirections" then basecall "Basecall_2D" "BaseCalled_2D"
    else if String.eqb strand "pre_basecalled" then reads
    else None
  else if String.eqb version "r9rnn" then
    if String.eqb strand "template" then basecall "Basecall_RNN_1D" "BaseCalled_template"
    else None
  else if String.eqb version "prebasecalled" then
    if String.eqb strand "pre_basecalled" then reads else None
  else None.

(** The path the module resolves for a version, a strand and a group
    index: the template of the table, filled in by [format]. *)
Definition resolved_path (version strand : string) (g : Z) : outcome string :=
  obind (fastq_path version strand) (fun tpl => str_format tpl g).







Definition no_exit {A} (o : outcome A) : Prop :=
  match o with
  | Exit _ => False
  | _ => True
  end.

Definition staging_dir_exists (s : Fast5FileSet.state) : bool :=
  isdir (Fast5FileSet.fs s) PORETOOLS_TMPDIR.

(** The four states a constructor that returns can leave. *)
Inductive constructed (l : list string) (grp : Z) (world : FileSystem)
    (lg : list log_record) : Fast5FileSet.state -> Prop :=
  | from_list :
      1 < Fast5FileSet.len l ->
      constructed l grp world lg
        (Fast5FileSet.State
           (Fast5FileSet.mk l (Some FAST5SET_FILELIST)
              (Some (Fast5FileSet.len l)) grp (Fast5FileSet.ListIterator l))
           world lg)
  | from_directory f n lg' :
      l = [f] ->
      fs_lookup world f = Some n ->
      isdir world f = true ->
      constructed l grp world lg
        (Fast5FileSet.State
           (Fast5FileSet.mk l (Some FAST5SET_DIRECTORY)
              (Some (Fast5FileSet.len (walk_files f n))) grp
              (Fast5FileSet.ListIterator (walk_files f n)))
           world lg')
  | from_tarball f fs' it :
      l = [f] ->
      isdir world f = false ->
      is_tarfile world f = Ok true ->
      dict_get fs' PORETOOLS_TMPDIR = Some (FsDir []) ->
      TarballFileIterator.__init__ fs' f = Ok it ->
      constructed l grp world lg
        (Fast5FileSet.State
           (Fast5FileSet.mk l (Some FAST5SET_TARBALL) None grp
              (Fast5FileSet.Tarball it))
           fs' lg)
  | from_single_file f :
      l = [f] ->
      isdir world f = false ->
      is_tarfile world f = Ok false ->
      constructed l grp world lg
        (Fast5FileSet.State
           (Fast5FileSet.mk l (Some FAST5SET_SINGLEFILE) (Some 1) grp
              (Fast5FileSet.ListIterator [f]))
           world lg).

Definition fileset_of (arg : Fast5FileSet.fileset_arg) : list string :=
  match arg with
  | Fast5FileSet.OfList l => l
  | Fast5FileSet.OfStr s => [s]
  end.

(** The method [TarFile.next()] as a way of asking for the next member:
    what the test [tarinfo is None] of the loop presupposes. *)
Definition method_next (tf : TarFile)
    : outcome (option (string * fsnode)) * TarFile :=
  let '(m, tf') := TarFile_next tf in (Ok m, tf').

(** The first of the unread members that passes the filter, and the
    archive once it is read. *)
Fixpoint first_match (read unread : list (string * fsnode))
    : outcome (string * fsnode) * TarFile :=
  match unread with
  | [] => (Raise StopIteration, {| tf_read := read; tf_unread := [] |})
  | m :: rest =>
      if TarballFileIterator._fast5_filename_filter (fst m)
      then (Ok m, {| tf_read := (read ++ [m])%list; tf_unread := rest |})
      else first_match (read ++ [m])%list rest
  end.

(** The staged paths the loop would produce, pull after pull, if it
    asked with the method [next]. *)
Fixpoint staged_with_method (fuel : nat) (tf : TarFile) : list string :=
  match fuel with
  | O => []
  | S fuel' =>
      match TarballFileIterator.next_member_with method_next
              (S (length (tf_unread tf))) tf with
      | (Ok tarinfo, tf') =>
          path_join PORETOOLS_TMPDIR (fst tarinfo) :: staged_with_method fuel' tf'
      | _ => []
      end
  end.

Section Vocabulary.
Context `{X : Externals}.

(** What no method modelled here assigns: the container, the file name,
    the group index and the version. *)
Definition same_file (s s' : Fast5File.state) : Prop :=
  Fast5File.hdf5file (Fast5File.self s') = Fast5File.hdf5file (Fast5File.self s)
  /\ Fast5File.filename (Fast5File.self s') = Fast5File.filename (Fast5File.self s)
  /\ Fast5File.group (Fast5File.self s') = Fast5File.group (Fast5File.self s)
  /\ Fast5File.version (Fast5File.self s') = Fast5File.version (Fast5File.self s).

Definition preserves {A} (m : M Fast5File.state A) : Prop :=
  forall s r s', m s = (r, s') -> same_file s s'.

(** The table has no path for [strand] in the version of the handle. *)
Definition unmapped (strand : string) (s : Fast5File.state) : Prop :=
  fastq_path (Fast5File.version (Fast5File.self s)) strand = Raise KeyError.

(** Reading the event table of [strand] raises. *)
Definition unreadable (strand : string) (s : Fast5File.state) : Prop :=
  exists e, fst (Fast5File.events_count strand s) = Raise e.

(** What the loop over the path table leaves for one strand, given the
    outcome of the attempt to extract it: the record under the strand's
    name when there is one; nothing new when there is no text; nothing
    new and a warning with the name of the file and the exception when
    the attempt raised. *)
Definition strand_outcome {R} (results : Fast5File.t -> dict R)
    (attempt : Fast5File.t -> string -> outcome (option R)) (prefix : string)
    (s s' : Fast5File.state) (id h5path : string) : Prop :=
  match attempt (Fast5File.self s) h5path with
  | Ok (Some r) => dict_get (results (Fast5File.self s')) id = Some r
  | Ok None =>
      dict_get (results (Fast5File.self s')) id
      = dict_get (results (Fast5File.self s)) id
  | Raise e =>
      dict_get (results (Fast5File.self s')) id
      = dict_get (results (Fast5File.self s)) id
      /\ In (LogRecord WARNING
               (prefix ++ Fast5File.filename (Fast5File.self s) ++ ": ") (Some e))
            (Fast5File.log s')
  | Exit _ => False
  end.

(** What the attempt to extract the FASTQ record at one path of the
    table comes to. *)
Definition fastq_attempt (h : Fast5File.t) (h5path : string)
    : outcome (option Fastq) :=
  match Fast5File.hdf5file h with
  | None => Raise AttributeError
  | Some f =>
      obind (str_format h5path (Fast5File.group h)) (fun p =>
      obind (h5_getitem f p) (fun n =>
      obind (extract_data n) (fun table =>
      match table with
      | None => Ok None
      | Some t =>
          if String.eqb t "" then Ok None
          else
            omap (fun fq =>
                    Some (Fastq_set_name fq
                            (Fastq_name fq ++ " " ++ Fast5File.filename h)))
                 (call (Fastq_new t))
      end)))
  end.

(** The same for the FASTA record, whose path is formatted with [%]. *)
Definition fasta_attempt (h : Fast5File.t) (h5path : string)
    : outcome (option Fasta) :=
  match Fast5File.hdf5file h with
  | None => Raise AttributeError
  | Some f =>
      obind (percent_format h5path (Fast5File.group h)) (fun p =>
      obind (h5_getitem f p) (fun n =>
      obind (extract_data n) (fun table =>
      match table with
      | None => Ok None
      | Some t =>
          if String.eqb t "" then Ok None
          else
            omap (fun fa =>
                    Some (Fasta_set_name fa
                            (Fasta_name fa ++ " " ++ Fast5File.filename h)))
                 (call (Fasta_new t))
      end)))
  end.

End Vocabulary.

(* ================================================================== *)
(** * The vocabulary of the further properties *)
(* ================================================================== *)

(** [n] leads to the text [t]: [n] is a dataset that holds [t], or a
    group whose member [Fastq] leads to [t]. *)
Inductive leads_to : h5node -> string -> Prop :=
  | leads_dataset a t : leads_to (H5Dataset a (DStr t)) t
  | leads_group a ms c t :
      dict_get ms "Fastq" = Some c ->
      leads_to c t ->
      leads_to (H5Group a ms) t.

(** The versions whose row of the table has a template. *)
Definition basecalled_versions : list string :=
  [ "classic"; "metrichor1.16"; "r9rnn" ].

(** The files below a directory, at any depth. *)
Fixpoint count_files (n : fsnode) : nat :=
  match n with
  | FsDir entries =>
      (fix count (es : list (string * fsnode)) : nat :=
         match es with
         | [] => O
         | (_, c) :: es' =>
             (match c with
              | FsDir _ => count_files c
              | _ => 1%nat
              end + count es')%nat
         end) entries
  | _ => O
  end.

(** A warning of the FASTA loop about the file [name]. *)
Definition is_fasta_warning (name : string) (r : log_record) : Prop :=
  level r = WARNING
  /\ text r = "Could not extract FASTA from " ++ name ++ ": ".

(** The warning [open] logs about a file it cannot open. *)
Definition cannot_open_warning (name : string) : log_record :=
  LogRecord WARNING
    ("Cannot open file: " ++ name ++ ". Perhaps it is corrupt? Moving on." ++ nl) None.

(** The group [find_read_number_block_link] looks for the link in. *)
Definition link_group (version : string) : string :=
  if String.eqb version "classic" then "/Analyses/Basecall_2D_000"
  else "/Analyses/Basecall_1D_000".

Section MoreVocabulary.
Context `{X : Externals}.

(** The record the FASTQ extraction finds for a strand, if any: the
    strand has a path in the row [paths] and the attempt at that path
    yields a record. *)
Definition extracted_fastq (h : Fast5File.t) (paths : dict string) (id : string)
    : option Fastq :=
  match dict_get paths id with
  | Some p =>
      match fastq_attempt h p with
      | Ok (Some fq) => Some fq
      | _ => None
      end
  | None => None
  end.

(** What is stored under the metadata root [k] in sub-group [sub] as
    attribute [name]. *)
Definition stored_attribute (k : h5node) (sub name : string) : outcome attr_value :=
  obind (h5_getitem k sub) (fun n => attrs_getitem n name).

(** The metadata root [_get_metadata] settles on: [/UniqueGlobalKey]
    when the container has it, else [/Key], else [None]; [None] as well
    when there is no container. *)
Definition metadata_root (h : Fast5File.t) : option h5node :=
  match Fast5File.hdf5file h with
  | None => None
  | Some f =>
      match h5_getitem f "/UniqueGlobalKey" with
      | Ok k => Some k
      | _ =>
          match h5_getitem f "/Key" with
          | Ok k => Some k
          | _ => None
          end
      end
  end.

Definition keyinfo_warning : log_record :=
  LogRecord WARNING ("Cannot find keyinfo. Exiting." ++ nl) None.

(** [Some v] when the read returned [v], [None] when it raised. *)
Definition or_none {A} (o : outcome A) : option A :=
  match o with
  | Ok v => Some v
  | _ => None
  end.

(** [n] calls of [get_script_name] in a row. *)
Fixpoint script_name_calls (n : nat) (s : Fast5File.state) : Fast5File.state :=
  match n with
  | O => s
  | S n' => script_name_calls n' (snd (Fast5File.get_script_name s))
  end.

(** The version [guess_version] gives a container. *)
Definition guessed_version (root : h5node) (g : Z) : string :=
  if exposes root "Basecall_2D" g then "classic"
  else if exposes root "Basecall_1D" g then "metrichor1.16"
  else if exposes root "Basecall_RNN_1D" g then "r9rnn"
  else "prebasecalled".

(** The handle the constructor leaves for a path and a group index. *)
Definition fresh_handle (fs : FileSystem) (name : string) (g : Z) : Fast5File.t :=
  match h5py_File fs name with
  | Ok root =>
      Fast5File.mk name g true (Some root) (guessed_version root g) [] []
        false false false false false false None None
  | _ =>
      Fast5File.mk name g false None "closed" [] []
        false false false false false false None None
  end.

(** The handles an enumerator yields before it first raises, in at most
    [fuel] pulls. *)
Fixpoint drain (fuel : nat) (s : Fast5FileSet.state) : list Fast5File.t :=
  match fuel with
  | O => []
  | S fuel' =>
      match Fast5FileSet.__next__ s with
      | (Ok h, s') => h :: drain fuel' s'
      | _ => []
      end
  end.

(** The handle the constructor makes for a path. *)
Definition handle_for (fs : FileSystem) (grp : Z) (lg : list log_record)
    (path : string) : Fast5File.state :=
  snd (Fast5File.__init__ fs path grp lg).

End MoreVocabulary.

(** The error the constructor of an enumerator logs for an empty list:
    the text is formatted with the builtin [dir], not with the input. *)
Definition empty_fileset_error : log_record :=
  LogRecord ERROR
    ("Directory <built-in function dir> could not be opened. Exiting." ++ nl) None.

Definition empty_directory_warning : log_record :=
  LogRecord WARNING "Directory is empty!" None.

(** A handler that was sent the creation events [events] in turn. *)
Fixpoint after_events (events : list string) (h : Fast5DirHandler.t)
    : Fast5DirHandler.t :=
  match events with
  | [] => h
  | e :: events' => after_events events' (snd (Fast5DirHandler.on_created e h))
  end.

(** What a directory handler yields before it first raises, in at most
    [fuel] pulls. *)
Fixpoint drain_handler (fuel : nat) (h : Fast5DirHandler.t) : list string :=
  match fuel with
  | O => []
  | S fuel' =>
      match Fast5DirHandler.__next__ h with
      | (Ok p, h') => p :: drain_handler fuel' h'
      | _ => []
      end
  end.

(** ** Further sample inputs *)

(** Error rates are not estimated and no group has a link. *)
Definition sample_links : Collaborators (X := sample_collaborators) := {|
  est_error_rate := fun _ => inr 0%Q;
  getlink := fun _ _ => None
|}.

(** A container with an empty 1-D basecall group, two detected events,
    one numbered raw read and, under [/Key], the version of the software
    and a flow cell. *)
Definition numbered_members : list (string * h5node) :=
  [ ("Analyses",
      group_of
        [ ("Basecall_1D_000", group_of []);
          ("EventDetection_000",
            group_of
              [ ("Reads",
                  group_of
                    [ ("Read_7",
                        group_of
                          [ ("Events",
                              H5Dataset [] (DTable [ [AInt 1]; [AInt 2] ])) ]) ]) ]) ]);
    ("Raw",
      group_of
        [ ("Reads",
            group_of
              [ ("Read_7",
                  H5Group [ ("read_number", AInt 7); ("start_mux", AStr "2") ] []) ]) ]);
    ("Key",
      group_of
        [ ("context_tags", H5Group [ ("version", AStr "1.4.2") ] []);
          ("tracking_id", H5Group [ ("flow_cell_id", AStr "FAB1") ] []) ]) ].

(** A basecalled container without raw reads, whose events have a
    duration. *)
Definition basecalled_members : list (string * h5node) :=
  [ ("Analyses",
      group_of
        [ ("Basecall_1D_000",
            group_of
              [ ("BaseCalled_template",
                  group_of
                    [ ("Fastq", H5Dataset [] (DStr "@read"));
                      ("Events", H5Dataset [ ("duration", AInt 2) ] (DTable [])) ]) ]) ]) ].

(** A working directory with a stale staging directory beside an
    archive. *)
Definition stale_fs : FileSystem :=
  [ (PORETOOLS_TMPDIR, FsDir [ ("old.fast5", FsOther) ]);
    ("numbered.fast5", FsHdf5 [] numbered_members);
    ("basecalled.fast5", FsHdf5 [] basecalled_members);
    ("reads.tar", FsTar sample_archive) ].

(** The handle on a file of that directory, as constructed. *)
Definition handle_on (name : string) : Fast5File.state :=
  handle_for (X := sample_collaborators) stale_fs 0 [] name.

(** The enumerator of a list of the sample file system, one of whose
    paths names nothing. *)
Definition list_set : Fast5FileSet.state :=
  snd (Fast5FileSet.__init__
         (Fast5FileSet.OfList ["a.fast5"; "missing.fast5"; "later.fast5"])
         0 sample_fs []).

(** The enumerator of the sample directory. *)
Definition directory_set : Fast5FileSet.state :=
  snd (Fast5FileSet.__init__ (Fast5FileSet.OfStr "run") 0 sample_fs []).

(* ================================================================== *)
(** * Properties *)
(* ================================================================== *)


Unset Implicit Arguments.

Arguments pad_int : simpl never.
Arguments h5_get : simpl never.

Example percent_03d_zero :
  percent_format "Basecall_2D_%03d/x" 0 = Ok "Basecall_2D_000/x".
Proof. reflexivity. Qed.

Example percent_03d_negative : percent_format "%03d" (-1) = Ok "-01".
Proof. reflexivity. Qed.

Example percent_03d_wide : percent_format "%03d" 1234 = Ok "1234".
Proof. reflexivity. Qed.

Example percent_without_conversion :
  percent_format "/Analyses/Basecall_2D_{:03d}/BaseCalled_template" 0 = Raise TypeError.
Proof. reflexivity. Qed.

Example format_03d_seven :
  str_format "/Analyses/Basecall_2D_{:03d}/BaseCalled_2D" 7
  = Ok "/Analyses/Basecall_2D_007/BaseCalled_2D".
Proof. reflexivity. Qed.

Example format_without_field :
  str_format "/Analyses/EventDetection_000/Reads/" 7
  = Ok "/Analyses/EventDetection_000/Reads/".
Proof. reflexivity. Qed.

Example basename_hidden : basename "x/y/.a.fast5" = ".a.fast5".
Proof. reflexivity. Qed.

Example int_of_string_spaces : int_of_string " 12_3 " = Ok 123.
Proof. reflexivity. Qed.

Example int_of_string_iso : int_of_string "1970-01-01T00:01:40Z" = Raise ValueError.
Proof. reflexivity. Qed.

(** ** Schema version detection *)

Section Version.
Context `{X : Externals}.

Lemma h5py_File_group fs name root :
  h5py_File fs name = Ok root -> exists a ms, root = H5Group a ms.
Proof.
  unfold h5py_File.
  destruct (fs_lookup fs name) as [[a ms | | | ] | ]; try discriminate.
  intros [= <-]. eauto.
Qed.

Lemma percent_probe_2D g :
  percent_format "/Analyses/Basecall_2D_%03d/BaseCalled_template" g
  = Ok (probe_path "Basecall_2D" g).
Proof. reflexivity. Qed.

Lemma percent_probe_1D g :
  percent_format "/Analyses/Basecall_1D_%03d/BaseCalled_template" g
  = Ok (probe_path "Basecall_1D" g).
Proof. reflexivity. Qed.

Lemma percent_probe_RNN g :
  percent_format "/Analyses/Basecall_RNN_1D_%03d/BaseCalled_template" g
  = Ok (probe_path "Basecall_RNN_1D" g).
Proof. reflexivity. Qed.

(** A probe reads the handle and leaves it as it is. *)
Lemma probe_eq (s : Fast5File.state) a ms tpl p :
  Fast5File.hdf5file (Fast5File.self s) = Some (H5Group a ms) ->
  percent_format tpl (Fast5File.group (Fast5File.self s)) = Ok p ->
  Fast5File.probe tpl s =
    (match h5_get (H5Group a ms) p with
     | Some n => Ok n
     | None => Raise KeyError
     end, s).
Proof.
  intros Hf Hp.
  unfold Fast5File.probe, bind, Fast5File.self_hdf5file, gets, lift.
  rewrite Hf. simpl. rewrite Hp. reflexivity.
Qed.

Lemma guess_version_eq (s : Fast5File.state) a ms :
  Fast5File.hdf5file (Fast5File.self s) = Some (H5Group a ms) ->
  Fast5File.guess_version s =
    (Ok (if exposes (H5Group a ms) "Basecall_2D" (Fast5File.group (Fast5File.self s))
         then "classic"
         else if exposes (H5Group a ms) "Basecall_1D" (Fast5File.group (Fast5File.self s))
         then "metrichor1.16"
         else if exposes (H5Group a ms) "Basecall_RNN_1D" (Fast5File.group (Fast5File.self s))
         then "r9rnn"
         else "prebasecalled"), s).
Proof.
  intros H.
  unfold Fast5File.guess_version, try_except_KeyError, try_except, bind, exposes.
  rewrite (probe_eq _ _ _ _ _ H (percent_probe_2D _)).
  destruct (h5_get _ (probe_path "Basecall_2D" _)); [reflexivity | ].
  rewrite (probe_eq _ _ _ _ _ H (percent_probe_1D _)).
  destruct (h5_get _ (probe_path "Basecall_1D" _)); [reflexivity | ].
  rewrite (probe_eq _ _ _ _ _ H (percent_probe_RNN _)).
  destruct (h5_get _ (probe_path "Basecall_RNN_1D" _)); reflexivity.
Qed.

(** C1.  A container that opens gets the version of the first probe that
    finds its path, in the order 2-D, 1-D, RNN 1-D at the group index of
    the handle, and [prebasecalled] when none does; with a 2-D group it is
    [classic] whatever else it holds; probing the handle again returns the
    version it has and changes nothing. *)
Theorem guess_version_probe_order fs name g lg root :
  h5py_File fs name = Ok root ->
  let s := snd (Fast5File.__init__ fs name g lg) in
  let v := Fast5File.version (Fast5File.self s) in
  fst (Fast5File.__init__ fs name g lg) = Ok tt
  /\ v = (if exposes root "Basecall_2D" g then "classic"
          else if exposes root "Basecall_1D" g then "metrichor1.16"
          else if exposes root "Basecall_RNN_1D" g then "r9rnn"
          else "prebasecalled")
  /\ (exposes root "Basecall_2D" g = true -> v = "classic")
  /\ Fast5File.guess_version s = (Ok v, s).
Proof.
  intros H.
  destruct (h5py_File_group _ _ _ H) as (a & ms & ->).
  unfold Fast5File.__init__, Fast5File.open. rewrite H.
  unfold bind.
  rewrite guess_version_eq with (a := a) (ms := ms) by reflexivity.
  cbv zeta. simpl.
  repeat split.
  - destruct (exposes _ "Basecall_2D" g) eqn:E; [reflexivity | intro; discriminate].
  - apply guess_version_eq. reflexivity.
Qed.

End Version.

(** The sample container has a 2-D and a 1-D group: it is [classic]. *)
Lemma guess_version_probe_order_witness :
  h5py_File sample_fs "a.fast5" = Ok (H5Group [] sample_members)
  /\ Fast5File.version
       (Fast5File.self (snd (Fast5File.__init__ (X := sample_collaborators)
                               sample_fs "a.fast5" 0 [])))
     = "classic".
Proof.
  split; [reflexivity | ].
  apply (guess_version_probe_order (X := sample_collaborators)
           sample_fs "a.fast5" 0 [] (H5Group [] sample_members)
           eq_refl).
  reflexivity.
Defined.

(** ** The path table *)

(** C2, as the code has it.  For every schema version (with [closed])
    and every strand kind, the keyed lookup yields the documented path for
    a pair the table lists; for a pair it does not list, the row of the
    version has no entry for the strand and the lookup does not return: it
    raises [KeyError]. *)
Theorem fastq_paths_table version strand g :
  In version versions ->
  In strand strands ->
  match documented_path version strand g with
  | Some p => resolved_path version strand g = Ok p
  | None =>
      (exists row, dict_get fastq_paths version = Some row
                   /\ dict_get row strand = None)
      /\ fastq_path version strand = Raise KeyError
  end.
Proof.
  unfold versions, strands. simpl.
  intros Hv Hs.
  repeat match goal with
         | H : _ \/ _ |- _ => destruct H as [<- | H]
         | H : False |- _ => destruct H
         end;
    first [reflexivity | split; [eexists; split; reflexivity | reflexivity]].
Qed.

(** C2 at the two-directions strand of [metrichor1.16], group index 7. *)
Lemma fastq_paths_table_witness :
  resolved_path "metrichor1.16" "twodirections" 7
  = Ok "/Analyses/Basecall_2D_007/BaseCalled_2D".
Proof.
  apply (fastq_paths_table "metrichor1.16" "twodirections" 7);
    simpl; auto 10.
Defined.

(** C2, as the specification states it, fails: the lookup for a strand
    of [closed], or for the complement of [r9rnn], is an error and not an
    absent result. *)
Lemma fastq_path_unlisted_raises :
  fastq_path "closed" "template" = Raise KeyError
  /\ fastq_path "r9rnn" "complement" = Raise KeyError.
Proof. split; reflexivity. Qed.

(** ** The raw read block *)

Lemma append_String_assoc (a : string) (c : ascii) (b : string) :
  (a ++ String c "") ++ b = a ++ String c b.
Proof.
  induction a as [ | x a IH]; simpl; [reflexivity | now rewrite IH].
Qed.

Lemma append_empty_r (a : string) : a ++ "" = a.
Proof.
  induction a as [ | x a IH]; simpl; [reflexivity | now rewrite IH].
Qed.


Lemma split_on_no_sep (name cur : string) :
  forallb (fun c => negb (Ascii.eqb c "/")) (chars name) = true ->
  split_on "/" name cur = [cur ++ name].
Proof.
  revert cur.
  induction name as [ | c name IH]; intros cur H; simpl in *.
  - now rewrite append_empty_r.
  - apply andb_true_iff in H as [Hc Hn].
    apply negb_true_iff in Hc. rewrite Hc.
    rewrite IH by assumption.
    now rewrite append_String_assoc.
Qed.


Section Handle.
Context `{X : Externals}.

Lemma same_file_refl s : same_file s s.
Proof. repeat split. Qed.

Lemma same_file_trans s1 s2 s3 :
  same_file s1 s2 -> same_file s2 s3 -> same_file s1 s3.
Proof.
  unfold same_file. intros (a1 & b1 & c1 & d1) (a2 & b2 & c2 & d2).
  repeat split; congruence.
Qed.

Lemma preserves_ret {A} (a : A) : preserves (ret a).
Proof. intros s r s' [= _ <-]. apply same_file_refl. Qed.

Lemma preserves_raise {A} e : preserves (raise (A := A) e).
Proof. intros s r s' [= _ <-]. apply same_file_refl. Qed.

Lemma preserves_sys_exit {A} msg : preserves (sys_exit (A := A) msg).
Proof. intros s r s' [= _ <-]. apply same_file_refl. Qed.

Lemma preserves_lift {A} (o : outcome A) : preserves (lift o).
Proof. intros s r s' [= _ <-]. apply same_file_refl. Qed.

Lemma preserves_gets {A} (f : Fast5File.state -> A) : preserves (gets f).
Proof. intros s r s' [= _ <-]. apply same_file_refl. Qed.

Lemma preserves_bind {A B} (m : M Fast5File.state A) (k : A -> M Fast5File.state B) :
  preserves m -> (forall a, preserves (k a)) -> preserves (bind m k).
Proof.
  intros Hm Hk s r s'. unfold bind.
  destruct (m s) as [[a | e | msg] s1] eqn:E; intros H.
  - eapply same_file_trans; [eapply Hm; eassumption | eapply Hk; eassumption].
  - injection H as _ <-. eapply Hm; eassumption.
  - injection H as _ <-. eapply Hm; eassumption.
Qed.

Lemma preserves_try_except {A} (m : M Fast5File.state A) (h : exn -> M Fast5File.state A) :
  preserves m -> (forall e, preserves (h e)) -> preserves (try_except m h).
Proof.
  intros Hm Hh s r s'. unfold try_except.
  destruct (m s) as [[a | e | msg] s1] eqn:E; intros H.
  - injection H as _ <-. eapply Hm; eassumption.
  - eapply same_file_trans; [eapply Hm; eassumption | eapply Hh; eassumption].
  - injection H as _ <-. eapply Hm; eassumption.
Qed.

Lemma preserves_try_except_KeyError {A} (m h : M Fast5File.state A) :
  preserves m -> preserves h -> preserves (try_except_KeyError m h).
Proof.
  intros Hm Hh. apply preserves_try_except; [assumption | ].
  intros []; auto using @preserves_raise.
Qed.

Lemma preserves_logger lvl txt e : preserves (Fast5File.logger lvl txt e).
Proof. intros s r s' [= _ <-]. repeat split. Qed.

Lemma preserves_set_keyinfo v : preserves (Fast5File.on_self (Fast5File.set_keyinfo v)).
Proof. intros s r s' [= _ <-]. repeat split. Qed.

Lemma preserves_set_have_metadata v :
  preserves (Fast5File.on_self (Fast5File.set_have_metadata v)).
Proof. intros s r s' [= _ <-]. repeat split. Qed.

Lemma preserves_self_hdf5file : preserves Fast5File.self_hdf5file.
Proof.
  intros s r s'. unfold Fast5File.self_hdf5file.
  destruct (Fast5File.hdf5file (Fast5File.self s)); intros [= _ <-];
    apply same_file_refl.
Qed.

Lemma preserves_if {A} (b : bool) (m1 m2 : M Fast5File.state A) :
  preserves m1 -> preserves m2 -> preserves (if b then m1 else m2).
Proof. destruct b; auto. Qed.

Create HintDb frame.
#[local] Hint Resolve @preserves_ret @preserves_raise @preserves_sys_exit
  @preserves_lift @preserves_gets @preserves_logger @preserves_set_keyinfo
  @preserves_set_have_metadata @preserves_self_hdf5file : frame.
#[local] Hint Extern 2 (preserves (bind _ _)) =>
  apply preserves_bind; [ | intro] : frame.
#[local] Hint Extern 2 (preserves (try_except _ _)) =>
  apply preserves_try_except; [ | intro] : frame.
#[local] Hint Extern 2 (preserves (try_except_KeyError _ _)) =>
  apply preserves_try_except_KeyError : frame.
#[local] Hint Extern 2 (preserves (if _ then _ else _)) =>
  apply preserves_if : frame.
#[local] Hint Extern 3 (preserves (match ?x with _ => _ end)) =>
  destruct x : frame.

Lemma preserves__get_metadata : preserves Fast5File._get_metadata.
Proof. unfold Fast5File._get_metadata. auto 20 with frame. Qed.

Lemma preserves_ensure_metadata : preserves Fast5File.ensure_metadata.
Proof.
  unfold Fast5File.ensure_metadata.
  auto 20 using preserves__get_metadata with frame.
Qed.

Lemma preserves_keyinfo_attr sub name : preserves (Fast5File.keyinfo_attr sub name).
Proof. unfold Fast5File.keyinfo_attr. auto 20 with frame. Qed.

Lemma preserves_get_exp_start_time : preserves Fast5File.get_exp_start_time.
Proof.
  unfold Fast5File.get_exp_start_time.
  auto 30 using preserves_ensure_metadata, preserves_keyinfo_attr with frame.
Qed.

Lemma preserves_get_sample_frequency : preserves Fast5File.get_sample_frequency.
Proof.
  unfold Fast5File.get_sample_frequency.
  auto 30 using preserves_ensure_metadata, preserves_keyinfo_attr with frame.
Qed.

(** *** [find_read_number_block_fixed_raw] *)







(** ** The start of the experiment *)

Lemma h5_getitem_outcome (g : h5node) (path : string) :
  (exists n, h5_getitem g path = Ok n) \/ (exists e, h5_getitem g path = Raise e).
Proof.
  unfold h5_getitem.
  destruct g; [destruct (h5_get _ path) | ]; eauto.
Qed.

Lemma get_metadata_returns (s : Fast5File.state) :
  fst (Fast5File._get_metadata s) = Ok tt.
Proof.
  unfold Fast5File._get_metadata, try_except, bind, Fast5File.self_hdf5file, lift.
  destruct (Fast5File.hdf5file (Fast5File.self s)) as [f | ] eqn:Hf; simpl;
    [ | rewrite Hf; reflexivity].
  destruct (h5_getitem_outcome f "/UniqueGlobalKey") as [[n ->] | [e ->]];
    [reflexivity | ].
  rewrite Hf.
  destruct (h5_getitem_outcome f "/Key") as [[n ->] | [e' ->]]; reflexivity.
Qed.

Lemma ensure_metadata_returns (s : Fast5File.state) :
  Fast5File.ensure_metadata s = (Ok tt, snd (Fast5File.ensure_metadata s)).
Proof.
  unfold Fast5File.ensure_metadata, bind, gets.
  destruct (Fast5File.have_metadata (Fast5File.self s)); [reflexivity | ].
  pose proof (get_metadata_returns s) as H.
  destruct (Fast5File._get_metadata s) as [r s1]. simpl in H. subst r.
  reflexivity.
Qed.

Lemma keyinfo_attr_eq (s : Fast5File.state) k sub name :
  Fast5File.keyinfo (Fast5File.self s) = Some k ->
  Fast5File.keyinfo_attr sub name s
  = (obind (h5_getitem k sub) (fun n => attrs_getitem n name), s).
Proof.
  intros H. unfold Fast5File.keyinfo_attr, bind, gets. rewrite H.
  unfold lift. destruct (h5_getitem k sub); reflexivity.
Qed.



(** ** Event counts *)

Lemma strand_path_eq (strand : string) (s : Fast5File.state) :
  Fast5File.strand_path strand s =
    (obind (fastq_path (Fast5File.version (Fast5File.self s)) strand)
       (fun tpl => percent_format tpl (Fast5File.group (Fast5File.self s))), s).
Proof.
  unfold Fast5File.strand_path, bind, gets, lift.
  destruct (fastq_path _ strand); reflexivity.
Qed.

Lemma events_count_state (strand : string) (s : Fast5File.state) :
  snd (Fast5File.events_count strand s) = s.
Proof.
  unfold Fast5File.events_count, bind at 1, Fast5File.self_hdf5file.
  destruct (Fast5File.hdf5file (Fast5File.self s)) as [f | ]; [ | reflexivity].
  unfold bind at 1. rewrite strand_path_eq.
  destruct (obind _ _) as [path | e | msg]; try reflexivity.
  unfold bind, lift, ret.
  destruct (h5_getitem f path) as [table | e | msg]; try reflexivity.
  destruct (h5_getitem table "Events") as [ev | e | msg]; try reflexivity.
  destruct (h5_read ev); reflexivity.
Qed.

Lemma unmapped_unreadable (strand : string) (s : Fast5File.state) :
  unmapped strand s -> unreadable strand s.
Proof.
  unfold unmapped, unreadable. intros H.
  unfold Fast5File.events_count, bind at 1, Fast5File.self_hdf5file.
  destruct (Fast5File.hdf5file (Fast5File.self s)); [ | eexists; reflexivity].
  unfold bind at 1. rewrite strand_path_eq, H. eexists. reflexivity.
Qed.

Lemma count_of_unreadable (strand : string) (s : Fast5File.state) :
  unreadable strand s ->
  try_except (Fast5File.events_count strand) (fun _ => ret 0) s = (Ok 0, s).
Proof.
  intros [e H]. unfold try_except.
  pose proof (events_count_state strand s) as Hs.
  destruct (Fast5File.events_count strand s) as [r s1].
  simpl in *. subst. reflexivity.
Qed.

Lemma is_high_quality_of_unreadable (s : Fast5File.state) :
  unreadable "template" s -> unreadable "complement" s ->
  Fast5File.is_high_quality s = (Ok true, s).
Proof.
  intros Ht Hc. unfold Fast5File.is_high_quality, bind,
    Fast5File.get_complement_events_count, Fast5File.get_template_events_count.
  rewrite (count_of_unreadable _ _ Hc), (count_of_unreadable _ _ Ht).
  reflexivity.
Qed.

(** C10.  The event count of the template, and of the complement, is 0
    whenever the table has no path for the strand in the version of the
    handle or reading its event table raises; the handle is then left as
    it is and nothing is raised.  When neither event table can be read,
    [is_high_quality] is true. *)
Theorem events_count_zero (s : Fast5File.state) :
  (unmapped "template" s \/ unreadable "template" s ->
   Fast5File.get_template_events_count s = (Ok 0, s))
  /\ (unmapped "complement" s \/ unreadable "complement" s ->
      Fast5File.get_complement_events_count s = (Ok 0, s))
  /\ (unreadable "template" s -> unreadable "complement" s ->
      Fast5File.is_high_quality s = (Ok true, s)).
Proof.
  repeat split.
  - intros [H | H]; apply count_of_unreadable; auto using unmapped_unreadable.
  - intros [H | H]; apply count_of_unreadable; auto using unmapped_unreadable.
  - apply is_high_quality_of_unreadable.
Qed.

(** A path of the table has no [%] conversion, so [%] applied to it
    raises whatever the group index. *)
Lemma table_path_percent_raises (version strand tpl : string) (g : Z) :
  fastq_path version strand = Ok tpl ->
  percent_format tpl g = Raise TypeError.
Proof.
  unfold fastq_path, dict_getitem, fastq_paths.
  cbv [dict_get obind]. intros H.
  repeat match type of H with
         | context [String.eqb ?a ?b] => destruct (String.eqb a b)
         end;
    try discriminate; injection H as <-; reflexivity.
Qed.

(** ** The end time *)

(** The same holds for the event timing block: its path is formatted
    before the [try], so the accessor raises on every handle. *)
Lemma find_event_timing_block_raises (s : Fast5File.state) :
  Fast5File.find_event_timing_block s
  = (Raise (match fastq_path (Fast5File.version (Fast5File.self s)) "template" with
            | Ok _ => TypeError
            | _ => KeyError
            end), s).
Proof.
  unfold Fast5File.find_event_timing_block. unfold bind at 1.
  rewrite strand_path_eq.
  destruct (fastq_path (Fast5File.version (Fast5File.self s)) "template")
    as [tpl | e | m] eqn:E; simpl.
  - now rewrite (table_path_percent_raises _ _ _ _ E).
  - unfold fastq_path, dict_getitem in E.
    destruct (dict_get fastq_paths (Fast5File.version (Fast5File.self s)));
      simpl in E; [ | now injection E as <-].
    destruct (dict_get d "template"); simpl in E; [discriminate | now injection E as <-].
  - unfold fastq_path, dict_getitem in E.
    destruct (dict_get fastq_paths (Fast5File.version (Fast5File.self s)));
      simpl in E; [ | discriminate].
    destruct (dict_get d "template"); discriminate.
Qed.




(** *** Integers that a double holds exactly *)








(** Hence no event table is ever read through [events_count]: both
    counts are 0 and [is_high_quality] holds on every handle. *)
Lemma events_count_unreadable (strand : string) (s : Fast5File.state) :
  unreadable strand s.
Proof.
  unfold unreadable, Fast5File.events_count, bind at 1, Fast5File.self_hdf5file.
  destruct (Fast5File.hdf5file (Fast5File.self s)); [ | eexists; reflexivity].
  unfold bind at 1. rewrite strand_path_eq.
  destruct (fastq_path _ strand) as [tpl | e | msg] eqn:E; simpl;
    try (eexists; reflexivity).
  - rewrite (table_path_percent_raises _ _ _ _ E). eexists. reflexivity.
  - unfold fastq_path, dict_getitem in E.
    destruct (dict_get fastq_paths _) as [d | ]; simpl in E; [ | discriminate].
    destruct (dict_get d strand); discriminate.
Qed.

Lemma is_high_quality_always (s : Fast5File.state) :
  Fast5File.is_high_quality s = (Ok true, s).
Proof. apply is_high_quality_of_unreadable; apply events_count_unreadable. Qed.

(** ** Extraction of the strands *)

Lemma no_exit_obind {A B} (o : outcome A) (k : A -> outcome B) :
  no_exit o -> (forall a, no_exit (k a)) -> no_exit (obind o k).
Proof. destruct o; simpl; auto. Qed.

Lemma no_exit_omap {A B} (f : A -> B) (o : outcome A) :
  no_exit o -> no_exit (omap f o).
Proof. destruct o; simpl; auto. Qed.

Lemma no_exit_call {A} (r : raising A) : no_exit (call r).
Proof. destruct r; exact I. Qed.

Lemma no_exit_h5_getitem g path : no_exit (h5_getitem g path).
Proof. destruct (h5_getitem_outcome g path) as [[n ->] | [e ->]]; exact I. Qed.

Lemma no_exit_render_field field auto n : no_exit (render_field field auto n).
Proof.
  unfold render_field, render_spec.
  repeat match goal with
         | |- no_exit (if ?b then _ else _) => destruct b
         | |- no_exit (match ?x with _ => _ end) => destruct x
         | |- no_exit (let '(_, _) := ?x in _) => destruct x
         end; exact I.
Qed.

Lemma no_exit_format_go tpl st auto n : no_exit (format_go tpl st auto n).
Proof.
  revert st auto.
  induction tpl as [ | c tpl IH]; intros st auto; simpl.
  - destruct st; exact I.
  - destruct st;
      repeat match goal with
             | |- no_exit (if ?b then _ else _) => destruct b
             | |- no_exit (prepend _ _) => apply no_exit_omap
             | |- no_exit (omap _ _) => apply no_exit_omap
             | |- no_exit (obind _ _) =>
                 apply no_exit_obind; [apply no_exit_render_field | intro]
             | |- no_exit (format_go tpl _ _ _) => apply IH
             | |- no_exit (Raise _) => exact I
             end.
Qed.

Lemma no_exit_pct_go tpl st arg : no_exit (pct_go tpl st arg).
Proof.
  revert st arg.
  induction tpl as [ | c tpl IH]; intros st arg; simpl.
  - destruct st, arg; exact I.
  - destruct st; unfold pct_convert;
      repeat match goal with
             | |- no_exit (if ?b then _ else _) => destruct b
             | |- no_exit (match ?x with _ => _ end) => destruct x
             | |- no_exit (prepend _ _) => apply no_exit_omap
             | |- no_exit (omap _ _) => apply no_exit_omap
             | |- no_exit (pct_go tpl _ _) => apply IH
             | |- no_exit (Raise _) => exact I
             end.
Qed.

Lemma no_exit_extract_data : forall n, no_exit (extract_data n).
Proof.
  fix IH 1. intros [a ms | a d].
  - simpl. induction ms as [ | [k c] ms IHms].
    + exact I.
    + destruct (String.eqb k "Fastq"); [apply IH | apply IHms].
  - simpl. destruct d; exact I.
Qed.

Lemma dict_get_set_same {V} (d : dict V) (k : string) (v : V) :
  dict_get (dict_set d k v) k = Some v.
Proof.
  induction d as [ | [k' v'] d IH]; simpl.
  - now rewrite String.eqb_refl.
  - destruct (String.eqb k' k) eqn:E; simpl; rewrite E; [reflexivity | exact IH].
Qed.

Lemma dict_get_set_other {V} (d : dict V) (k k' : string) (v : V) :
  k' <> k -> dict_get (dict_set d k v) k' = dict_get d k'.
Proof.
  intros Hne.
  induction d as [ | [k0 v0] d IH]; simpl.
  - destruct (String.eqb k k') eqn:E; [ | reflexivity].
    apply String.eqb_eq in E. congruence.
  - destruct (String.eqb k0 k) eqn:E; simpl.
    + destruct (String.eqb k0 k') eqn:E'; [ | reflexivity].
      apply String.eqb_eq in E, E'. congruence.
    + now rewrite IH.
Qed.

Section StrandLoop.
Variable R : Type.
Variable results : Fast5File.t -> dict R.
Variable attempt : Fast5File.t -> string -> outcome (option R).
Variable prefix : string.
Variable body : string -> string -> M Fast5File.state unit.

Hypothesis attempt_stable :
  forall s s' p, same_file s s' ->
    attempt (Fast5File.self s') p = attempt (Fast5File.self s) p.

Hypothesis body_spec :
  forall id p s, exists s',
    body id p s = (Ok tt, s')
    /\ same_file s s'
    /\ incl (Fast5File.log s) (Fast5File.log s')
    /\ (forall id', id' <> id ->
          dict_get (results (Fast5File.self s')) id'
          = dict_get (results (Fast5File.self s)) id')
    /\ strand_outcome results attempt prefix s s' id p.

Lemma strand_outcome_later (s s1 s' : Fast5File.state) id p :
  strand_outcome results attempt prefix s s1 id p ->
  incl (Fast5File.log s1) (Fast5File.log s') ->
  dict_get (results (Fast5File.self s')) id
  = dict_get (results (Fast5File.self s1)) id ->
  strand_outcome results attempt prefix s s' id p.
Proof.
  unfold strand_outcome. intros H Hl Hr.
  destruct (attempt (Fast5File.self s) p) as [[r | ] | e | msg];
    rewrite ?Hr; intuition auto.
Qed.

Lemma strand_outcome_earlier (s s1 s' : Fast5File.state) id p :
  strand_outcome results attempt prefix s1 s' id p ->
  same_file s s1 ->
  dict_get (results (Fast5File.self s1)) id
  = dict_get (results (Fast5File.self s)) id ->
  strand_outcome results attempt prefix s s' id p.
Proof.
  unfold strand_outcome. intros H Hs Hr.
  rewrite (attempt_stable _ _ p Hs) in H.
  destruct Hs as (_ & Hn & _). rewrite Hn, Hr in H. exact H.
Qed.

Lemma loop_spec (paths : list (string * string)) :
  NoDup (map fst paths) ->
  forall s, exists s',
    Fast5File.for_each paths (fun '(id, h5path) => body id h5path) s = (Ok tt, s')
    /\ same_file s s'
    /\ incl (Fast5File.log s) (Fast5File.log s')
    /\ (forall id', ~ In id' (map fst paths) ->
          dict_get (results (Fast5File.self s')) id'
          = dict_get (results (Fast5File.self s)) id')
    /\ (forall id p, In (id, p) paths ->
          strand_outcome results attempt prefix s s' id p).
Proof.
  induction paths as [ | [id0 p0] rest IH]; intros Hnd s.
  - exists s. repeat split; auto using same_file_refl, incl_refl.
    intros ? ? [].
  - inversion Hnd as [ | ? ? Hnotin Hrest]; subst.
    destruct (body_spec id0 p0 s) as (s1 & Hb & Hs1 & Hl1 & Ho1 & Hd1).
    destruct (IH Hrest s1) as (s' & Hf & Hs' & Hl' & Ho' & Hd').
    exists s'. simpl. unfold bind. rewrite Hb.
    split; [exact Hf | ].
    split; [eapply same_file_trans; eassumption | ].
    split; [eapply incl_tran; eassumption | ].
    split.
    + intros id' Hid'. simpl in Hid'.
      rewrite Ho' by tauto. apply Ho1. intros ->. tauto.
    + intros id p [[= -> ->] | Hin].
      * eapply strand_outcome_later; eauto.
      * eapply strand_outcome_earlier; eauto.
        apply Ho1. intros ->.
        apply Hnotin. change id0 with (fst (id0, p)). now apply in_map.
Qed.

End StrandLoop.

Lemma fastq_attempt_stable (s s' : Fast5File.state) p :
  same_file s s' ->
  fastq_attempt (Fast5File.self s') p = fastq_attempt (Fast5File.self s) p.
Proof.
  intros (Hf & Hn & Hg & _). unfold fastq_attempt. now rewrite Hf, Hn, Hg.
Qed.

Lemma fasta_attempt_stable (s s' : Fast5File.state) p :
  same_file s s' ->
  fasta_attempt (Fast5File.self s') p = fasta_attempt (Fast5File.self s) p.
Proof.
  intros (Hf & Hn & Hg & _). unfold fasta_attempt. now rewrite Hf, Hn, Hg.
Qed.

Ltac step_outcome o H :=
  let E := fresh "E" in
  assert (E : no_exit o) by exact H;
  destruct o eqn:?; simpl in E; try contradiction; clear E.

(** The two ways a round of the loop ends without a record: with a
    warning, or silently. *)
Ltac round_warns :=
  eexists; split; [reflexivity | ]; simpl;
  repeat split; auto using incl_appl, incl_refl;
  apply in_or_app; right; now left.

Ltac round_skips :=
  eexists; split; [reflexivity | ]; simpl;
  repeat split; auto using incl_refl.

Lemma extract_fastq_spec (id p : string) (s : Fast5File.state) :
  exists s',
    Fast5File.extract_fastq id p s = (Ok tt, s')
    /\ same_file s s'
    /\ incl (Fast5File.log s) (Fast5File.log s')
    /\ (forall id', id' <> id ->
          dict_get (Fast5File.fastqs (Fast5File.self s')) id'
          = dict_get (Fast5File.fastqs (Fast5File.self s)) id')
    /\ strand_outcome Fast5File.fastqs fastq_attempt
         "Could not extract FASTQ from " s s' id p.
Proof.
  unfold Fast5File.extract_fastq, strand_outcome, fastq_attempt,
    try_except, bind, Fast5File.self_hdf5file, gets, lift, Fast5File.logger,
    Fast5File.on_self, modify, ret.
  destruct s as [h lg]. simpl.
  destruct (Fast5File.hdf5file h) as [f | ]; simpl; [ | round_warns].
  step_outcome (str_format p (Fast5File.group h))
               (no_exit_format_go p FmtText 0 (Fast5File.group h));
    simpl; [ | round_warns].
  match goal with
  | |- context [h5_getitem f ?q] =>
      step_outcome (h5_getitem f q) (no_exit_h5_getitem f q)
  end; simpl; [ | round_warns].
  match goal with
  | |- context [extract_data ?n] =>
      step_outcome (extract_data n) (no_exit_extract_data n)
  end; simpl; [ | round_warns].
  match goal with
  | |- context [Fast5File.no_text ?x] => destruct x as [t | ]
  end; simpl; [ | round_skips].
  destruct (String.eqb t ""); simpl; [round_skips | ].
  destruct (Fastq_new t) as [e | fq]; simpl; [round_warns | ].
  eexists. split; [reflexivity | ]. simpl.
  repeat split; auto using incl_refl.
  - intros id' Hne. now apply dict_get_set_other.
  - apply dict_get_set_same.
Qed.

Lemma extract_fasta_spec (id p : string) (s : Fast5File.state) :
  exists s',
    Fast5File.extract_fasta id p s = (Ok tt, s')
    /\ same_file s s'
    /\ incl (Fast5File.log s) (Fast5File.log s')
    /\ (forall id', id' <> id ->
          dict_get (Fast5File.fastas (Fast5File.self s')) id'
          = dict_get (Fast5File.fastas (Fast5File.self s)) id')
    /\ strand_outcome Fast5File.fastas fasta_attempt
         "Could not extract FASTA from " s s' id p.
Proof.
  unfold Fast5File.extract_fasta, strand_outcome, fasta_attempt,
    try_except, bind, Fast5File.self_hdf5file, gets, lift, Fast5File.logger,
    Fast5File.on_self, modify, ret.
  destruct s as [h lg]. simpl.
  destruct (Fast5File.hdf5file h) as [f | ]; simpl; [ | round_warns].
  step_outcome (percent_format p (Fast5File.group h))
               (no_exit_pct_go p PctText (Some (Fast5File.group h)));
    simpl; [ | round_warns].
  match goal with
  | |- context [h5_getitem f ?q] =>
      step_outcome (h5_getitem f q) (no_exit_h5_getitem f q)
  end; simpl; [ | round_warns].
  match goal with
  | |- context [extract_data ?n] =>
      step_outcome (extract_data n) (no_exit_extract_data n)
  end; simpl; [ | round_warns].
  match goal with
  | |- context [Fast5File.no_text ?x] => destruct x as [t | ]
  end; simpl; [ | round_skips].
  destruct (String.eqb t ""); simpl; [round_skips | ].
  destruct (Fasta_new t) as [e | fa]; simpl; [round_warns | ].
  eexists. split; [reflexivity | ]. simpl.
  repeat split; auto using incl_refl.
  - intros id' Hne. now apply dict_get_set_other.
  - apply dict_get_set_same.
Qed.

Lemma table_rows_nodup (version : string) (paths : dict string) :
  dict_getitem fastq_paths version = Ok paths -> NoDup (map fst paths).
Proof.
  unfold dict_getitem, fastq_paths. cbv [dict_get]. intros H.
  repeat match type of H with
         | context [String.eqb ?a ?b] => destruct (String.eqb a b)
         end;
    try discriminate; injection H as <-; simpl;
    repeat (constructor; [simpl; intuition discriminate | ]);
    constructor.
Qed.

(** C5, as the code has it.  For a handle whose version the table
    knows, the extraction of the FASTQ records and that of the FASTA
    records return without raising, and for every strand of the table
    what they leave depends on the attempt for that strand alone: the
    record when the attempt succeeds, nothing when there is no text, and
    nothing but a warning that names the file and carries the exception
    when the attempt raises.  (The extraction of the pre-basecalled events
    has no such guard.) *)
Theorem strand_failures_are_contained (s : Fast5File.state) paths :
  dict_getitem fastq_paths (Fast5File.version (Fast5File.self s)) = Ok paths ->
  (exists s',
     Fast5File._extract_fastqs_from_fast5 s = (Ok tt, s')
     /\ forall id h5path, In (id, h5path) paths ->
          strand_outcome Fast5File.fastqs fastq_attempt
            "Could not extract FASTQ from " s s' id h5path)
  /\ (exists s',
        Fast5File._extract_fastas_from_fast5 s = (Ok tt, s')
        /\ forall id h5path, In (id, h5path) paths ->
             strand_outcome Fast5File.fastas fasta_attempt
               "Could not extract FASTA from " s s' id h5path).
Proof.
  intros H. pose proof (table_rows_nodup _ _ H) as Hnd.
  split.
  - destruct (loop_spec _ Fast5File.fastqs fastq_attempt
                "Could not extract FASTQ from " Fast5File.extract_fastq
                fastq_attempt_stable extract_fastq_spec paths Hnd s)
      as (s' & Hl & _ & _ & _ & Hs).
    exists s'. split; [ | exact Hs].
    unfold Fast5File._extract_fastqs_from_fast5, bind, gets, lift.
    rewrite H. exact Hl.
  - destruct (loop_spec _ Fast5File.fastas fasta_attempt
                "Could not extract FASTA from " Fast5File.extract_fasta
                fasta_attempt_stable extract_fasta_spec paths Hnd s)
      as (s' & Hl & _ & _ & _ & Hs).
    exists s'. split; [ | exact Hs].
    unfold Fast5File._extract_fastas_from_fast5, bind, gets, lift.
    rewrite H. exact Hl.
Qed.

(** With the table as it is, no FASTA record is ever extracted: [%]
    raises on every path of the table before the container is read. *)
Lemma fasta_attempt_raises (h : Fast5File.t) f version strand tpl :
  Fast5File.hdf5file h = Some f ->
  fastq_path version strand = Ok tpl ->
  fasta_attempt h tpl = Raise TypeError.
Proof.
  intros Hf Ht. unfold fasta_attempt. rewrite Hf.
  now rewrite (table_path_percent_raises _ _ _ _ Ht).
Qed.

End Handle.

(** ** The theorems on the sample containers *)




(** C5, as the specification states it, fails: the sample container is
    [classic],
    the table has a path for its pre-basecalled events, the container has
    nothing there, and the [KeyError] reaches the caller. *)
Lemma pre_basecalled_failure_propagates :
  Fast5File.version (Fast5File.self (handle_of "a.fast5")) = "classic"
  /\ fastq_path "classic" "pre_basecalled" = Ok "/Analyses/EventDetection_000/Reads/"
  /\ fst (Fast5File.get_pre_basecalled_events (handle_of "a.fast5")) = Raise KeyError.
Proof. repeat split. Qed.

(** C5 on the sample container: the template is extracted, the
    complement, which is not there, is left out. *)
Lemma strand_failures_are_contained_witness :
  dict_getitem fastq_paths (Fast5File.version (Fast5File.self (handle_of "a.fast5")))
  = Ok [ ("template", "/Analyses/Basecall_2D_{:03d}/BaseCalled_template");
         ("complement", "/Analyses/Basecall_2D_{:03d}/BaseCalled_complement");
         ("twodirections", "/Analyses/Basecall_2D_{:03d}/BaseCalled_2D");
         ("pre_basecalled", "/Analyses/EventDetection_000/Reads/") ]
  /\ exists s',
       Fast5File._extract_fastqs_from_fast5 (handle_of "a.fast5") = (Ok tt, s')
       /\ dict_get (Fast5File.fastqs (Fast5File.self s')) "template"
          = Some ("@read a.fast5", "@read")
       /\ dict_get (Fast5File.fastqs (Fast5File.self s')) "complement" = None.
Proof.
  split; [reflexivity | ].
  destruct (strand_failures_are_contained (X := sample_collaborators)
              (handle_of "a.fast5") _ eq_refl) as [(s' & H & Hs) _].
  exists s'. split; [exact H | split].
  - apply (Hs "template" "/Analyses/Basecall_2D_{:03d}/BaseCalled_template").
    simpl. auto.
  - assert (Hc := Hs "complement"
                    "/Analyses/Basecall_2D_{:03d}/BaseCalled_complement"
                    ltac:(simpl; auto)).
    unfold strand_outcome in Hc.
    assert (E : fastq_attempt (Fast5File.self (handle_of "a.fast5"))
                  "/Analyses/Basecall_2D_{:03d}/BaseCalled_complement"
                = Raise KeyError) by (vm_compute; reflexivity).
    rewrite E in Hc. destruct Hc as [Hc _]. exact Hc.
Defined.



(** C10 on the empty container, which is [prebasecalled]. *)
Lemma events_count_zero_witness :
  Fast5File.version (Fast5File.self (handle_of "empty.fast5")) = "prebasecalled"
  /\ fastq_path "prebasecalled" "template" = Raise KeyError
  /\ Fast5File.get_template_events_count (handle_of "empty.fast5")
     = (Ok 0, handle_of "empty.fast5")
  /\ fst (Fast5File.is_high_quality (handle_of "empty.fast5")) = Ok true.
Proof.
  split; [reflexivity | split; [reflexivity | ]].
  destruct (events_count_zero (X := sample_collaborators)
              (handle_of "empty.fast5")) as (Ht & _ & Hq).
  split.
  - apply Ht. left. reflexivity.
  - rewrite Hq; [reflexivity | | ]; eexists; reflexivity.
Defined.

(** ** The enumerator *)

(** C7.  What the code does on every archive: the first pull calls the
    builtin [next] on the [TarFile], which raises [TypeError]; no member
    is read, none is staged, and the iterator and the file system are
    left as they were. *)
Theorem tarball_next_raises (it : TarballFileIterator.t) (fs : FileSystem) :
  TarballFileIterator.__next__ (it, fs) = (Raise TypeError, (it, fs)).
Proof. destruct it as [name tf]. reflexivity. Qed.

(** Had the loop asked with the method [next], it would have produced
    what the specification says: one staged path for each member whose
    base name passes the filter, in archive order. *)
Lemma next_member_with_method (unread read : list (string * fsnode)) (fuel : nat) :
  (length unread < fuel)%nat ->
  TarballFileIterator.next_member_with method_next fuel
    {| tf_read := read; tf_unread := unread |}
  = first_match read unread.
Proof.
  revert read fuel.
  induction unread as [ | m rest IH]; intros read fuel Hlt;
    (destruct fuel as [ | fuel']; [inversion Hlt | ]); simpl.
  - reflexivity.
  - destruct (TarballFileIterator._fast5_filename_filter (fst m));
      [reflexivity | ].
    apply IH. simpl in Hlt. lia.
Qed.

Lemma first_match_filter (unread read : list (string * fsnode)) :
  match first_match read unread with
  | (Ok m, tf') =>
      filter TarballFileIterator._fast5_filename_filter (map fst unread)
      = fst m :: filter TarballFileIterator._fast5_filename_filter
                   (map fst (tf_unread tf'))
      /\ (length (tf_unread tf') < length unread)%nat
  | (_, _) =>
      filter TarballFileIterator._fast5_filename_filter (map fst unread) = []
  end.
Proof.
  revert read.
  induction unread as [ | m rest IH]; intros read; simpl; [reflexivity | ].
  destruct (TarballFileIterator._fast5_filename_filter (fst m)); simpl.
  - split; [reflexivity | lia].
  - specialize (IH (read ++ [m])%list).
    destruct (first_match (read ++ [m]) rest) as [[m' | e | msg] tf'];
      [ | exact IH | exact IH].
    destruct IH as [IH Hlen]. split; [exact IH | lia].
Qed.

Lemma staged_with_method_filter (fuel : nat) (tf : TarFile) :
  (length (tf_unread tf) < fuel)%nat ->
  staged_with_method fuel tf
  = map (path_join PORETOOLS_TMPDIR)
      (filter TarballFileIterator._fast5_filename_filter (map fst (tf_unread tf))).
Proof.
  revert tf.
  induction fuel as [ | fuel' IH]; intros [read unread] Hlt; [inversion Hlt | ].
  cbn [staged_with_method tf_unread] in *.
  rewrite next_member_with_method by lia.
  pose proof (first_match_filter unread read) as H.
  destruct (first_match read unread) as [[m | e | msg] tf'].
  - destruct H as [H Hlen]. rewrite H. cbn [map]. f_equal.
    apply IH. lia.
  - now rewrite H.
  - now rewrite H.
Qed.

Example sample_archive_with_method :
  staged_with_method 5 {| tf_read := []; tf_unread := sample_archive |}
  = [".poretools_tmp/a.fast5"; ".poretools_tmp/b.fast5"].
Proof. reflexivity. Qed.

(** The members of the sample archive whose names pass the filter. *)
Example sample_archive_matching :
  filter TarballFileIterator._fast5_filename_filter (map fst sample_archive)
  = ["a.fast5"; "b.fast5"].
Proof. reflexivity. Qed.

(** On the sample archive the enumerator yields no handle at all. *)
Example archive_set_yields_nothing :
  Fast5FileSet.set_type (Fast5FileSet.self archive_set) = Some FAST5SET_TARBALL
  /\ fst (pull archive_set) = Raise StopIteration.
Proof. split; reflexivity. Qed.

(** C8.  What the code does on the sample archive: the first pull finds
    the sequence unusable, removes the staging directory and signals
    exhaustion; the directory is then absent, and the next pull does not
    signal exhaustion: [shutil.rmtree] raises [FileNotFoundError]. *)
Theorem second_exhaustion_raises :
  let s1 := snd (pull archive_set) in
  staging_dir_exists archive_set = true
  /\ fst (pull archive_set) = Raise StopIteration
  /\ staging_dir_exists s1 = false
  /\ fst (pull s1) = Raise FileNotFoundError.
Proof. repeat split. Qed.

(** C9, as the specification states it, fails: on the sample archive the
    count is
    known before any pull and after exhaustion alike, and it is 4, the
    number of members of the archive, of which two pass the filter and
    none was staged. *)
Lemma archive_count_is_member_count :
  Fast5FileSet.num_files_in_set (Fast5FileSet.self archive_set) = None
  /\ fst (Fast5FileSet.get_num_files archive_set) = Ok (Some 4)
  /\ fst (Fast5FileSet.get_num_files (snd (pull archive_set)))
     = Ok (Some 4)
  /\ length (filter TarballFileIterator._fast5_filename_filter
               (map fst sample_archive)) = 2%nat.
Proof. repeat split. Qed.

(** ** The known count *)

Lemma dict_get_app_absent {V} (d : dict V) (k : string) (v : V) :
  dict_get d k = None -> dict_get (d ++ [(k, v)])%list k = Some v.
Proof.
  induction d as [ | [k' v'] d IH]; simpl.
  - now rewrite String.eqb_refl.
  - destruct (String.eqb k' k); [discriminate | exact IH].
Qed.

Lemma dict_get_remove_same {V} (d : dict V) (k : string) :
  dict_get (dict_remove d k) k = None.
Proof.
  induction d as [ | [k' v'] d IH]; simpl; [reflexivity | ].
  destruct (String.eqb k' k) eqn:E; [exact IH | ].
  simpl. now rewrite E.
Qed.

Lemma dict_get_remove_other {V} (d : dict V) (k k' : string) :
  k' <> k -> dict_get (dict_remove d k) k' = dict_get d k'.
Proof.
  intros Hne.
  induction d as [ | [k0 v0] d IH]; simpl; [reflexivity | ].
  destruct (String.eqb k0 k) eqn:E; simpl.
  - destruct (String.eqb k0 k') eqn:E'; [ | exact IH].
    apply String.eqb_eq in E, E'. congruence.
  - now rewrite IH.
Qed.

(** An archive that can be opened while the staging directory is there
    and empty can be opened once the directory is removed. *)
Lemma tarfile_open_after_rmtree (fs : FileSystem) (tmp f : string) (tf : TarFile) :
  dict_get fs tmp = Some (FsDir []) ->
  tarfile_open fs f = Ok tf ->
  tarfile_open (dict_remove fs tmp) f = Ok tf.
Proof.
  unfold tarfile_open, fs_lookup. intros Ht.
  destruct (path_segments f) as [ | seg rest]; simpl; [discriminate | ].
  destruct (String.eqb seg tmp) eqn:E.
  - apply String.eqb_eq in E. subst seg. rewrite Ht.
    destruct rest; simpl; discriminate.
  - apply String.eqb_neq in E.
    now rewrite (dict_get_remove_other _ _ _ E).
Qed.

Lemma tarball_init_inv (fs : FileSystem) (f : string) (it : TarballFileIterator.t) :
  TarballFileIterator.__init__ fs f = Ok it ->
  TarballFileIterator._tarball it = f
  /\ tarfile_open fs f = Ok (TarballFileIterator._tarfile it).
Proof.
  unfold TarballFileIterator.__init__.
  destruct (tarfile_open fs f) as [tf | e | msg]; simpl; try discriminate.
  intros [= <-]. split; reflexivity.
Qed.

Lemma tarball_len (fs : FileSystem) (it : TarballFileIterator.t) (tf : TarFile) :
  tarfile_open fs (TarballFileIterator._tarball it) = Ok tf ->
  TarballFileIterator.__len__ fs it
  = Ok (Fast5FileSet.len (tf_members tf)).
Proof.
  unfold TarballFileIterator.__len__, getnames, Fast5FileSet.len.
  intros ->. simpl. now rewrite length_map.
Qed.

Lemma tarball_next_eq (it : TarballFileIterator.t) (fs : FileSystem) :
  TarballFileIterator.__next__ (it, fs) = (Raise TypeError, (it, fs)).
Proof. destruct it as [name tf]. reflexivity. Qed.

Lemma mkdir_created (fs fs' : FileSystem) (name : string) :
  mkdir fs name = Ok fs' -> dict_get fs' name = Some (FsDir []).
Proof.
  unfold mkdir. destruct (dict_get fs name) eqn:E; [discriminate | ].
  intros [= <-]. now apply dict_get_app_absent.
Qed.

Ltac project_state :=
  cbn [Fast5FileSet.self Fast5FileSet.fs Fast5FileSet.log Fast5FileSet.fileset
       Fast5FileSet.set_type Fast5FileSet.num_files_in_set Fast5FileSet.files
       Fast5FileSet.group hd].

Lemma init_constructed arg grp world lg s :
  Fast5FileSet.__init__ arg grp world lg = (Ok tt, s) ->
  constructed (fileset_of arg) grp world lg s.
Proof.
  unfold Fast5FileSet.__init__. fold (fileset_of arg).
  generalize (fileset_of arg) as l. intros l.
  unfold Fast5FileSet._extract_fast5_files, bind, gets, Fast5FileSet.on_self,
    Fast5FileSet.set_fs, Fast5FileSet.logger, modify, ret, sys_exit.
  project_state.
  destruct (1 <? Fast5FileSet.len l) eqn:Hlen.
  - intros [= <-]. apply from_list. now apply Z.ltb_lt.
  - destruct (Fast5FileSet.len l =? 1) eqn:Hone; [ | discriminate].
    assert (exists f, l = [f]) as [f ->].
    { unfold Fast5FileSet.len in *. apply Z.eqb_eq in Hone.
      destruct l as [ | f [ | g r]]; simpl in Hone; try lia. eauto. }
    project_state.
    destruct (isdir world f) eqn:Hdir; project_state.
    + assert (exists n, fs_lookup world f = Some n) as [n Hn].
      { unfold isdir in Hdir. destruct (fs_lookup world f); [eauto | discriminate]. }
      rewrite Hn. project_state.
      destruct (Fast5FileSet.len (walk_files f n) =? 0);
        intros [= <-]; eapply from_directory; eauto.
    + destruct (is_tarfile world f) as [[ | ] | e | msg] eqn:Htar;
        project_state; try discriminate.
      * destruct (isdir world PORETOOLS_TMPDIR); project_state;
          [destruct (rmtree world PORETOOLS_TMPDIR) as [fs0 | e | msg];
             project_state; try discriminate | ];
          (destruct (mkdir _ PORETOOLS_TMPDIR) as [fs' | e | msg] eqn:Hmk;
             project_state; try discriminate;
           destruct (TarballFileIterator.__init__ fs' f) as [it | e | msg] eqn:Hit;
             project_state; try discriminate;
           intros [= <-];
           eapply from_tarball; eauto using mkdir_created; reflexivity).
      * intros [= <-]. now apply from_single_file.
Qed.

Section Count.
Context `{X : Externals}.

Lemma get_num_files_known (s : Fast5FileSet.state) (n : Z) :
  Fast5FileSet.num_files_in_set (Fast5FileSet.self s) = Some n ->
  Fast5FileSet.get_num_files s = (Ok (Some n), s).
Proof.
  intros H. unfold Fast5FileSet.get_num_files, bind, gets, ret.
  rewrite H. destruct (Fast5FileSet.set_type (Fast5FileSet.self s)); now rewrite H.
Qed.

Lemma get_num_files_tarball (s : Fast5FileSet.state) it tf :
  Fast5FileSet.set_type (Fast5FileSet.self s) = Some FAST5SET_TARBALL ->
  Fast5FileSet.num_files_in_set (Fast5FileSet.self s) = None ->
  Fast5FileSet.files (Fast5FileSet.self s) = Fast5FileSet.Tarball it ->
  tarfile_open (Fast5FileSet.fs s) (TarballFileIterator._tarball it) = Ok tf ->
  fst (Fast5FileSet.get_num_files s) = Ok (Some (Fast5FileSet.len (tf_members tf))).
Proof.
  intros Hty Hn Hf Ho.
  unfold Fast5FileSet.get_num_files, bind, gets, ret, Fast5FileSet.len_files,
    Fast5FileSet.on_self, modify.
  rewrite Hn, Hty.
  change (FAST5SET_TARBALL =? FAST5SET_TARBALL) with true. cbv beta iota.
  rewrite Hf, (tarball_len _ _ _ Ho). reflexivity.
Qed.

(** A pull on an archive whose staging directory is there removes the
    directory, signals exhaustion and changes nothing else. *)
Lemma next_on_tarball (s : Fast5FileSet.state) it :
  Fast5FileSet.set_type (Fast5FileSet.self s) = Some FAST5SET_TARBALL ->
  Fast5FileSet.files (Fast5FileSet.self s) = Fast5FileSet.Tarball it ->
  dict_get (Fast5FileSet.fs s) PORETOOLS_TMPDIR = Some (FsDir []) ->
  Fast5FileSet.__next__ s =
    (Raise StopIteration,
     Fast5FileSet.State
       (Fast5FileSet.set_files (Fast5FileSet.Tarball it) (Fast5FileSet.self s))
       (dict_remove (Fast5FileSet.fs s) PORETOOLS_TMPDIR)
       (Fast5FileSet.log s)).
Proof.
  intros Hty Hf Ht.
  unfold Fast5FileSet.__next__, try_except, bind at 1, Fast5FileSet.next_file.
  rewrite Hf, tarball_next_eq.
  unfold bind, gets, Fast5FileSet.set_fs, modify, raise.
  project_state. unfold Fast5FileSet.set_files at 1. project_state.
  rewrite Hty. simpl (FAST5SET_TARBALL =? FAST5SET_TARBALL).
  unfold rmtree. project_state. rewrite Ht. reflexivity.
Qed.

(** A pull on an archive whose staging directory is not there raises
    [FileNotFoundError], whatever the state of the sequence. *)
Lemma next_without_staging_dir (s : Fast5FileSet.state) it :
  Fast5FileSet.set_type (Fast5FileSet.self s) = Some FAST5SET_TARBALL ->
  Fast5FileSet.files (Fast5FileSet.self s) = Fast5FileSet.Tarball it ->
  dict_get (Fast5FileSet.fs s) PORETOOLS_TMPDIR = None ->
  fst (Fast5FileSet.__next__ s) = Raise FileNotFoundError.
Proof.
  intros Hty Hf Ht.
  unfold Fast5FileSet.__next__, try_except, bind at 1, Fast5FileSet.next_file.
  rewrite Hf, tarball_next_eq.
  unfold bind, gets, Fast5FileSet.set_fs, modify, raise.
  project_state. unfold Fast5FileSet.set_files at 1. project_state.
  rewrite Hty. simpl (FAST5SET_TARBALL =? FAST5SET_TARBALL).
  unfold rmtree. project_state. rewrite Ht. reflexivity.
Qed.

(** C9, as the code has it.  A constructor that returns leaves one of
    four kinds.  For a list, a directory and a single file the count is
    known at once: the length of the list, the number of files the walk
    collected, 1.  For an archive it is not known at construction, and the
    query returns the number of members of the archive, before any pull
    and after the pull that signals exhaustion alike. *)
Theorem known_count arg grp world lg (s : Fast5FileSet.state) :
  Fast5FileSet.__init__ arg grp world lg = (Ok tt, s) ->
  let l := fileset_of arg in
  let kind := Fast5FileSet.set_type (Fast5FileSet.self s) in
  (kind = Some FAST5SET_FILELIST \/ kind = Some FAST5SET_DIRECTORY
   \/ kind = Some FAST5SET_SINGLEFILE \/ kind = Some FAST5SET_TARBALL)
  /\ (kind = Some FAST5SET_FILELIST ->
      Fast5FileSet.get_num_files s = (Ok (Some (Fast5FileSet.len l)), s))
  /\ (kind = Some FAST5SET_DIRECTORY ->
      exists f n,
        l = [f] /\ fs_lookup world f = Some n
        /\ Fast5FileSet.get_num_files s
           = (Ok (Some (Fast5FileSet.len (walk_files f n))), s))
  /\ (kind = Some FAST5SET_SINGLEFILE ->
      Fast5FileSet.get_num_files s = (Ok (Some 1), s))
  /\ (kind = Some FAST5SET_TARBALL ->
      Fast5FileSet.num_files_in_set (Fast5FileSet.self s) = None
      /\ exists it,
           Fast5FileSet.files (Fast5FileSet.self s) = Fast5FileSet.Tarball it
           /\ fst (Fast5FileSet.get_num_files s)
              = Ok (Some (Fast5FileSet.len (tf_members (TarballFileIterator._tarfile it))))
           /\ fst (Fast5FileSet.__next__ s) = Raise StopIteration
           /\ fst (Fast5FileSet.get_num_files (snd (Fast5FileSet.__next__ s)))
              = Ok (Some (Fast5FileSet.len (tf_members (TarballFileIterator._tarfile it))))).
Proof.
  intros H l kind. subst l kind.
  destruct (init_constructed _ _ _ _ _ H)
    as [Hl | f n lg' -> Hn Hd | f fs' it -> Hd Ht Htmp Hit | f -> Hd Ht];
    project_state.
  - split; [left; reflexivity | ].
    split; [intros _; now apply get_num_files_known | ].
    split; [ | split]; intros Hk; discriminate Hk.
  - split; [right; left; reflexivity | ].
    split; [intros Hk; discriminate Hk | ].
    split; [ | split; intros Hk; discriminate Hk].
    intros _. exists f, n.
    split; [reflexivity | split; [assumption | now apply get_num_files_known]].
  - split; [right; right; right; reflexivity | ].
    split; [intros Hk; discriminate Hk | ].
    split; [intros Hk; discriminate Hk | ].
    split; [intros Hk; discriminate Hk | ].
    intros _. split; [reflexivity | ].
    exists it. split; [reflexivity | ].
    destruct (tarball_init_inv _ _ _ Hit) as [Hname Hopen].
    rewrite <- Hname in Hopen.
    split; [ | split].
    + apply (get_num_files_tarball _ it (TarballFileIterator._tarfile it));
        [reflexivity | reflexivity | reflexivity | exact Hopen].
    + rewrite (next_on_tarball _ it); [reflexivity | reflexivity | reflexivity | ].
      exact Htmp.
    + rewrite (next_on_tarball _ it); [ | reflexivity | reflexivity | exact Htmp].
      apply (get_num_files_tarball _ it (TarballFileIterator._tarfile it));
        [reflexivity | reflexivity | reflexivity | ].
      project_state. now apply tarfile_open_after_rmtree.
  - split; [right; right; left; reflexivity | ].
    split; [intros Hk; discriminate Hk | ].
    split; [intros Hk; discriminate Hk | ].
    split; [ | intros Hk; discriminate Hk].
    intros _. now apply get_num_files_known.
Qed.

End Count.

(** C9 on the sample directory: three files in two sub-directories. *)
Lemma known_count_witness :
  Fast5FileSet.__init__ (Fast5FileSet.OfStr "run") 0 sample_fs []
  = (Ok tt, snd (Fast5FileSet.__init__ (Fast5FileSet.OfStr "run") 0 sample_fs []))
  /\ fst (Fast5FileSet.get_num_files
            (snd (Fast5FileSet.__init__ (Fast5FileSet.OfStr "run") 0 sample_fs [])))
     = Ok (Some 3).
Proof.
  split; [reflexivity | ].
  destruct (known_count (X := sample_collaborators)
              (Fast5FileSet.OfStr "run") 0 sample_fs []
              (snd (Fast5FileSet.__init__ (Fast5FileSet.OfStr "run") 0 sample_fs []))
              eq_refl) as (_ & _ & Hd & _).
  destruct (Hd eq_refl) as (f & n & Hf & Hn & Hc).
  rewrite Hc. injection Hf as <-.
  assert (E : fs_lookup sample_fs "run" = Some (FsDir
            [ ("0", FsDir [ ("a.fast5", FsHdf5 [] sample_members) ]);
              ("1", FsDir [ ("b.fast5", FsHdf5 [] later_members);
                            ("notes.txt", FsOther) ]) ])) by reflexivity.
  rewrite E in Hn. injection Hn as <-. reflexivity.
Defined.

(* ================================================================== *)
(** * Further properties *)
(* ================================================================== *)

Section MoreHandle.
Context `{X : Externals}.

(** ** Version and table *)

(** X1.  The version a container gets and the path table agree: unless
    the version is [prebasecalled], the table has a template path for the
    version and the group index of the handle, and the container has a
    node there; when it is [prebasecalled], the container has none of the
    three basecall groups. *)
Theorem detected_version_has_template fs name g lg root :
  h5py_File fs name = Ok root ->
  let v := Fast5File.version (Fast5File.self (snd (Fast5File.__init__ fs name g lg))) in
  (In v basecalled_versions
   /\ exists p, resolved_path v "template" g = Ok p
                /\ Fast5File.is_not_none (h5_get root p) = true)
  \/ (v = "prebasecalled"
      /\ exposes root "Basecall_2D" g = false
      /\ exposes root "Basecall_1D" g = false
      /\ exposes root "Basecall_RNN_1D" g = false).
Proof.
  intros H.
  destruct (h5py_File_group _ _ _ H) as (a & ms & ->).
  unfold Fast5File.__init__, Fast5File.open. rewrite H. unfold bind.
  rewrite guess_version_eq with (a := a) (ms := ms) by reflexivity.
  cbv zeta. simpl Fast5File.group.
  destruct (exposes (H5Group a ms) "Basecall_2D" g) eqn:E2.
  { left. split; [simpl; auto | ].
    exists (probe_path "Basecall_2D" g). split; [reflexivity | exact E2]. }
  destruct (exposes (H5Group a ms) "Basecall_1D" g) eqn:E1.
  { left. split; [simpl; auto | ].
    exists (probe_path "Basecall_1D" g). split; [reflexivity | exact E1]. }
  destruct (exposes (H5Group a ms) "Basecall_RNN_1D" g) eqn:Er.
  { left. split; [simpl; auto | ].
    exists (probe_path "Basecall_RNN_1D" g). split; [reflexivity | exact Er]. }
  right. repeat split.
Qed.

(** ** [extract_data] *)

Lemma extract_data_group a ms :
  extract_data (H5Group a ms) =
    match dict_get ms "Fastq" with
    | Some c => extract_data c
    | None => Raise KeyError
    end.
Proof.
  simpl. induction ms as [ | [k c] ms IH]; simpl; [reflexivity | ].
  destruct (String.eqb k "Fastq"); [reflexivity | exact IH].
Qed.

Lemma extract_data_leads : forall n t,
  extract_data n = Ok (Some t) -> leads_to n t.
Proof.
  fix IH 1. intros [a ms | a d] t.
  - simpl. intros H.
    assert (G : exists c, dict_get ms "Fastq" = Some c /\ leads_to c t).
    { revert H. induction ms as [ | [k c] ms IHms]; simpl; [discriminate | ].
      destruct (String.eqb k "Fastq").
      - intros H. exists c. split; [reflexivity | apply IH, H].
      - apply IHms. }
    destruct G as (c & E & L). eapply leads_group; eauto.
  - simpl. destruct d as [s | rows]; simpl; [ | discriminate].
    intros [= ->]. constructor.
Qed.

(** X2.  [extract_data] returns a text exactly when the node leads to
    it through members named [Fastq], however many groups deep; a group
    without such a member raises [KeyError]. *)
Theorem extract_data_follows_fastq n t :
  (extract_data n = Ok (Some t) <-> leads_to n t)
  /\ (forall a ms, dict_get ms "Fastq" = None ->
      extract_data (H5Group a ms) = Raise KeyError).
Proof.
  split; [split | ].
  - apply extract_data_leads.
  - induction 1 as [a t | a ms c t Hc Hl IH]; [reflexivity | ].
    now rewrite extract_data_group, Hc.
  - intros a ms Hn. now rewrite extract_data_group, Hn.
Qed.

End MoreHandle.

(** ** Sequence records *)

Section MoreRecords.
Context `{X : Externals}.

Lemma dict_get_In {V} (d : dict V) (k : string) (v : V) :
  dict_get d k = Some v -> In (k, v) d.
Proof.
  induction d as [ | [k' v'] d IH]; simpl; [discriminate | ].
  destruct (String.eqb k' k) eqn:E.
  - apply String.eqb_eq in E. intros [= ->]. left. now subst.
  - intros H. right. now apply IH.
Qed.

Lemma dict_get_not_In {V} (d : dict V) (k : string) :
  dict_get d k = None -> ~ In k (map fst d).
Proof.
  induction d as [ | [k' v'] d IH]; simpl; [tauto | ].
  destruct (String.eqb k' k) eqn:E; [discriminate | ].
  apply String.eqb_neq in E. intros H [Hk | Hin]; [congruence | now apply IH].
Qed.

Lemma In_dict_get {V} (d : dict V) (k : string) (v : V) :
  NoDup (map fst d) -> In (k, v) d -> dict_get d k = Some v.
Proof.
  induction d as [ | [k' v'] d IH]; simpl; [tauto | ].
  intros Hnd [[= -> ->] | Hin].
  - now rewrite String.eqb_refl.
  - inversion Hnd as [ | ? ? Hnotin Hrest]; subst.
    destruct (String.eqb k' k) eqn:E.
    + apply String.eqb_eq in E. subst. exfalso. apply Hnotin.
      change k with (fst (k, v)). now apply in_map.
    + now apply IH.
Qed.

(** What the loop over the row of the version leaves in [fastqs], for
    the strands that had no record before. *)
Lemma extract_fastqs_result (s : Fast5File.state) (paths : dict string) :
  dict_getitem fastq_paths (Fast5File.version (Fast5File.self s)) = Ok paths ->
  exists s',
    Fast5File._extract_fastqs_from_fast5 s = (Ok tt, s')
    /\ same_file s s'
    /\ Fast5File.have_fastqs (Fast5File.self s') = Fast5File.have_fastqs (Fast5File.self s)
    /\ forall id, dict_get (Fast5File.fastqs (Fast5File.self s)) id = None ->
         dict_get (Fast5File.fastqs (Fast5File.self s')) id
         = extracted_fastq (Fast5File.self s) paths id.
Proof.
  intros H. pose proof (table_rows_nodup _ _ H) as Hnd.
  destruct (loop_spec _ Fast5File.fastqs fastq_attempt
              "Could not extract FASTQ from " Fast5File.extract_fastq
              fastq_attempt_stable extract_fastq_spec paths Hnd s)
    as (s' & Hl & Hsame & _ & Hother & Hs).
  exists s'. split.
  { unfold Fast5File._extract_fastqs_from_fast5, bind, gets, lift.
    rewrite H. exact Hl. }
  split; [exact Hsame | ].
  split.
  { clear - Hl. revert s s' Hl.
    induction paths as [ | [id p] rest IH]; intros s s'; simpl.
    - now intros [= <-].
    - unfold bind at 1.
      destruct (Fast5File.extract_fastq id p s) as [[[] | e | msg] s1] eqn:E;
        try discriminate.
      intros Hl. rewrite (IH _ _ Hl).
      clear - E. revert E.
      unfold Fast5File.extract_fastq, try_except, bind, Fast5File.self_hdf5file,
        gets, lift, Fast5File.logger, Fast5File.on_self, modify, ret.
      destruct s as [h lg]. simpl.
      repeat match goal with
             | |- context [match ?x with _ => _ end] =>
                 lazymatch x with
                 | context [match _ with _ => _ end] => fail
                 | _ => destruct x; simpl
                 end
             end;
        intros [= <-]; reflexivity. }
  intros id Hnone. unfold extracted_fastq.
  destruct (dict_get paths id) as [p | ] eqn:Ep.
  - specialize (Hs id p (dict_get_In _ _ _ Ep)).
    unfold strand_outcome in Hs.
    destruct (fastq_attempt (Fast5File.self s) p) as [[r | ] | e | msg].
    + exact Hs.
    + now rewrite Hs.
    + destruct Hs as [Hs _]. now rewrite Hs.
    + contradiction.
  - rewrite Hother by now apply dict_get_not_In. exact Hnone.
Qed.

Lemma first_of_nil {V} (names : list string) :
  Fast5File.first_of (V := V) [] names = None.
Proof. induction names; simpl; auto. Qed.

Lemma get_fastq_after (s : Fast5File.state) :
  Fast5File.have_fastqs (Fast5File.self s) = true ->
  Fast5File.get_fastq s
  = (Ok (Fast5File.first_of (Fast5File.fastqs (Fast5File.self s))
           ["twodirections"; "template"; "complement"]), s).
Proof.
  intros H.
  unfold Fast5File.get_fastq, Fast5File.ensure_fastqs, bind, gets, ret.
  rewrite H.
  destruct (Fast5File.fastqs (Fast5File.self s)); reflexivity.
Qed.

Lemma get_fastq_fresh (s s1 : Fast5File.state) :
  Fast5File.have_fastqs (Fast5File.self s) = false ->
  Fast5File._extract_fastqs_from_fast5 s = (Ok tt, s1) ->
  Fast5File.get_fastq s
  = (Ok (Fast5File.first_of (Fast5File.fastqs (Fast5File.self s1))
           ["twodirections"; "template"; "complement"]),
     Fast5File.State (Fast5File.set_have_fastqs true (Fast5File.self s1))
       (Fast5File.log s1)).
Proof.
  intros H E.
  unfold Fast5File.get_fastq, Fast5File.ensure_fastqs, bind, gets, ret.
  rewrite H. unfold bind. rewrite E.
  unfold Fast5File.on_self, modify. simpl.
  destruct (Fast5File.fastqs (Fast5File.self s1)); reflexivity.
Qed.

(** X3.  On a handle that has not extracted yet and holds no record,
    [get_fastq] returns the 2-D record when its extraction succeeds, else
    the template's, else the complement's, else [None]: a strand whose
    attempt raises or finds no text is passed over, it does not end the
    query. *)
Theorem get_fastq_prefers (s : Fast5File.state) (paths : dict string) :
  Fast5File.have_fastqs (Fast5File.self s) = false ->
  Fast5File.fastqs (Fast5File.self s) = [] ->
  dict_getitem fastq_paths (Fast5File.version (Fast5File.self s)) = Ok paths ->
  fst (Fast5File.get_fastq s)
  = Ok (match extracted_fastq (Fast5File.self s) paths "twodirections" with
        | Some fq => Some fq
        | None =>
            match extracted_fastq (Fast5File.self s) paths "template" with
            | Some fq => Some fq
            | None => extracted_fastq (Fast5File.self s) paths "complement"
            end
        end).
Proof.
  intros Hhave Hempty Hrow.
  destruct (extract_fastqs_result s paths Hrow) as (s1 & E & _ & _ & Hres).
  rewrite (get_fastq_fresh s s1 Hhave E). cbn [fst Fast5File.first_of].
  rewrite !Hres by (rewrite Hempty; reflexivity).
  destruct (extracted_fastq (Fast5File.self s) paths "twodirections"); [reflexivity | ].
  destruct (extracted_fastq (Fast5File.self s) paths "template"); [reflexivity | ].
  destruct (extracted_fastq (Fast5File.self s) paths "complement"); reflexivity.
Qed.

(** X4.  [get_fastq] extracts once: called again on the state it
    left, it gives the same answer and changes nothing, so no path is
    read and no warning logged a second time. *)
Theorem get_fastq_extracts_once (s s' : Fast5File.state) r :
  Fast5File.get_fastq s = (r, s') ->
  Fast5File.get_fastq s' = (r, s').
Proof.
  intros H.
  destruct (Fast5File.have_fastqs (Fast5File.self s)) eqn:Hhave.
  { rewrite (get_fastq_after s Hhave) in H. injection H as <- <-.
    now apply get_fastq_after. }
  destruct (dict_get fastq_paths (Fast5File.version (Fast5File.self s)))
    as [paths | ] eqn:Hrow.
  - assert (Hrow' : dict_getitem fastq_paths (Fast5File.version (Fast5File.self s))
                    = Ok paths) by (unfold dict_getitem; now rewrite Hrow).
    destruct (extract_fastqs_result s paths Hrow') as (s1 & E & _ & _ & _).
    rewrite (get_fastq_fresh s s1 Hhave E) in H. injection H as <- <-.
    now rewrite get_fastq_after.
  - assert (E : Fast5File.get_fastq s = (Raise KeyError, s)).
    { unfold Fast5File.get_fastq, Fast5File.ensure_fastqs, bind, gets, ret.
      rewrite Hhave. unfold Fast5File._extract_fastqs_from_fast5, bind, gets, lift,
        dict_getitem. now rewrite Hrow. }
    rewrite E in H. injection H as <- <-. exact E.
Qed.

(** ** FASTA records *)

Lemma extract_fasta_table_path (id p version strand : string) (s : Fast5File.state) :
  fastq_path version strand = Ok p ->
  exists e,
    Fast5File.extract_fasta id p s
    = (Ok tt,
       Fast5File.State (Fast5File.self s)
         (Fast5File.log s ++
          [LogRecord WARNING
             ("Could not extract FASTA from "
              ++ Fast5File.filename (Fast5File.self s) ++ ": ") (Some e)])%list).
Proof.
  intros H.
  unfold Fast5File.extract_fasta, try_except, bind, Fast5File.self_hdf5file,
    gets, lift, Fast5File.logger, modify.
  destruct s as [h lg]. simpl.
  destruct (Fast5File.hdf5file h) as [f | ].
  - rewrite (table_path_percent_raises _ _ _ _ H). eexists. reflexivity.
  - eexists. reflexivity.
Qed.

Lemma fastas_loop (paths : list (string * string)) :
  (forall id p, In (id, p) paths ->
     exists version strand, fastq_path version strand = Ok p) ->
  forall s, exists warnings,
    Fast5File.for_each paths (fun '(id, h5path) => Fast5File.extract_fasta id h5path) s
    = (Ok tt, Fast5File.State (Fast5File.self s) (Fast5File.log s ++ warnings)%list)
    /\ length warnings = length paths
    /\ Forall (is_fasta_warning (Fast5File.filename (Fast5File.self s))) warnings.
Proof.
  induction paths as [ | [id p] rest IH]; intros Hp s.
  - exists []. simpl. rewrite app_nil_r. destruct s. repeat split. constructor.
  - destruct (Hp id p (or_introl eq_refl)) as (v & strand & Hv).
    destruct (extract_fasta_table_path id p v strand s Hv) as (e & E).
    destruct (IH (fun id' p' H => Hp id' p' (or_intror H))
                (Fast5File.State (Fast5File.self s)
                   (Fast5File.log s ++
                    [LogRecord WARNING
                       ("Could not extract FASTA from "
                        ++ Fast5File.filename (Fast5File.self s) ++ ": ") (Some e)])%list))
      as (ws & Hl & Hn & Hw).
    eexists (_ :: ws). simpl. unfold bind. rewrite E, Hl. simpl.
    rewrite <- app_assoc. simpl.
    split; [reflexivity | ]. split; [now rewrite Hn | ].
    constructor; [split; reflexivity | exact Hw].
Qed.

(** X5.  With the table as it is, the extraction of the FASTA records
    stores nothing: it returns, leaves the handle as it was and logs one
    warning per path of the version's row.  So [has_2D] and
    [get_fastas_dict] answer from the records the handle held before,
    which is none for a handle as constructed. *)
Theorem fasta_extraction_stores_nothing (s : Fast5File.state) (paths : dict string) :
  dict_getitem fastq_paths (Fast5File.version (Fast5File.self s)) = Ok paths ->
  Fast5File.have_fastas (Fast5File.self s) = false ->
  (exists warnings,
     Fast5File._extract_fastas_from_fast5 s
     = (Ok tt, Fast5File.State (Fast5File.self s) (Fast5File.log s ++ warnings)%list)
     /\ length warnings = length paths
     /\ Forall (is_fasta_warning (Fast5File.filename (Fast5File.self s))) warnings)
  /\ fst (Fast5File.has_2D s)
     = Ok (Fast5File.contains (Fast5File.fastas (Fast5File.self s)) "twodirections")
  /\ fst (Fast5File.get_fastas_dict s) = Ok (Fast5File.fastas (Fast5File.self s)).
Proof.
  intros Hrow Hhave.
  pose proof (table_rows_nodup _ _ Hrow) as Hnd.
  assert (Hp : forall id p, In (id, p) paths ->
                 exists version strand, fastq_path version strand = Ok p).
  { intros id p Hin. exists (Fast5File.version (Fast5File.self s)), id.
    unfold fastq_path. rewrite Hrow. simpl. unfold dict_getitem.
    now rewrite (In_dict_get _ _ _ Hnd Hin). }
  destruct (fastas_loop paths Hp s) as (ws & Hl & Hn & Hw).
  assert (E : Fast5File._extract_fastas_from_fast5 s
              = (Ok tt, Fast5File.State (Fast5File.self s) (Fast5File.log s ++ ws)%list)).
  { unfold Fast5File._extract_fastas_from_fast5, bind, gets, lift.
    rewrite Hrow. exact Hl. }
  split; [exists ws; auto | ].
  unfold Fast5File.has_2D, Fast5File.get_fastas_dict, Fast5File.ensure_fastas,
    bind, gets, ret.
  rewrite Hhave. unfold bind. rewrite E.
  unfold Fast5File.on_self, modify. simpl.
  split; [ | reflexivity].
  unfold Fast5File.contains.
  destruct (dict_get (Fast5File.fastas (Fast5File.self s)) "twodirections"); reflexivity.
Qed.

End MoreRecords.

(** ** Metadata *)

Section MoreMetadata.
Context `{X : Externals}.

Lemma ensure_metadata_run (s : Fast5File.state) :
  exists s1, Fast5File.ensure_metadata s = (Ok tt, s1).
Proof. eexists. apply ensure_metadata_returns. Qed.

Lemma ensure_metadata_after (s : Fast5File.state) :
  Fast5File.have_metadata (Fast5File.self s) = true ->
  Fast5File.ensure_metadata s = (Ok tt, s).
Proof.
  intros H. unfold Fast5File.ensure_metadata, bind, gets. now rewrite H.
Qed.

Lemma get_metadata_eq (s : Fast5File.state) :
  Fast5File._get_metadata s
  = (Ok tt,
     Fast5File.State
       (Fast5File.set_keyinfo (metadata_root (Fast5File.self s)) (Fast5File.self s))
       (match metadata_root (Fast5File.self s) with
        | Some _ => Fast5File.log s
        | None => (Fast5File.log s ++ [keyinfo_warning])%list
        end)).
Proof.
  unfold Fast5File._get_metadata, metadata_root, try_except, bind,
    Fast5File.self_hdf5file, lift, Fast5File.on_self, Fast5File.logger, modify.
  destruct s as [h lg].
  destruct h as [fn g op [f | ] v fa fq b1 b2 b3 b4 b5 b6 pe ki]; simpl;
    [ | reflexivity].
  destruct (h5_getitem_outcome f "/UniqueGlobalKey") as [[k ->] | [e ->]];
    simpl; [reflexivity | ].
  destruct (h5_getitem_outcome f "/Key") as [[k ->] | [e' ->]]; reflexivity.
Qed.

Lemma ensure_metadata_fresh (s : Fast5File.state) :
  Fast5File.have_metadata (Fast5File.self s) = false ->
  Fast5File.ensure_metadata s
  = (Ok tt,
     Fast5File.State
       (Fast5File.set_have_metadata true
          (Fast5File.set_keyinfo (metadata_root (Fast5File.self s)) (Fast5File.self s)))
       (match metadata_root (Fast5File.self s) with
        | Some _ => Fast5File.log s
        | None => (Fast5File.log s ++ [keyinfo_warning])%list
        end)).
Proof.
  intros H. unfold Fast5File.ensure_metadata, bind, gets. rewrite H.
  unfold bind. rewrite get_metadata_eq. reflexivity.
Qed.

Lemma ensure_metadata_marks (s : Fast5File.state) :
  Fast5File.have_metadata (Fast5File.self (snd (Fast5File.ensure_metadata s))) = true.
Proof.
  destruct (Fast5File.have_metadata (Fast5File.self s)) eqn:H.
  - now rewrite ensure_metadata_after.
  - now rewrite ensure_metadata_fresh.
Qed.

Lemma keyinfo_attr_none (s : Fast5File.state) (sub name : string) :
  Fast5File.keyinfo (Fast5File.self s) = None ->
  Fast5File.keyinfo_attr sub name s = (Raise TypeError, s).
Proof.
  intros Hk. unfold Fast5File.keyinfo_attr, bind, gets. now rewrite Hk.
Qed.

Lemma keyinfo_attr_state (s : Fast5File.state) (sub name : string) :
  snd (Fast5File.keyinfo_attr sub name s) = s.
Proof.
  destruct (Fast5File.keyinfo (Fast5File.self s)) as [k | ] eqn:Hk.
  - now rewrite (keyinfo_attr_eq s k sub name Hk).
  - now rewrite (keyinfo_attr_none s _ _ Hk).
Qed.

Lemma metadata_attribute_eq (sub name : string) (s : Fast5File.state) :
  Fast5File.metadata_attribute sub name s
  = (Ok (match Fast5File.keyinfo (Fast5File.self (snd (Fast5File.ensure_metadata s))) with
         | Some k => or_none (stored_attribute k sub name)
         | None => None
         end),
     snd (Fast5File.ensure_metadata s)).
Proof.
  unfold Fast5File.metadata_attribute, bind.
  destruct (ensure_metadata_run s) as (s1 & ->). simpl.
  unfold Fast5File.try_except_all, bind.
  destruct (Fast5File.keyinfo (Fast5File.self s1)) as [k | ] eqn:Hk.
  - rewrite (keyinfo_attr_eq s1 k sub name Hk). unfold stored_attribute.
    destruct (obind (h5_getitem k sub) (fun n => attrs_getitem n name)); reflexivity.
  - rewrite (keyinfo_attr_none s1 _ _ Hk). simpl.
    rewrite ?(keyinfo_attr_none s1 _ _ Hk). reflexivity.
Qed.

(** X6.  The metadata root is [/UniqueGlobalKey] when the container has
    it, else [/Key]; it is looked up by the first accessor only, with one
    warning when neither is there.  Every accessor that returns an
    attribute as stored then returns it, or [None] when the root, the
    sub-group or the attribute is missing: none of them raises. *)
Theorem metadata_attribute_total (sub name : string) (s : Fast5File.state) :
  Fast5File.have_metadata (Fast5File.self s) = false ->
  let s1 := snd (Fast5File.ensure_metadata s) in
  Fast5File.metadata_attribute sub name s
  = (Ok (match metadata_root (Fast5File.self s) with
         | Some k => or_none (stored_attribute k sub name)
         | None => None
         end), s1)
  /\ Fast5File.log s1
     = match metadata_root (Fast5File.self s) with
       | Some _ => Fast5File.log s
       | None => (Fast5File.log s ++ [keyinfo_warning])%list
       end
  /\ Fast5File.metadata_attribute sub name s1
     = (fst (Fast5File.metadata_attribute sub name s), s1).
Proof.
  intros H s1. subst s1.
  rewrite !metadata_attribute_eq.
  rewrite (ensure_metadata_after _ (ensure_metadata_marks s)).
  rewrite (ensure_metadata_fresh s H). simpl. auto.
Qed.

(** X7.  [get_minknow_version] reads the attribute [verssion]: what is
    stored as [version] is never returned, and a container without
    [verssion] gives [None]. *)
Theorem get_minknow_version_reads_verssion (s : Fast5File.state) :
  (forall k,
     Fast5File.keyinfo (Fast5File.self (snd (Fast5File.ensure_metadata s))) = Some k ->
     stored_attribute k "context_tags" "verssion" = Raise KeyError ->
     fst (Fast5File.get_minknow_version s) = Ok None)
  /\ (forall k v,
        Fast5File.keyinfo (Fast5File.self (snd (Fast5File.ensure_metadata s))) = Some k ->
        stored_attribute k "context_tags" "verssion" = Ok v ->
        fst (Fast5File.get_minknow_version s) = Ok (Some v)).
Proof.
  unfold Fast5File.get_minknow_version.
  split; intros k; [ | intros v]; intros Hk Hv;
    rewrite metadata_attribute_eq, Hk, Hv; reflexivity.
Qed.

(** X8.  [get_flowcell_id] returns what is stored as [flowcell_id]
    under [tracking_id], else what is stored as [flow_cell_id], else
    [None]; it never raises. *)
Theorem get_flowcell_id_fallback (s : Fast5File.state) :
  Fast5File.get_flowcell_id s
  = (Ok (match Fast5File.keyinfo (Fast5File.self (snd (Fast5File.ensure_metadata s))) with
         | Some k =>
             match stored_attribute k "tracking_id" "flowcell_id" with
             | Ok v => Some v
             | _ => or_none (stored_attribute k "tracking_id" "flow_cell_id")
             end
         | None => None
         end),
     snd (Fast5File.ensure_metadata s)).
Proof.
  unfold Fast5File.get_flowcell_id, bind.
  destruct (ensure_metadata_run s) as (s1 & ->). simpl.
  unfold Fast5File.try_except_all, bind.
  destruct (Fast5File.keyinfo (Fast5File.self s1)) as [k | ] eqn:Hk.
  - rewrite (keyinfo_attr_eq s1 k "tracking_id" "flowcell_id" Hk).
    unfold stored_attribute.
    destruct (obind (h5_getitem k "tracking_id") (fun n => attrs_getitem n "flowcell_id"));
      simpl; try reflexivity;
      rewrite (keyinfo_attr_eq s1 k "tracking_id" "flow_cell_id" Hk);
      destruct (obind (h5_getitem k "tracking_id")
                  (fun n => attrs_getitem n "flow_cell_id")); reflexivity.
  - rewrite (keyinfo_attr_none s1 _ _ Hk). simpl.
    rewrite ?(keyinfo_attr_none s1 _ _ Hk). reflexivity.
Qed.

Lemma int_attribute_attempt (s : Fast5File.state) (sub name : string)
    (h : M Fast5File.state (option Z)) :
  Fast5File.try_except_all
    (bind (Fast5File.keyinfo_attr sub name) (fun v =>
     bind (lift (int_of_attr v)) (fun n => ret (Some n)))) h s
  = match Fast5File.keyinfo (Fast5File.self s) with
    | Some k =>
        match obind (stored_attribute k sub name) int_of_attr with
        | Ok n => (Ok (Some n), s)
        | _ => h s
        end
    | None => h s
    end.
Proof.
  unfold Fast5File.try_except_all, bind.
  destruct (Fast5File.keyinfo (Fast5File.self s)) as [k | ] eqn:Hk.
  - rewrite (keyinfo_attr_eq s k sub name Hk). unfold stored_attribute, lift.
    destruct (obind (h5_getitem k sub) (fun n => attrs_getitem n name)) as [v | e | m];
      simpl; try reflexivity.
    destruct (int_of_attr v); reflexivity.
  - now rewrite (keyinfo_attr_none s _ _ Hk).
Qed.

(** X9.  [get_channel_number] returns the integer stored as
    [channel_number] under [channel_id]; when that is missing or is not
    an integer, the one under [read_id]; else [None].  It never raises. *)
Theorem get_channel_number_fallback (s : Fast5File.state) :
  Fast5File.get_channel_number s
  = (Ok (match Fast5File.keyinfo (Fast5File.self (snd (Fast5File.ensure_metadata s))) with
         | Some k =>
             match obind (stored_attribute k "channel_id" "channel_number") int_of_attr with
             | Ok n => Some n
             | _ =>
                 or_none (obind (stored_attribute k "read_id" "channel_number")
                            int_of_attr)
             end
         | None => None
         end),
     snd (Fast5File.ensure_metadata s)).
Proof.
  unfold Fast5File.get_channel_number. unfold bind at 1.
  destruct (ensure_metadata_run s) as (s1 & ->). simpl.
  rewrite int_attribute_attempt.
  destruct (Fast5File.keyinfo (Fast5File.self s1)) as [k | ] eqn:Hk.
  - destruct (obind (stored_attribute k "channel_id" "channel_number") int_of_attr);
      try reflexivity;
      rewrite int_attribute_attempt, Hk;
      destruct (obind (stored_attribute k "read_id" "channel_number") int_of_attr);
      reflexivity.
  - rewrite int_attribute_attempt, Hk. reflexivity.
Qed.

Lemma get_script_name_state (s : Fast5File.state) :
  Fast5File.have_metadata (Fast5File.self s) = false ->
  snd (Fast5File.get_script_name s)
  = Fast5File.State
      (Fast5File.set_keyinfo (metadata_root (Fast5File.self s)) (Fast5File.self s))
      (match metadata_root (Fast5File.self s) with
       | Some _ => Fast5File.log s
       | None => (Fast5File.log s ++ [keyinfo_warning])%list
       end).
Proof.
  intros H. unfold Fast5File.get_script_name, bind, gets. rewrite H.
  unfold bind. rewrite get_metadata_eq.
  unfold try_except, bind.
  match goal with
  | |- context [Fast5File.keyinfo_attr ?a ?b ?st] =>
      pose proof (keyinfo_attr_state st a b) as P;
      destruct (Fast5File.keyinfo_attr a b st) as [[v | e | m] st']
  end; simpl in P; subst st'; reflexivity.
Qed.

(** X10.  [get_script_name] never marks the metadata as read, so it
    looks the root up on every call: on a handle whose container has no
    metadata root, [n] calls log the warning [n] times, where the other
    accessors log it once. *)
Theorem get_script_name_looks_up_again (n : nat) (s : Fast5File.state) :
  Fast5File.have_metadata (Fast5File.self s) = false ->
  metadata_root (Fast5File.self s) = None ->
  let s' := script_name_calls n s in
  Fast5File.have_metadata (Fast5File.self s') = false
  /\ Fast5File.log s' = (Fast5File.log s ++ repeat keyinfo_warning n)%list.
Proof.
  revert s. induction n as [ | n IH]; intros s H Hroot; simpl.
  - split; [exact H | now rewrite app_nil_r].
  - pose proof (get_script_name_state s H) as E. rewrite Hroot in E.
    destruct (IH (snd (Fast5File.get_script_name s))) as (IH1 & IH2).
    + rewrite E. exact H.
    + rewrite E. unfold metadata_root in *. exact Hroot.
    + split; [exact IH1 | ]. rewrite IH2, E. simpl. now rewrite <- app_assoc.
Qed.

End MoreMetadata.

(** ** A handle on a file that could not be opened *)

Section ClosedHandle.
Context `{X : Externals}.

Lemma init_closed fs name g lg :
  (forall root, h5py_File fs name <> Ok root) ->
  Fast5File.__init__ fs name g lg
  = (Ok tt,
     Fast5File.State
       (Fast5File.mk name g false None "closed" [] [] false false false false false
          false None None)
       (lg ++ [cannot_open_warning name])%list).
Proof.
  intros H. unfold Fast5File.__init__, Fast5File.open.
  destruct (h5py_File fs name) as [root | e | m]; [now destruct (H root) | | ];
    reflexivity.
Qed.

(** X11.  A file that cannot be opened gives a handle of version
    [closed], with one warning that names the file.  The sequence queries
    of that handle find nothing and log nothing more, and the sample
    frequency is [None]. *)
Theorem closed_handle_is_empty fs name g lg :
  (forall root, h5py_File fs name <> Ok root) ->
  let s := handle_for fs g lg name in
  Fast5File.version (Fast5File.self s) = "closed"
  /\ Fast5File.is_open (Fast5File.self s) = false
  /\ Fast5File.log s = (lg ++ [cannot_open_warning name])%list
  /\ fst (Fast5File.get_fastq s) = Ok None
  /\ Fast5File.log (snd (Fast5File.get_fastq s)) = Fast5File.log s
  /\ fst (Fast5File.has_2D s) = Ok false
  /\ Fast5File.log (snd (Fast5File.has_2D s)) = Fast5File.log s
  /\ fst (Fast5File.get_sample_frequency s) = Ok None.
Proof.
  intros H s. subst s. unfold handle_for. rewrite (init_closed _ _ _ _ H).
  cbn [snd]. repeat (split; [reflexivity | ]). reflexivity.
Qed.

(** X12.  The timing queries of such a handle raise: the start of the
    experiment subscripts the missing metadata root ([TypeError]), and so
    do the start and the end of the read, which ask for it first; the
    duration and the pre-basecalled events read the container, which was
    never bound ([AttributeError]). *)
Theorem closed_handle_timing_raises fs name g lg :
  (forall root, h5py_File fs name <> Ok root) ->
  let s := handle_for fs g lg name in
  fst (Fast5File.get_exp_start_time s) = Raise TypeError
  /\ fst (Fast5File.get_start_time s) = Raise TypeError
  /\ fst (Fast5File.get_end_time s) = Raise TypeError
  /\ fst (Fast5File.get_duration s) = Raise AttributeError
  /\ fst (Fast5File.get_pre_basecalled_events s) = Raise AttributeError.
Proof.
  intros H s. subst s. unfold handle_for. rewrite (init_closed _ _ _ _ H).
  cbn [snd]. repeat (split; [reflexivity | ]). reflexivity.
Qed.

End ClosedHandle.

(** ** Timing without raw reads *)

Section MoreTiming.
Context `{X : Externals}.

Lemma find_raw_absent (s : Fast5File.state) root :
  Fast5File.hdf5file (Fast5File.self s) = Some root ->
  h5_get root "Raw/Reads" = None ->
  Fast5File.find_read_number_block_fixed_raw s = (Ok None, s).
Proof.
  intros Hf Hr.
  unfold Fast5File.find_read_number_block_fixed_raw, bind, Fast5File.self_hdf5file.
  rewrite Hf, Hr. reflexivity.
Qed.

(** X13.  Without [Raw/Reads] in the container, [get_duration] and
    [get_start_time] do not return: the path of the event timing block is
    formatted with [%], which raises [TypeError] on the template of every
    version that has one, and the table lookup raises [KeyError] for the
    others. *)
Theorem timing_needs_raw_reads (s : Fast5File.state) root :
  Fast5File.hdf5file (Fast5File.self s) = Some root ->
  h5_get root "Raw/Reads" = None ->
  let failure :=
    match fastq_path (Fast5File.version (Fast5File.self s)) "template" with
    | Ok _ => TypeError
    | _ => KeyError
    end in
  Fast5File.get_duration s = (Raise failure, s)
  /\ forall e s1,
       Fast5File.get_exp_start_time s = (Ok e, s1) ->
       Fast5File.get_start_time s = (Raise failure, s1).
Proof.
  intros Hf Hr failure. split.
  - unfold Fast5File.get_duration. unfold bind at 1.
    rewrite (find_raw_absent s root Hf Hr).
    unfold bind. now rewrite find_event_timing_block_raises.
  - intros e s1 He.
    destruct (preserves_get_exp_start_time _ _ _ He) as (Hf1 & _ & _ & Hv1).
    unfold Fast5File.get_start_time. unfold bind at 1. rewrite He.
    unfold bind at 1.
    rewrite (find_raw_absent s1 root) by (rewrite ?Hf1; assumption).
    unfold bind. rewrite find_event_timing_block_raises. subst failure.
    now rewrite Hv1.
Qed.

End MoreTiming.

(** ** The read block by its link *)

Section MoreReadBlock.
Context `{X : Externals} {C : @Collaborators X}.

(** X14.  [get_read_number] and [get_start_mux] look for the link in
    the basecall group of index 000, whatever the group index of the
    handle: when the container has no such group they raise [KeyError],
    also when [Raw/Reads] holds the read. *)
Theorem read_number_needs_basecall_group (s : Fast5File.state) a ms :
  Fast5File.hdf5file (Fast5File.self s) = Some (H5Group a ms) ->
  h5_get (H5Group a ms) (link_group (Fast5File.version (Fast5File.self s))) = None ->
  Fast5File.get_read_number s = (Raise KeyError, s)
  /\ Fast5File.get_start_mux s = (Raise KeyError, s).
Proof.
  intros Hf Hg.
  assert (E : Fast5File.find_read_number_block_link s = (Raise KeyError, s)).
  { unfold Fast5File.find_read_number_block_link, bind, gets,
      Fast5File.self_hdf5file, lift.
    rewrite Hf. unfold link_group in Hg. unfold h5_getitem.
    destruct (String.eqb (Fast5File.version (Fast5File.self s)) "classic");
      now rewrite Hg. }
  unfold Fast5File.get_read_number, Fast5File.get_start_mux,
    Fast5File.read_block_int, Fast5File.find_read_number_block.
  unfold bind. now rewrite E.
Qed.

(** X15.  When the basecall group of index 000 has no link named
    [InputEvents] and [Raw/Reads] holds one read, the read number and the
    start mux are the attributes of that read as integers, [None] when
    the attribute is missing or is not an integer. *)
Theorem read_number_from_raw_read (s : Fast5File.state) a ms basecall node :
  Fast5File.hdf5file (Fast5File.self s) = Some (H5Group a ms) ->
  h5_get (H5Group a ms) (link_group (Fast5File.version (Fast5File.self s)))
  = Some basecall ->
  Fast5File.get_link basecall "InputEvents" = Ok None ->
  Fast5File.find_read_number_block_fixed_raw s = (Ok (Some node), s) ->
  Fast5File.get_read_number s
  = (Ok (or_none (obind (attrs_getitem node "read_number") int_of_attr)), s)
  /\ Fast5File.get_start_mux s
     = (Ok (or_none (obind (attrs_getitem node "start_mux") int_of_attr)), s).
Proof.
  intros Hf Hg Hl Hraw.
  assert (E : Fast5File.find_read_number_block s = (Ok node, s)).
  { unfold Fast5File.find_read_number_block. unfold bind at 1.
    assert (E : Fast5File.find_read_number_block_link s = (Ok None, s)).
    { unfold Fast5File.find_read_number_block_link, bind, gets,
        Fast5File.self_hdf5file, lift.
      rewrite Hf. unfold link_group in Hg. unfold h5_getitem.
      destruct (String.eqb (Fast5File.version (Fast5File.self s)) "classic");
        rewrite Hg, Hl; reflexivity. }
    rewrite E. unfold bind. now rewrite Hraw. }
  unfold Fast5File.get_read_number, Fast5File.get_start_mux,
    Fast5File.read_block_int.
  split; unfold bind at 1; rewrite E;
    unfold Fast5File.try_except_all, bind, lift, ret.
  - destruct (attrs_getitem node "read_number") as [v | e | m]; simpl; try reflexivity.
    destruct (int_of_attr v); reflexivity.
  - destruct (attrs_getitem node "start_mux") as [v | e | m]; simpl; try reflexivity.
    destruct (int_of_attr v); reflexivity.
Qed.

End MoreReadBlock.

(** ** Enumerating lists, directories and single files *)

Section MoreEnumerator.
Context `{X : Externals}.

Lemma init_eq fs name g lg :
  Fast5File.__init__ fs name g lg
  = (Ok tt,
     Fast5File.State (fresh_handle fs name g)
       (match h5py_File fs name with
        | Ok _ => lg
        | _ => (lg ++ [cannot_open_warning name])%list
        end)).
Proof.
  unfold Fast5File.__init__, Fast5File.open, fresh_handle.
  destruct (h5py_File fs name) as [root | e | m] eqn:H; try reflexivity.
  destruct (h5py_File_group _ _ _ H) as (a & ms & ->).
  unfold bind.
  rewrite guess_version_eq with (a := a) (ms := ms) by reflexivity.
  reflexivity.
Qed.

Lemma handle_self_log fs g lg name :
  Fast5File.self (handle_for fs g lg name) = fresh_handle fs name g.
Proof. unfold handle_for. now rewrite init_eq. Qed.

Lemma new_Fast5File_eq (s : Fast5FileSet.state) (path : string) :
  Fast5FileSet.new_Fast5File path s
  = (Ok (Fast5File.self
           (handle_for (Fast5FileSet.fs s) (Fast5FileSet.group (Fast5FileSet.self s))
              [] path)),
     Fast5FileSet.State (Fast5FileSet.self s) (Fast5FileSet.fs s)
       (Fast5File.log
          (handle_for (Fast5FileSet.fs s) (Fast5FileSet.group (Fast5FileSet.self s))
             (Fast5FileSet.log s) path))).
Proof.
  unfold Fast5FileSet.new_Fast5File, handle_for.
  now rewrite !init_eq.
Qed.

Lemma next_of_list (s : Fast5FileSet.state) (p : string) (rest : list string) :
  Fast5FileSet.files (Fast5FileSet.self s) = Fast5FileSet.ListIterator (p :: rest) ->
  Fast5FileSet.__next__ s
  = (Ok (Fast5File.self
           (handle_for (Fast5FileSet.fs s) (Fast5FileSet.group (Fast5FileSet.self s))
              [] p)),
     Fast5FileSet.State
       (Fast5FileSet.set_files (Fast5FileSet.ListIterator rest) (Fast5FileSet.self s))
       (Fast5FileSet.fs s)
       (Fast5File.log
          (handle_for (Fast5FileSet.fs s) (Fast5FileSet.group (Fast5FileSet.self s))
             (Fast5FileSet.log s) p))).
Proof.
  intros H.
  unfold Fast5FileSet.__next__, try_except, bind, Fast5FileSet.next_file.
  rewrite H. rewrite new_Fast5File_eq. reflexivity.
Qed.

Lemma next_of_empty_list (s : Fast5FileSet.state) :
  Fast5FileSet.files (Fast5FileSet.self s) = Fast5FileSet.ListIterator [] ->
  exists e s', Fast5FileSet.__next__ s = (Raise e, s').
Proof.
  intros H.
  unfold Fast5FileSet.__next__, try_except, bind, Fast5FileSet.next_file, gets, raise, ret.
  rewrite H.
  destruct (Fast5FileSet.set_type (Fast5FileSet.self s)) as [k | ];
    [ | eexists; eexists; reflexivity].
  destruct (k =? FAST5SET_TARBALL); [ | eexists; eexists; reflexivity].
  unfold Fast5FileSet.set_fs, modify.
  destruct (rmtree (Fast5FileSet.fs s) PORETOOLS_TMPDIR) as [fs' | e | m] eqn:E;
    try (eexists; eexists; reflexivity).
  exfalso. unfold rmtree in E.
  destruct (dict_get (Fast5FileSet.fs s) PORETOOLS_TMPDIR) as [[ | | | ] | ]; discriminate.
Qed.

Lemma next_of_exhausted (s : Fast5FileSet.state) :
  Fast5FileSet.files (Fast5FileSet.self s) = Fast5FileSet.ListIterator [] ->
  Fast5FileSet.set_type (Fast5FileSet.self s) <> Some FAST5SET_TARBALL ->
  Fast5FileSet.__next__ s = (Raise StopIteration, s).
Proof.
  intros H Hty.
  unfold Fast5FileSet.__next__, try_except, bind, Fast5FileSet.next_file, gets, raise, ret.
  rewrite H.
  destruct (Fast5FileSet.set_type (Fast5FileSet.self s)) as [k | ]; [ | reflexivity].
  destruct (Z.eqb_spec k FAST5SET_TARBALL) as [-> | Hne]; [now destruct Hty | reflexivity].
Qed.

Lemma drain_list_length (l : list string) :
  forall (s : Fast5FileSet.state) (fuel : nat),
  Fast5FileSet.files (Fast5FileSet.self s) = Fast5FileSet.ListIterator l ->
  (length l <= fuel)%nat ->
  length (drain fuel s) = length l.
Proof.
  induction l as [ | p rest IH]; intros s fuel H Hfuel.
  - destruct fuel as [ | fuel]; [reflexivity | ]. simpl.
    destruct (next_of_empty_list s H) as (e & s' & ->). reflexivity.
  - destruct fuel as [ | fuel]; [simpl in Hfuel; lia | ].
    simpl. rewrite (next_of_list s p rest H). simpl.
    rewrite IH; [reflexivity | reflexivity | simpl in Hfuel; lia].
Qed.

(** X16.  An enumerator over a list of paths yields one handle per
    path, in the order of the list, each made from the path and the
    group index of the enumerator; a file that cannot be opened gives a
    handle like the others and does not end the enumeration.  The file
    system is left as it was. *)
Theorem drain_of_list (l : list string) :
  forall (s : Fast5FileSet.state) (fuel : nat),
  Fast5FileSet.files (Fast5FileSet.self s) = Fast5FileSet.ListIterator l ->
  (length l <= fuel)%nat ->
  drain fuel s
  = map (fun p =>
           Fast5File.self
             (handle_for (Fast5FileSet.fs s) (Fast5FileSet.group (Fast5FileSet.self s))
                [] p)) l.
Proof.
  induction l as [ | p rest IH]; intros s fuel H Hfuel.
  - destruct fuel as [ | fuel]; [reflexivity | ]. simpl.
    destruct (next_of_empty_list s H) as (e & s' & ->). reflexivity.
  - destruct fuel as [ | fuel]; [simpl in Hfuel; lia | ].
    simpl. rewrite (next_of_list s p rest H).
    rewrite IH; [reflexivity | reflexivity | simpl in Hfuel; lia].
Qed.

(** X17.  For a list, a directory and a single file, the number the
    enumerator reports is the number of handles it yields; after the
    last one it raises [StopIteration], again and again. *)
Theorem count_is_number_yielded arg grp world lg (s : Fast5FileSet.state) :
  Fast5FileSet.__init__ arg grp world lg = (Ok tt, s) ->
  Fast5FileSet.set_type (Fast5FileSet.self s) <> Some FAST5SET_TARBALL ->
  exists paths,
    Fast5FileSet.files (Fast5FileSet.self s) = Fast5FileSet.ListIterator paths
    /\ fst (Fast5FileSet.get_num_files s) = Ok (Some (Z.of_nat (length paths)))
    /\ length (drain (S (length paths)) s) = length paths
    /\ forall s', Fast5FileSet.files (Fast5FileSet.self s') = Fast5FileSet.ListIterator [] ->
         Fast5FileSet.set_type (Fast5FileSet.self s')
         = Fast5FileSet.set_type (Fast5FileSet.self s) ->
         Fast5FileSet.__next__ s' = (Raise StopIteration, s').
Proof.
  intros H Hty.
  assert (G : exists paths,
            Fast5FileSet.files (Fast5FileSet.self s) = Fast5FileSet.ListIterator paths
            /\ Fast5FileSet.num_files_in_set (Fast5FileSet.self s)
               = Some (Z.of_nat (length paths))).
  { destruct (init_constructed _ _ _ _ _ H); simpl in *.
    - eexists. split; reflexivity.
    - eexists. split; reflexivity.
    - now destruct Hty.
    - exists [f]. split; reflexivity. }
  destruct G as (paths & Hfiles & Hnum).
  exists paths. split; [exact Hfiles | ].
  split; [now rewrite (get_num_files_known s _ Hnum) | ].
  split.
  - apply drain_list_length; [exact Hfiles | lia].
  - intros s' Hf' Hty'. apply next_of_exhausted; [exact Hf' | now rewrite Hty'].
Qed.

Lemma no_exit_is_tarfile fs f : no_exit (is_tarfile fs f).
Proof. unfold is_tarfile. destruct (fs_lookup fs f) as [[ | | | ] | ]; exact I. Qed.

Lemma no_exit_rmtree fs name : no_exit (rmtree fs name).
Proof. unfold rmtree. destruct (dict_get fs name) as [[ | | | ] | ]; exact I. Qed.

Lemma no_exit_mkdir fs name : no_exit (mkdir fs name).
Proof. unfold mkdir. destruct (dict_get fs name); exact I. Qed.

Lemma no_exit_tarball_init fs f : no_exit (TarballFileIterator.__init__ fs f).
Proof.
  unfold TarballFileIterator.__init__, tarfile_open.
  destruct (fs_lookup fs f) as [[ | | | ] | ]; exact I.
Qed.

(** X18.  The constructor of an enumerator exits exactly on an empty
    list of paths: it then logs one error, whose text names the builtin
    [dir] and not the input, and calls [sys.exit()], leaving the
    enumerator without a kind and without a count.  On any other input it
    returns or raises an exception. *)
Theorem empty_fileset_exits arg grp world lg :
  (fileset_of arg = [] ->
   Fast5FileSet.__init__ arg grp world lg
   = (Exit None,
      Fast5FileSet.State
        (Fast5FileSet.mk [] None None grp (Fast5FileSet.ListIterator []))
        world (lg ++ [empty_fileset_error])%list))
  /\ (fileset_of arg <> [] ->
      no_exit (fst (Fast5FileSet.__init__ arg grp world lg))).
Proof.
  unfold Fast5FileSet.__init__. fold (fileset_of arg).
  generalize (fileset_of arg) as l. intros l.
  split; [intros ->; reflexivity | intros Hne].
  unfold Fast5FileSet._extract_fast5_files, bind, gets, Fast5FileSet.on_self,
    Fast5FileSet.set_fs, Fast5FileSet.logger, modify, ret, sys_exit.
  project_state.
  destruct (1 <? Fast5FileSet.len l) eqn:Hlen; [exact I | ].
  destruct (Fast5FileSet.len l =? 1) eqn:Hone.
  - assert (exists f, l = [f]) as [f ->].
    { unfold Fast5FileSet.len in *. apply Z.eqb_eq in Hone.
      destruct l as [ | f [ | g r]]; simpl in Hone; try lia. eauto. }
    project_state.
    destruct (isdir world f); project_state.
    + destruct (fs_lookup world f) as [n | ]; project_state;
        match goal with
        | |- context [if ?b then _ else _] => destruct b
        end; exact I.
    + pose proof (no_exit_is_tarfile world f) as Ht.
      destruct (is_tarfile world f) as [[ | ] | e | msg]; project_state;
        try exact I; try contradiction.
      destruct (isdir world PORETOOLS_TMPDIR); project_state.
      * pose proof (no_exit_rmtree world PORETOOLS_TMPDIR) as Hr.
        destruct (rmtree world PORETOOLS_TMPDIR) as [fs0 | e | msg]; project_state;
          try exact I; try contradiction.
        pose proof (no_exit_mkdir fs0 PORETOOLS_TMPDIR) as Hm.
        destruct (mkdir fs0 PORETOOLS_TMPDIR) as [fs1 | e | msg]; project_state;
          try exact I; try contradiction.
        pose proof (no_exit_tarball_init fs1 f) as Hi.
        destruct (TarballFileIterator.__init__ fs1 f) as [it | e | msg];
          project_state; try exact I; contradiction.
      * pose proof (no_exit_mkdir world PORETOOLS_TMPDIR) as Hm.
        destruct (mkdir world PORETOOLS_TMPDIR) as [fs1 | e | msg]; project_state;
          try exact I; try contradiction.
        pose proof (no_exit_tarball_init fs1 f) as Hi.
        destruct (TarballFileIterator.__init__ fs1 f) as [it | e | msg];
          project_state; try exact I; contradiction.
  - exfalso. apply Hne.
    unfold Fast5FileSet.len in *.
    apply Z.ltb_ge in Hlen. apply Z.eqb_neq in Hone.
    destruct l as [ | f r]; [reflexivity | ]. simpl length in *. lia.
Qed.


Lemma walk_files_count : forall (n : fsnode) (dirpath : string),
  length (walk_files dirpath n) = count_files n.
Proof.
  fix IH 1. intros [a ms | ms | | entries] dirpath; try reflexivity.
  simpl. rewrite length_app.
  induction entries as [ | [k c] es IHes]; [reflexivity | ].
  pose proof (IH c (path_join dirpath k)) as Hc.
  destruct c; simpl in *; rewrite ?length_app in *; simpl; lia.
Qed.

(** X20.  The count of a directory is the number of files below it at
    any depth, whatever their names: no extension is asked for.  An
    empty tree gives the count 0 and the one warning. *)
Theorem directory_count arg f entries grp world lg :
  fileset_of arg = [f] ->
  fs_lookup world f = Some (FsDir entries) ->
  exists s,
    Fast5FileSet.__init__ arg grp world lg = (Ok tt, s)
    /\ Fast5FileSet.set_type (Fast5FileSet.self s) = Some FAST5SET_DIRECTORY
    /\ fst (Fast5FileSet.get_num_files s)
       = Ok (Some (Z.of_nat (count_files (FsDir entries))))
    /\ Fast5FileSet.log s
       = match count_files (FsDir entries) with
         | O => (lg ++ [empty_directory_warning])%list
         | S _ => lg
         end.
Proof.
  intros Hl Hf.
  unfold Fast5FileSet.__init__. fold (fileset_of arg). rewrite Hl.
  unfold Fast5FileSet._extract_fast5_files, bind, gets.
  cbn [Fast5FileSet.self Fast5FileSet.fs Fast5FileSet.fileset hd].
  change (1 <? Fast5FileSet.len [f]) with false.
  change (Fast5FileSet.len [f] =? 1) with true.
  cbv iota. unfold isdir.
  cbn [Fast5FileSet.fs]. rewrite Hf.
  cbn [Fast5FileSet.fs]. rewrite Hf.
  unfold Fast5FileSet.on_self, Fast5FileSet.logger, modify, ret.
  cbn [Fast5FileSet.self Fast5FileSet.fs Fast5FileSet.log].
  pose proof (walk_files_count (FsDir entries) f) as Hc.
  unfold Fast5FileSet.len. rewrite Hc.
  destruct (count_files (FsDir entries)) as [ | n] eqn:En.
  - eexists. split; [reflexivity | ].
    split; [reflexivity | ]. split; [ | reflexivity].
    rewrite get_num_files_known with (n := 0); [reflexivity | ].
    reflexivity.
  - change (Z.of_nat (S n) =? 0) with false.
    eexists. split; [reflexivity | ].
    split; [reflexivity | ]. split; [ | reflexivity].
    rewrite get_num_files_known with (n := Z.of_nat (S n)); [reflexivity | ].
    reflexivity.
Qed.

End MoreEnumerator.

(** ** The best record *)

Section MoreBest.
Context `{X : Externals} {C : @Collaborators X}.

Lemma get_best_type_returns (s : Fast5File.state) :
  exists r, Fast5File.get_best_type s = (Ok r, s).
Proof.
  unfold Fast5File.get_best_type, try_except, bind, gets, ret, lift,
    Fast5File.contains, dict_getitem.
  destruct (dict_get (Fast5File.fastqs (Fast5File.self s)) "twodirections");
    cbn [Fast5File.is_not_none]; [eexists; reflexivity | ].
  destruct (dict_get (Fast5File.fastqs (Fast5File.self s)) "template") as [t | ];
    destruct (dict_get (Fast5File.fastqs (Fast5File.self s)) "complement") as [c | ];
    cbn [Fast5File.is_not_none andb negb]; try (eexists; reflexivity).
  destruct (est_error_rate t) as [e | a]; cbn [call]; [eexists; reflexivity | ].
  destruct (est_error_rate c) as [e | b]; cbn [call]; [eexists; reflexivity | ].
  destruct (Qle_bool a b); eexists; reflexivity.
Qed.

(** X21.  [get_best_type] never raises and changes nothing.  It
    answers [twodirections] whenever there is a 2-D record; a name it
    answers is one of the three strands and has a record; without any
    record it answers [None]. *)
Theorem best_type_names_a_record (s : Fast5File.state) :
  exists r,
    Fast5File.get_best_type s = (Ok r, s)
    /\ (Fast5File.contains (Fast5File.fastqs (Fast5File.self s)) "twodirections" = true ->
        r = Some "twodirections")
    /\ (forall k, r = Some k ->
          In k ["twodirections"; "template"; "complement"]
          /\ Fast5File.contains (Fast5File.fastqs (Fast5File.self s)) k = true)
    /\ (Fast5File.contains (Fast5File.fastqs (Fast5File.self s)) "template" = false ->
        Fast5File.contains (Fast5File.fastqs (Fast5File.self s)) "complement" = false ->
        Fast5File.contains (Fast5File.fastqs (Fast5File.self s)) "twodirections" = false ->
        r = None).
Proof.
  unfold Fast5File.get_best_type, try_except, bind, gets, ret, lift,
    Fast5File.contains, dict_getitem.
  destruct (dict_get (Fast5File.fastqs (Fast5File.self s)) "twodirections")
    as [d | ] eqn:E2; cbn [Fast5File.is_not_none].
  { eexists. split; [reflexivity | ].
    split; [reflexivity | ]. split; [ | discriminate].
    intros k [= <-]. rewrite E2. simpl. auto. }
  destruct (dict_get (Fast5File.fastqs (Fast5File.self s)) "template")
    as [t | ] eqn:Et;
    destruct (dict_get (Fast5File.fastqs (Fast5File.self s)) "complement")
      as [c | ] eqn:Ec; cbn [Fast5File.is_not_none andb negb].
  - destruct (est_error_rate t) as [e | a]; cbn [call].
    { eexists. split; [reflexivity | ].
      split; [discriminate | ]. split; [discriminate | reflexivity]. }
    destruct (est_error_rate c) as [e | b]; cbn [call].
    { eexists. split; [reflexivity | ].
      split; [discriminate | ]. split; [discriminate | reflexivity]. }
    destruct (Qle_bool a b).
    + eexists. split; [reflexivity | ].
      split; [discriminate | ]. split; [ | discriminate].
      intros k [= <-]. rewrite Et. simpl. auto.
    + eexists. split; [reflexivity | ].
      split; [discriminate | ]. split; [ | discriminate].
      intros k [= <-]. rewrite Ec. simpl. auto.
  - eexists. split; [reflexivity | ].
    split; [discriminate | ]. split; [ | discriminate].
    intros k [= <-]. rewrite Et. simpl. auto.
  - eexists. split; [reflexivity | ].
    split; [discriminate | ]. split; [ | discriminate].
    intros k [= <-]. rewrite Ec. simpl. auto.
  - eexists. split; [reflexivity | ].
    split; [discriminate | ]. split; [discriminate | reflexivity].
Qed.

End MoreBest.

(** ** The directory handler *)

Lemma after_events_files (events : list string) (h : Fast5DirHandler.t) :
  Fast5DirHandler.files (after_events events h)
  = (Fast5DirHandler.files h ++ events)%list
  /\ Fast5DirHandler.dir (after_events events h) = Fast5DirHandler.dir h.
Proof.
  revert h. induction events as [ | e events IH]; intros h; simpl.
  - now rewrite app_nil_r.
  - destruct (IH (Fast5DirHandler.mk (Fast5DirHandler.dir h)
                    (Fast5DirHandler.files h ++ [e])%list)) as (IH1 & IH2).
    unfold Fast5DirHandler.on_created, Fast5DirHandler.process, modify. simpl.
    rewrite IH1, IH2. simpl. now rewrite <- app_assoc.
Qed.

Lemma drain_handler_files (l : list string) :
  forall (h : Fast5DirHandler.t) (fuel : nat),
  Fast5DirHandler.files h = l ->
  (length l <= fuel)%nat ->
  drain_handler fuel h = l.
Proof.
  induction l as [ | p rest IH]; intros h fuel H Hfuel.
  - destruct fuel as [ | fuel]; [reflexivity | ]. simpl.
    unfold Fast5DirHandler.__next__. now rewrite H.
  - destruct fuel as [ | fuel]; [simpl in Hfuel; lia | ]. simpl.
    unfold Fast5DirHandler.__next__. rewrite H.
    rewrite IH; [reflexivity | reflexivity | simpl in Hfuel; lia].
Qed.

(** X22.  The directory handler is a queue: it yields the files found
    when it was made, then the paths of the creation events in the order
    they came, each once, and then raises [StopIteration]; [clear] drops
    what is waiting.  A path that is no directory starts it empty. *)
Theorem dir_handler_is_a_queue glob_fast5 fs d (events : list string) (fuel : nat) :
  let h0 := Fast5DirHandler.__init__ glob_fast5 fs d in
  let h := after_events events h0 in
  (length (Fast5DirHandler.files h0) + length events <= fuel)%nat ->
  Fast5DirHandler.files h0 = (if isdir fs d then glob_fast5 fs d else [])
  /\ drain_handler fuel h = (Fast5DirHandler.files h0 ++ events)%list
  /\ drain_handler fuel (snd (Fast5DirHandler.clear h)) = []
  /\ Fast5DirHandler.__next__ (snd (Fast5DirHandler.clear h))
     = (Raise StopIteration, snd (Fast5DirHandler.clear h)).
Proof.
  intros h0 h Hfuel.
  destruct (after_events_files events h0) as (Hf & Hd).
  split.
  { subst h0. unfold Fast5DirHandler.__init__. now destruct (isdir fs d). }
  split.
  { apply drain_handler_files; [exact Hf | rewrite length_app; lia]. }
  split.
  { apply drain_handler_files; [reflexivity | simpl; lia]. }
  reflexivity.
Qed.

(** ** The filter of the archive iterator *)

Lemma split_on_nonempty (s cur : string) : split_on "/" s cur <> [].
Proof.
  revert cur. induction s as [ | c s IH]; intros cur; simpl; [discriminate | ].
  destruct (Ascii.eqb c "/"); [discriminate | apply IH].
Qed.

Lemma last_cons_nonempty {A} (a d : A) (l : list A) :
  l <> [] -> last (a :: l) d = last l d.
Proof. destruct l; [congruence | reflexivity]. Qed.

Lemma basename_in_directory_go (d name cur : string) :
  forallb (fun c => negb (Ascii.eqb c "/")) (chars name) = true ->
  last (split_on "/" (d ++ "/" ++ name) cur) "" = name.
Proof.
  intros Hn. revert cur. induction d as [ | c d IH]; intros cur.
  - simpl. now rewrite (split_on_no_sep _ _ Hn).
  - change ((String c d) ++ "/" ++ name) with (String c (d ++ "/" ++ name)).
    cbn [split_on].
    destruct (Ascii.eqb c "/").
    + rewrite last_cons_nonempty by apply split_on_nonempty. apply IH.
    + apply IH.
Qed.

(** X23.  The filter looks at the base name only: a member [name] of
    any directory [d] of the archive passes exactly when [name] ends in
    [.fast5] and does not start with a dot, so a hidden directory does
    not hide its members. *)
Theorem filter_looks_at_base_name (d name : string) :
  forallb (fun c => negb (Ascii.eqb c "/")) (chars name) = true ->
  TarballFileIterator._fast5_filename_filter (d ++ "/" ++ name)
  = endswith name ".fast5" && negb (startswith name ".").
Proof.
  intros Hn. unfold TarballFileIterator._fast5_filename_filter, basename, split.
  now rewrite (basename_in_directory_go d name "" Hn).
Qed.

(** ** The staging directory of an archive *)

Lemma fs_lookup_staging (world : FileSystem) :
  fs_lookup world PORETOOLS_TMPDIR = dict_get world PORETOOLS_TMPDIR.
Proof.
  unfold fs_lookup.
  change (path_segments PORETOOLS_TMPDIR) with [PORETOOLS_TMPDIR].
  cbn [fs_resolve]. now destruct (dict_get world PORETOOLS_TMPDIR).
Qed.

Lemma dict_get_app_other {V} (d : dict V) (k k' : string) (v : V) :
  k' <> k -> dict_get (d ++ [(k, v)])%list k' = dict_get d k'.
Proof.
  intros Hne. induction d as [ | [k0 v0] d IH]; simpl.
  - destruct (String.eqb k k') eqn:E; [ | reflexivity].
    apply String.eqb_eq in E. congruence.
  - now rewrite IH.
Qed.

(** X24.  For an archive the constructor leaves an empty staging
    directory: one that was there is removed with all it held and made
    anew, and nothing else in the working directory changes.  When the
    name of the staging directory is taken by a file, the constructor
    raises [OSError] and leaves the working directory as it was. *)
Theorem archive_staging arg f grp world lg :
  fileset_of arg = [f] ->
  is_tarfile world f = Ok true ->
  (forall s, Fast5FileSet.__init__ arg grp world lg = (Ok tt, s) ->
     dict_get (Fast5FileSet.fs s) PORETOOLS_TMPDIR = Some (FsDir [])
     /\ (forall k, k <> PORETOOLS_TMPDIR ->
           dict_get (Fast5FileSet.fs s) k = dict_get world k)
     /\ Fast5FileSet.log s = lg)
  /\ (forall n, dict_get world PORETOOLS_TMPDIR = Some n ->
        (forall entries, n <> FsDir entries) ->
        fst (Fast5FileSet.__init__ arg grp world lg) = Raise OSError
        /\ Fast5FileSet.fs (snd (Fast5FileSet.__init__ arg grp world lg)) = world).
Proof.
  intros Hl Htar.
  assert (Hdir : isdir world f = false).
  { unfold is_tarfile in Htar. unfold isdir.
    destruct (fs_lookup world f) as [[ | | | ] | ]; try reflexivity; discriminate. }
  unfold Fast5FileSet.__init__. fold (fileset_of arg). rewrite Hl.
  unfold Fast5FileSet._extract_fast5_files, bind, gets, Fast5FileSet.on_self,
    Fast5FileSet.set_fs, Fast5FileSet.logger, modify, ret, sys_exit.
  project_state.
  change (1 <? Fast5FileSet.len [f]) with false.
  change (Fast5FileSet.len [f] =? 1) with true.
  cbv iota. project_state. rewrite Hdir. project_state.
  rewrite Htar. project_state.
  unfold isdir, rmtree, mkdir. rewrite fs_lookup_staging.
  destruct (dict_get world PORETOOLS_TMPDIR) as [n | ] eqn:Etmp.
  - destruct n as [a ms | ms | | entries]; project_state; rewrite ?Etmp;
      project_state.
    1-3: split; [intros s [=] | ];
         intros n [= <-] Hn; split; reflexivity.
    rewrite dict_get_remove_same. project_state.
    split.
    + destruct (TarballFileIterator.__init__ _ f) as [it | e | msg];
        project_state; intros s [= <-]; project_state.
      split; [apply dict_get_app_absent, dict_get_remove_same | ].
      split; [ | reflexivity].
      intros k Hk. rewrite dict_get_app_other by assumption.
      now apply dict_get_remove_other.
    + intros n [= <-] Hn. now destruct (Hn entries).
  - project_state; rewrite ?Etmp; project_state. split.
    + destruct (TarballFileIterator.__init__ _ f) as [it | e | msg];
        project_state; intros s [= <-]; project_state.
      split; [now apply dict_get_app_absent | ].
      split; [ | reflexivity].
      intros k Hk. now apply dict_get_app_other.
    + intros n [=].
Qed.

(** ** No FASTA record *)

Section NoFasta.
Context `{X : Externals} {C : @Collaborators X}.

Lemma extract_fastq_keeps_fastas (id p : string) (s s1 : Fast5File.state) r :
  Fast5File.extract_fastq id p s = (r, s1) ->
  Fast5File.fastas (Fast5File.self s1) = Fast5File.fastas (Fast5File.self s).
Proof.
  unfold Fast5File.extract_fastq, try_except, bind, Fast5File.self_hdf5file,
    gets, lift, Fast5File.logger, Fast5File.on_self, modify, ret.
  destruct s as [h lg]. simpl.
  repeat match goal with
         | |- context [match ?x with _ => _ end] =>
             lazymatch x with
             | context [match _ with _ => _ end] => fail
             | _ => destruct x; simpl
             end
         end;
    intros [= _ <-]; reflexivity.
Qed.

Lemma for_each_fastq_keeps_fastas (paths : list (string * string)) :
  forall (s s' : Fast5File.state) r,
  Fast5File.for_each paths (fun '(id, h5path) => Fast5File.extract_fastq id h5path) s
  = (r, s') ->
  Fast5File.fastas (Fast5File.self s') = Fast5File.fastas (Fast5File.self s).
Proof.
  induction paths as [ | [id p] rest IH]; intros s s' r; simpl.
  - now intros [= _ <-].
  - unfold bind at 1.
    destruct (Fast5File.extract_fastq id p s) as [[[] | e | msg] s1] eqn:E;
      pose proof (extract_fastq_keeps_fastas _ _ _ _ _ E) as K.
    + intros H. rewrite (IH _ _ _ H). exact K.
    + now intros [= _ <-].
    + now intros [= _ <-].
Qed.

Lemma ensure_fastqs_keeps_fastas (s s' : Fast5File.state) r :
  Fast5File.ensure_fastqs s = (r, s') ->
  Fast5File.fastas (Fast5File.self s') = Fast5File.fastas (Fast5File.self s).
Proof.
  unfold Fast5File.ensure_fastqs, bind, gets, ret.
  destruct (Fast5File.have_fastqs (Fast5File.self s)); [now intros [= _ <-] | ].
  unfold bind.
  destruct (Fast5File._extract_fastqs_from_fast5 s) as [[[] | e | msg] s1] eqn:E.
  - unfold Fast5File.on_self, modify. intros [= _ <-]. simpl.
    revert E. unfold Fast5File._extract_fastqs_from_fast5, bind, gets, lift.
    destruct (dict_getitem fastq_paths (Fast5File.version (Fast5File.self s)));
      try discriminate.
    apply for_each_fastq_keeps_fastas.
  - intros [= _ <-]. revert E.
    unfold Fast5File._extract_fastqs_from_fast5, bind, gets, lift.
    destruct (dict_getitem fastq_paths (Fast5File.version (Fast5File.self s)));
      try (now intros [= _ <-]).
    apply for_each_fastq_keeps_fastas.
  - intros [= _ <-]. revert E.
    unfold Fast5File._extract_fastqs_from_fast5, bind, gets, lift.
    destruct (dict_getitem fastq_paths (Fast5File.version (Fast5File.self s)));
      try (now intros [= _ <-]).
    apply for_each_fastq_keeps_fastas.
Qed.

Lemma ensure_fastqs_returns (s : Fast5File.state) (paths : dict string) :
  dict_getitem fastq_paths (Fast5File.version (Fast5File.self s)) = Ok paths ->
  exists s', Fast5File.ensure_fastqs s = (Ok tt, s').
Proof.
  intros Hrow. unfold Fast5File.ensure_fastqs, bind, gets, ret.
  destruct (Fast5File.have_fastqs (Fast5File.self s)); [eexists; reflexivity | ].
  destruct (extract_fastqs_result s paths Hrow) as (s1 & E & _).
  unfold bind. rewrite E. eexists. reflexivity.
Qed.

Lemma ensure_fastas_fresh (s : Fast5File.state) (paths : dict string) :
  dict_getitem fastq_paths (Fast5File.version (Fast5File.self s)) = Ok paths ->
  Fast5File.have_fastas (Fast5File.self s) = false ->
  exists warnings,
    Fast5File.ensure_fastas s
    = (Ok tt,
       Fast5File.State (Fast5File.set_have_fastas true (Fast5File.self s))
         (Fast5File.log s ++ warnings)%list).
Proof.
  intros Hrow Hhave.
  pose proof (table_rows_nodup _ _ Hrow) as Hnd.
  assert (Hp : forall id p, In (id, p) paths ->
                 exists version strand, fastq_path version strand = Ok p).
  { intros id p Hin. exists (Fast5File.version (Fast5File.self s)), id.
    unfold fastq_path. rewrite Hrow. simpl. unfold dict_getitem.
    now rewrite (In_dict_get _ _ _ Hnd Hin). }
  destruct (fastas_loop paths Hp s) as (ws & Hl & _).
  assert (E : Fast5File._extract_fastas_from_fast5 s
              = (Ok tt, Fast5File.State (Fast5File.self s) (Fast5File.log s ++ ws)%list)).
  { unfold Fast5File._extract_fastas_from_fast5, bind, gets, lift.
    rewrite Hrow. exact Hl. }
  exists ws. unfold Fast5File.ensure_fastas, bind, gets, ret. rewrite Hhave.
  unfold bind. rewrite E. reflexivity.
Qed.

(** X25.  A handle that holds no FASTA record never gets one: whatever
    the choice, [get_fastas] returns without raising and every record it
    returns is [None], and [get_fasta] returns [None]; so the container
    is never read for FASTA output. *)
Theorem get_fastas_finds_nothing (choice : string) (s : Fast5File.state)
    (paths : dict string) :
  dict_getitem fastq_paths (Fast5File.version (Fast5File.self s)) = Ok paths ->
  Fast5File.have_fastas (Fast5File.self s) = false ->
  Fast5File.fastas (Fast5File.self s) = [] ->
  exists l s',
    Fast5File.get_fastas choice s = (Ok l, s')
    /\ Forall (fun r => r = None) l
    /\ Fast5File.get_fasta s' = (Ok None, s').
Proof.
  intros Hrow Hhave Hempty.
  destruct (ensure_fastas_fresh s paths Hrow Hhave) as (ws & E).
  unfold Fast5File.get_fastas. unfold bind at 1. rewrite E.
  unfold bind at 1. unfold gets at 1.
  cbn [Fast5File.self Fast5File.fastas Fast5File.set_have_fastas]. rewrite Hempty.
  set (s1 := Fast5File.State (Fast5File.set_have_fastas true (Fast5File.self s))
               (Fast5File.log s ++ ws)%list).
  assert (G : Fast5File.get_fasta s1 = (Ok None, s1)).
  { unfold Fast5File.get_fasta, bind, gets. subst s1. simpl. now rewrite Hempty. }
  destruct (String.eqb choice "all").
  { exists [], s1. repeat split; [constructor | exact G]. }
  destruct (String.eqb choice "fwd").
  { eexists _, s1. split; [reflexivity | ]. split; [repeat constructor | exact G]. }
  destruct (String.eqb choice "rev").
  { eexists _, s1. split; [reflexivity | ]. split; [repeat constructor | exact G]. }
  destruct (String.eqb choice "2D").
  { eexists _, s1. split; [reflexivity | ]. split; [repeat constructor | exact G]. }
  destruct (String.eqb choice "fwd,rev").
  { eexists _, s1. split; [reflexivity | ]. split; [repeat constructor | exact G]. }
  destruct (String.eqb choice "best").
  - assert (Hrow1 : dict_getitem fastq_paths (Fast5File.version (Fast5File.self s1))
                    = Ok paths) by exact Hrow.
    destruct (ensure_fastqs_returns s1 paths Hrow1) as (s2 & E2).
    pose proof (ensure_fastqs_keeps_fastas _ _ _ E2) as K.
    destruct (get_best_type_returns s2) as (r & Eb).
    unfold bind. rewrite E2, Eb. unfold gets, ret.
    assert (Hf2 : Fast5File.fastas (Fast5File.self s2) = []).
    { rewrite K. subst s1. simpl. exact Hempty. }
    rewrite Hf2.
    eexists _, s2. split; [reflexivity | ].
    split.
    + constructor; [ | constructor]. now destruct r.
    + unfold Fast5File.get_fasta, bind, gets. now rewrite Hf2.
  - exists [], s1. repeat split; [constructor | exact G].
Qed.

End NoFasta.

(** ** Event counts *)

Section MoreCounts.
Context `{X : Externals}.

(** X26.  With the table as it is, the event counts are 0 for every
    handle, whatever its container holds, and [is_high_quality] is
    [True]: the path of the event table is formatted with [%], which
    raises on every template of the table. *)
Theorem event_counts_are_zero (s : Fast5File.state) :
  Fast5File.get_template_events_count s = (Ok 0, s)
  /\ Fast5File.get_complement_events_count s = (Ok 0, s)
  /\ Fast5File.is_high_quality s = (Ok true, s).
Proof.
  split; [ | split].
  - apply count_of_unreadable, events_count_unreadable.
  - apply count_of_unreadable, events_count_unreadable.
  - apply is_high_quality_always.
Qed.

(** ** The pre-basecalled events *)

Lemma extract_pre_basecalled_outcome (s s' : Fast5File.state) r :
  Fast5File._extract_pre_basecalled_events s = (r, s') ->
  (exists evs,
     r = Ok tt
     /\ s' = Fast5File.State
               (Fast5File.set_pre_basecalled_events (Some evs) (Fast5File.self s))
               (Fast5File.log s))
  \/ (r <> Ok tt /\ s' = s).
Proof.
  unfold Fast5File._extract_pre_basecalled_events, bind, Fast5File.self_hdf5file,
    gets, lift, Fast5File.on_self, modify.
  destruct (Fast5File.hdf5file (Fast5File.self s)) as [f | ];
    [ | intros [= <- <-]; right; split; [discriminate | reflexivity]].
  repeat match goal with
         | |- context [match ?x with _ => _ end] =>
             lazymatch x with
             | context [match _ with _ => _ end] => fail
             | _ => destruct x;
                    try (intros [= <- <-]; right; split; [discriminate | reflexivity])
             end
         end.
  intros [= <- <-]. left. eexists. split; reflexivity.
Qed.

(** X27.  The pre-basecalled events are extracted once: after a call
    that returned them, the next call returns the same events and changes
    nothing.  A call that raises leaves the handle as it was, so the next
    call tries again. *)
Theorem pre_basecalled_events_once (s s' : Fast5File.state) r :
  Fast5File.get_pre_basecalled_events s = (r, s') ->
  (forall evs, r = Ok evs ->
     Fast5File.get_pre_basecalled_events s' = (Ok evs, s'))
  /\ ((forall evs, r <> Ok evs) -> s' = s).
Proof.
  unfold Fast5File.get_pre_basecalled_events at 1. unfold bind at 1. unfold gets at 1.
  destruct (Fast5File.have_pre_basecalled (Fast5File.self s)) eqn:Hhave.
  - unfold bind, ret, gets.
    destruct (Fast5File.pre_basecalled_events (Fast5File.self s)) as [l | ] eqn:Hev.
    + intros [= <- <-]. split; [ | intros H; now destruct (H l)].
      intros evs [= <-].
      unfold Fast5File.get_pre_basecalled_events, bind, gets, ret.
      now rewrite Hhave, Hev.
    + intros [= <- <-]. split; [intros evs [=] | reflexivity].
  - unfold bind at 1. unfold bind at 1.
    destruct (Fast5File._extract_pre_basecalled_events s) as [r0 s0] eqn:E.
    destruct (extract_pre_basecalled_outcome _ _ _ E) as [(evs & -> & ->) | (Hr & ->)].
    + unfold Fast5File.on_self, modify, bind, gets, ret. simpl.
      intros [= <- <-]. split; [ | intros H; now destruct (H evs)].
      intros evs' [= <-].
      unfold Fast5File.get_pre_basecalled_events, bind, gets, ret. reflexivity.
    + destruct r0 as [[] | e | m]; [now destruct Hr | | ];
        intros [= <- <-]; (split; [intros evs [=] | reflexivity]).
Qed.

End MoreCounts.

(** ** The count, once it is known *)

Section MoreCount.
Context `{X : Externals}.

(** X28.  The count is worked out at most once: after a call that
    returned a number, [get_num_files] returns that number without
    looking at the files again, whatever has become of them. *)
Theorem get_num_files_once (s s' : Fast5FileSet.state) r :
  Fast5FileSet.get_num_files s = (r, s') ->
  Fast5FileSet.get_num_files s' = (r, s')
  /\ forall n, r = Ok (Some n) ->
       forall world lg,
         fst (Fast5FileSet.get_num_files
                (Fast5FileSet.State (Fast5FileSet.self s') world lg))
         = Ok (Some n).
Proof.
  destruct (Fast5FileSet.num_files_in_set (Fast5FileSet.self s)) as [n | ] eqn:Hn.
  { rewrite (get_num_files_known s n Hn). intros [= <- <-].
    split; [now apply get_num_files_known | ].
    intros n' [= <-] world lg. now rewrite get_num_files_known with (n := n). }
  unfold Fast5FileSet.get_num_files at 1. unfold bind, gets, ret. rewrite Hn.
  destruct (Fast5FileSet.set_type (Fast5FileSet.self s)) as [k | ] eqn:Hty.
  - destruct (k =? FAST5SET_TARBALL) eqn:Hk.
    + unfold Fast5FileSet.len_files.
      destruct (Fast5FileSet.files (Fast5FileSet.self s)) as [l | it] eqn:Hf.
      * intros [= <- <-]. split; [ | intros n [=]].
        unfold Fast5FileSet.get_num_files, bind, gets, ret, Fast5FileSet.len_files.
        now rewrite Hn, Hty, Hk, Hf.
      * destruct (TarballFileIterator.__len__ (Fast5FileSet.fs s) it) as [c | e | m] eqn:El.
        -- unfold Fast5FileSet.on_self, modify. simpl. intros [= <- <-].
           split; [now apply get_num_files_known | ].
           intros n [= <-] world lg. now rewrite get_num_files_known with (n := c).
        -- intros [= <- <-]. split; [ | intros n [=]].
           unfold Fast5FileSet.get_num_files, bind, gets, ret, Fast5FileSet.len_files.
           now rewrite Hn, Hty, Hk, Hf, El.
        -- intros [= <- <-]. split; [ | intros n [=]].
           unfold Fast5FileSet.get_num_files, bind, gets, ret, Fast5FileSet.len_files.
           now rewrite Hn, Hty, Hk, Hf, El.
    + rewrite Hn. intros [= <- <-]. split; [ | intros n [=]].
      unfold Fast5FileSet.get_num_files, bind, gets, ret.
      now rewrite Hn, Hty, Hk, Hn.
  - rewrite Hn. intros [= <- <-]. split; [ | intros n [=]].
    unfold Fast5FileSet.get_num_files, bind, gets, ret.
    now rewrite Hn, Hty, Hn.
Qed.

End MoreCount.

(** ** The further properties on the sample inputs *)

(** X1 on the sample container, which is [classic]. *)
Lemma detected_version_has_template_witness :
  h5py_File sample_fs "a.fast5" = Ok (H5Group [] sample_members)
  /\ In (Fast5File.version (Fast5File.self (handle_of "a.fast5"))) basecalled_versions.
Proof.
  split; [reflexivity | ].
  destruct (detected_version_has_template (X := sample_collaborators)
              sample_fs "a.fast5" 0 [] _ eq_refl) as [[H _] | [H _]].
  - exact H.
  - vm_compute in H. discriminate H.
Defined.

(** X2 on a text two groups deep, and on an empty group. *)
Lemma extract_data_follows_fastq_witness :
  let n := group_of [ ("Fastq", group_of [ ("Fastq", H5Dataset [] (DStr "@r")) ]) ] in
  leads_to n "@r"
  /\ extract_data n = Ok (Some "@r")
  /\ dict_get (V := h5node) [] "Fastq" = None
  /\ extract_data (group_of []) = Raise KeyError.
Proof.
  intros n.
  assert (L : leads_to n "@r").
  { eapply leads_group; [reflexivity | ].
    eapply leads_group; [reflexivity | ]. constructor. }
  split; [exact L | ].
  split; [exact (proj2 (proj1 (extract_data_follows_fastq n "@r")) L) | ].
  split; [reflexivity | ].
  exact (proj2 (extract_data_follows_fastq n "@r") [] [] eq_refl).
Defined.

(** X3 on the sample container: only the template has a text. *)
Lemma get_fastq_prefers_witness :
  Fast5File.have_fastqs (Fast5File.self (handle_of "a.fast5")) = false
  /\ Fast5File.fastqs (Fast5File.self (handle_of "a.fast5")) = []
  /\ fst (Fast5File.get_fastq (handle_of "a.fast5"))
     = Ok (Some ("@read a.fast5", "@read")).
Proof.
  split; [reflexivity | ]. split; [reflexivity | ].
  rewrite (get_fastq_prefers (X := sample_collaborators) (handle_of "a.fast5")
             [ ("template", "/Analyses/Basecall_2D_{:03d}/BaseCalled_template");
               ("complement", "/Analyses/Basecall_2D_{:03d}/BaseCalled_complement");
               ("twodirections", "/Analyses/Basecall_2D_{:03d}/BaseCalled_2D");
               ("pre_basecalled", "/Analyses/EventDetection_000/Reads/") ]
             eq_refl eq_refl eq_refl).
  reflexivity.
Defined.

(** X4 on the sample container. *)
Lemma get_fastq_extracts_once_witness :
  let s' := snd (Fast5File.get_fastq (handle_of "a.fast5")) in
  Fast5File.get_fastq s' = (Ok (Some ("@read a.fast5", "@read")), s').
Proof.
  intros s'.
  exact (get_fastq_extracts_once (X := sample_collaborators)
           (handle_of "a.fast5") s' (Ok (Some ("@read a.fast5", "@read"))) eq_refl).
Defined.

(** X5 on the sample container, which has the text of a template. *)
Lemma fasta_extraction_stores_nothing_witness :
  Fast5File.have_fastas (Fast5File.self (handle_of "a.fast5")) = false
  /\ fst (Fast5File.has_2D (handle_of "a.fast5")) = Ok false
  /\ fst (Fast5File.get_fastas_dict (handle_of "a.fast5")) = Ok [].
Proof.
  split; [reflexivity | ].
  destruct (fasta_extraction_stores_nothing (X := sample_collaborators)
              (handle_of "a.fast5")
              [ ("template", "/Analyses/Basecall_2D_{:03d}/BaseCalled_template");
                ("complement", "/Analyses/Basecall_2D_{:03d}/BaseCalled_complement");
                ("twodirections", "/Analyses/Basecall_2D_{:03d}/BaseCalled_2D");
                ("pre_basecalled", "/Analyses/EventDetection_000/Reads/") ]
              eq_refl eq_refl) as (_ & H2 & Hd).
  split; [rewrite H2 | rewrite Hd]; reflexivity.
Defined.

(** X6 on the later container: the sample frequency as stored. *)
Lemma metadata_attribute_total_witness :
  Fast5File.have_metadata (Fast5File.self (handle_of "later.fast5")) = false
  /\ fst (Fast5File.metadata_attribute "context_tags" "sample_frequency"
            (handle_of "later.fast5")) = Ok (Some (AInt 4000))
  /\ fst (Fast5File.get_run_id (handle_of "later.fast5")) = Ok None.
Proof.
  split; [reflexivity | ].
  split.
  - destruct (metadata_attribute_total (X := sample_collaborators)
                "context_tags" "sample_frequency" (handle_of "later.fast5") eq_refl)
      as (H & _).
    rewrite H. reflexivity.
  - unfold Fast5File.get_run_id.
    destruct (metadata_attribute_total (X := sample_collaborators)
                "tracking_id" "run_id" (handle_of "later.fast5") eq_refl)
      as (H & _).
    rewrite H. reflexivity.
Defined.

(** X7 on a container that stores a [version]. *)
Lemma get_minknow_version_reads_verssion_witness :
  stored_attribute (group_of
                      [ ("context_tags", H5Group [ ("version", AStr "1.4.2") ] []);
                        ("tracking_id", H5Group [ ("flow_cell_id", AStr "FAB1") ] []) ])
    "context_tags" "version" = Ok (AStr "1.4.2")
  /\ fst (Fast5File.get_minknow_version (handle_on "numbered.fast5")) = Ok None.
Proof.
  split; [reflexivity | ].
  exact (proj1 (get_minknow_version_reads_verssion (X := sample_collaborators)
                  (handle_on "numbered.fast5"))
           _ eq_refl eq_refl).
Defined.

(** X10 on the empty container: three calls, three warnings. *)
Lemma get_script_name_looks_up_again_witness :
  metadata_root (Fast5File.self (handle_of "empty.fast5")) = None
  /\ Fast5File.log (script_name_calls 3 (handle_of "empty.fast5"))
     = [keyinfo_warning; keyinfo_warning; keyinfo_warning].
Proof.
  split; [reflexivity | ].
  exact (proj2 (get_script_name_looks_up_again (X := sample_collaborators) 3
                  (handle_of "empty.fast5") eq_refl eq_refl)).
Defined.

(** X11 on a path that names nothing and on a text file. *)
Lemma closed_handle_is_empty_witness :
  fst (Fast5File.get_fastq
         (handle_for (X := sample_collaborators) sample_fs 0 [] "missing.fast5"))
  = Ok None
  /\ Fast5File.version
       (Fast5File.self
          (handle_for (X := sample_collaborators) sample_fs 0 [] "run/1/notes.txt"))
     = "closed".
Proof.
  split.
  - assert (H : forall root, h5py_File sample_fs "missing.fast5" <> Ok root)
      by (intros root E; discriminate E).
    exact (proj1 (proj2 (proj2 (proj2
             (closed_handle_is_empty (X := sample_collaborators)
                sample_fs "missing.fast5" 0 [] H))))).
  - assert (H : forall root, h5py_File sample_fs "run/1/notes.txt" <> Ok root)
      by (intros root E; discriminate E).
    exact (proj1 (closed_handle_is_empty (X := sample_collaborators)
                    sample_fs "run/1/notes.txt" 0 [] H)).
Defined.

(** X12 on a path that names nothing. *)
Lemma closed_handle_timing_raises_witness :
  fst (Fast5File.get_end_time
         (handle_for (X := sample_collaborators) sample_fs 0 [] "missing.fast5"))
  = Raise TypeError.
Proof.
  assert (H : forall root, h5py_File sample_fs "missing.fast5" <> Ok root)
    by (intros root E; discriminate E).
  exact (proj1 (proj2 (proj2
           (closed_handle_timing_raises (X := sample_collaborators)
              sample_fs "missing.fast5" 0 [] H)))).
Defined.

(** X13 on the basecalled container: its events have a duration, which
    is never reached. *)
Lemma timing_needs_raw_reads_witness :
  Fast5File.version (Fast5File.self (handle_on "basecalled.fast5")) = "metrichor1.16"
  /\ h5_get (H5Group [] basecalled_members) "Raw/Reads" = None
  /\ fst (Fast5File.get_duration (handle_on "basecalled.fast5")) = Raise TypeError.
Proof.
  split; [reflexivity | ]. split; [reflexivity | ].
  destruct (timing_needs_raw_reads (X := sample_collaborators)
              (handle_on "basecalled.fast5") (H5Group [] basecalled_members)
              eq_refl eq_refl) as (H & _).
  rewrite H. reflexivity.
Defined.

(** X14 on the later container, which has a raw read and no basecall
    group. *)
Lemma read_number_needs_basecall_group_witness :
  h5_get (H5Group [] later_members) "Raw/Reads/Read_7"
  = Some (H5Group [ ("duration", AInt 8000); ("start_time", AInt 12000) ] [])
  /\ fst (Fast5File.get_read_number (C := sample_links) (handle_of "later.fast5"))
     = Raise KeyError.
Proof.
  split; [reflexivity | ].
  destruct (read_number_needs_basecall_group (C := sample_links)
              (handle_of "later.fast5") [] later_members eq_refl eq_refl) as (H & _).
  rewrite H. reflexivity.
Defined.

(** X15 on the numbered container. *)
Lemma read_number_from_raw_read_witness :
  fst (Fast5File.get_read_number (C := sample_links) (handle_on "numbered.fast5"))
  = Ok (Some 7)
  /\ fst (Fast5File.get_start_mux (C := sample_links) (handle_on "numbered.fast5"))
     = Ok (Some 2).
Proof.
  destruct (read_number_from_raw_read (C := sample_links)
              (handle_on "numbered.fast5") [] numbered_members (group_of [])
              (H5Group [ ("read_number", AInt 7); ("start_mux", AStr "2") ] [])
              eq_refl eq_refl eq_refl eq_refl) as (H1 & H2).
  split; [rewrite H1 | rewrite H2]; reflexivity.
Defined.

(** X16 on a list whose second path names nothing. *)
Lemma drain_of_list_witness :
  map Fast5File.version (drain (X := sample_collaborators) 3 list_set)
  = [ "classic"; "closed"; "prebasecalled" ].
Proof.
  rewrite (drain_of_list (X := sample_collaborators)
             ["a.fast5"; "missing.fast5"; "later.fast5"] list_set 3 eq_refl).
  - reflexivity.
  - simpl. lia.
Defined.

(** X17 on the sample directory: three files, three handles. *)
Lemma count_is_number_yielded_witness :
  fst (Fast5FileSet.get_num_files directory_set) = Ok (Some 3)
  /\ length (drain (X := sample_collaborators) 4 directory_set) = 3%nat.
Proof.
  destruct (count_is_number_yielded (X := sample_collaborators)
              (Fast5FileSet.OfStr "run") 0 sample_fs [] directory_set eq_refl)
    as (paths & Hf & Hn & Hd & _).
  - intros E. discriminate E.
  - injection Hf as <-. split; [exact Hn | exact Hd].
Defined.

(** X18 on the empty list, and on a path that names nothing, which
    raises. *)
Lemma empty_fileset_exits_witness :
  fst (Fast5FileSet.__init__ (Fast5FileSet.OfList []) 0 sample_fs []) = Exit None
  /\ Fast5FileSet.log
       (snd (Fast5FileSet.__init__ (Fast5FileSet.OfList []) 0 sample_fs []))
     = [empty_fileset_error]
  /\ no_exit (fst (Fast5FileSet.__init__ (Fast5FileSet.OfStr "nowhere") 0 sample_fs [])).
Proof.
  destruct (empty_fileset_exits (Fast5FileSet.OfList []) 0 sample_fs []) as (H & _).
  destruct (empty_fileset_exits (Fast5FileSet.OfStr "nowhere") 0 sample_fs [])
    as (_ & H').
  rewrite (H eq_refl).
  split; [reflexivity | ]. split; [reflexivity | ].
  apply H'. intros E. discriminate E.
Defined.


(** X20 on the sample directory, one of whose three files is a text
    file, and on an empty one. *)
Lemma directory_count_witness :
  fst (Fast5FileSet.get_num_files directory_set) = Ok (Some 3)
  /\ Fast5FileSet.log
       (snd (Fast5FileSet.__init__ (Fast5FileSet.OfStr "d") 0 [ ("d", FsDir []) ] []))
     = [empty_directory_warning].
Proof.
  split.
  - destruct (directory_count (Fast5FileSet.OfStr "run") "run" _ 0 sample_fs []
                eq_refl eq_refl) as (s & E & _ & Hn & _).
    unfold directory_set. rewrite E. exact Hn.
  - destruct (directory_count (Fast5FileSet.OfStr "d") "d" _ 0 [ ("d", FsDir []) ] []
                eq_refl eq_refl) as (s & E & _ & _ & Hl).
    rewrite E. exact Hl.
Defined.

(** X21 on the sample container once its records are extracted. *)
Lemma best_type_names_a_record_witness :
  fst (Fast5File.get_best_type (C := sample_links)
         (snd (Fast5File.get_fastq (handle_of "a.fast5"))))
  = Ok (Some "template").
Proof.
  destruct (best_type_names_a_record (C := sample_links)
              (snd (Fast5File.get_fastq (handle_of "a.fast5"))))
    as (r & E & _ & Hk & Hnone).
  rewrite E. cbn [fst].
  destruct r as [k | ].
  - destruct (Hk k eq_refl) as ([<- | [<- | [<- | []]]] & Hc).
    + vm_compute in Hc. discriminate Hc.
    + reflexivity.
    + vm_compute in Hc. discriminate Hc.
  - assert (E' : fst (Fast5File.get_best_type (C := sample_links)
                        (snd (Fast5File.get_fastq (handle_of "a.fast5")))) = Ok None)
      by (rewrite E; reflexivity).
    change (Ok (Some "template") = Ok None) in E'. discriminate E'.
Defined.

(** X22 on a handler of the sample directory that is sent one event. *)
Lemma dir_handler_is_a_queue_witness :
  drain_handler 5
    (after_events ["run/y.fast5"]
       (Fast5DirHandler.__init__ (fun _ d => [d ++ "/x.fast5"]) sample_fs "run"))
  = ["run/x.fast5"; "run/y.fast5"].
Proof.
  destruct (dir_handler_is_a_queue (fun _ d => [d ++ "/x.fast5"]) sample_fs "run"
              ["run/y.fast5"] 5) as (_ & H & _).
  - simpl. lia.
  - rewrite H. reflexivity.
Defined.

(** X23 on a member of a hidden directory, and on a hidden member. *)
Lemma filter_looks_at_base_name_witness :
  TarballFileIterator._fast5_filename_filter ".staged/a.fast5" = true
  /\ TarballFileIterator._fast5_filename_filter "reads/.a.fast5" = false.
Proof.
  split.
  - exact (filter_looks_at_base_name ".staged" "a.fast5" eq_refl).
  - exact (filter_looks_at_base_name "reads" ".a.fast5" eq_refl).
Defined.

(** X24 on a working directory with a stale staging directory. *)
Lemma archive_staging_witness :
  dict_get stale_fs PORETOOLS_TMPDIR = Some (FsDir [ ("old.fast5", FsOther) ])
  /\ dict_get
       (Fast5FileSet.fs
          (snd (Fast5FileSet.__init__ (Fast5FileSet.OfStr "reads.tar") 0 stale_fs [])))
       PORETOOLS_TMPDIR
     = Some (FsDir []).
Proof.
  split; [reflexivity | ].
  destruct (archive_staging (Fast5FileSet.OfStr "reads.tar") "reads.tar" 0 stale_fs []
              eq_refl eq_refl) as (H & _).
  exact (proj1 (H _ eq_refl)).
Defined.

(** X25 on the sample container, for the best and the forward record. *)
Lemma get_fastas_finds_nothing_witness :
  fst (Fast5File.get_fastas (C := sample_links) "best" (handle_of "a.fast5"))
  = Ok [None]
  /\ fst (Fast5File.get_fastas (C := sample_links) "fwd" (handle_of "a.fast5"))
     = Ok [None].
Proof.
  split.
  - destruct (get_fastas_finds_nothing (C := sample_links) "best" (handle_of "a.fast5")
                [ ("template", "/Analyses/Basecall_2D_{:03d}/BaseCalled_template");
                  ("complement", "/Analyses/Basecall_2D_{:03d}/BaseCalled_complement");
                  ("twodirections", "/Analyses/Basecall_2D_{:03d}/BaseCalled_2D");
                  ("pre_basecalled", "/Analyses/EventDetection_000/Reads/") ]
                eq_refl eq_refl eq_refl) as (l & s' & E & _).
    assert (E' : fst (Fast5File.get_fastas (C := sample_links) "best"
                        (handle_of "a.fast5")) = Ok l) by (rewrite E; reflexivity).
    change (Ok [None] = Ok l) in E'. injection E' as <-. reflexivity.
  - destruct (get_fastas_finds_nothing (C := sample_links) "fwd" (handle_of "a.fast5")
                [ ("template", "/Analyses/Basecall_2D_{:03d}/BaseCalled_template");
                  ("complement", "/Analyses/Basecall_2D_{:03d}/BaseCalled_complement");
                  ("twodirections", "/Analyses/Basecall_2D_{:03d}/BaseCalled_2D");
                  ("pre_basecalled", "/Analyses/EventDetection_000/Reads/") ]
                eq_refl eq_refl eq_refl) as (l & s' & E & _).
    assert (E' : fst (Fast5File.get_fastas (C := sample_links) "fwd"
                        (handle_of "a.fast5")) = Ok l) by (rewrite E; reflexivity).
    change (Ok [None] = Ok l) in E'. injection E' as <-. reflexivity.
Defined.

(** X27 on the numbered container, which has two events, and on the
    empty one, which has no event group. *)
Lemma pre_basecalled_events_once_witness :
  (let s' := snd (Fast5File.get_pre_basecalled_events (handle_on "numbered.fast5")) in
   Fast5File.get_pre_basecalled_events s' = (Ok [ [AInt 1]; [AInt 2] ], s'))
  /\ Fast5File.get_pre_basecalled_events (handle_of "empty.fast5")
     = (Raise KeyError, handle_of "empty.fast5").
Proof.
  split.
  - intros s'.
    exact (proj1 (pre_basecalled_events_once (X := sample_collaborators)
                    (handle_on "numbered.fast5") s' (Ok [ [AInt 1]; [AInt 2] ]) eq_refl)
             _ eq_refl).
  - pose (s1 := snd (Fast5File.get_pre_basecalled_events (handle_of "empty.fast5"))).
    assert (H : s1 = handle_of "empty.fast5").
    { apply (proj2 (pre_basecalled_events_once (X := sample_collaborators)
                      (handle_of "empty.fast5") s1 (Raise KeyError) eq_refl)).
      intros evs E. discriminate E. }
    rewrite <- H at 2. reflexivity.
Defined.

(** X28 on the sample archive: the count survives the archive. *)
Lemma get_num_files_once_witness :
  let s' := snd (Fast5FileSet.get_num_files archive_set) in
  fst (Fast5FileSet.get_num_files
         (Fast5FileSet.State (Fast5FileSet.self s') [] []))
  = Ok (Some 4).
Proof.
  intros s'.
  exact (proj2 (get_num_files_once archive_set s' (Ok (Some 4)) eq_refl)
           4 eq_refl [] []).
Defined.
